(** * Film search bot: candidate pipeline, detail cache and session state

    A shallow embedding of the Python sources [utils.py], [cache.py],
    [movie_search.py] and the session part of [handlers.py], and the
    properties of the design document checked against them.

    Conventions of the embedding.
    - Python [str] is [string], one character a byte: the model is that
      of ASCII texts. The character tests ([isspace], [isupper], [lower],
      ...) and the patterns are the ASCII ones; a text with a character
      above 127 (where [str.lower], [str.isalpha], [len] and
      [re.IGNORECASE] follow Unicode) is outside the model.
    - Python [float] ratings and popularities are rationals ([Q]); the
      constants they are compared with (7.0, 6.5, 8.5) are exact in binary
      floating point, so the comparisons agree. Arithmetic on them (the
      scores) is rounded to binary64.
    - A TMDb JSON object is a record; a key read with [d.get(k, default)] is
      a field that holds the default when the key is absent.
    - The catalog, the memory store and the clock are a [World] of answers;
      the code that awaits them runs in a small monad that threads the
      detail cache and the time, and lists every gateway call. *)

From Stdlib Require Import ZArith QArith Bool List String Ascii Lia.
From Stdlib Require Import Sorted Permutation.
From Stdlib Require Import DecimalString.
From Stdlib Require DecimalPos DecimalZ.
Import ListNotations.

Local Close Scope Q_scope.
Local Open Scope nat_scope.
Local Open Scope string_scope.
Local Open Scope bool_scope.
Local Open Scope list_scope.

(* ===================================================================== *)
(** ** Python string primitives *)
(* ===================================================================== *)

Module PyStr.

Definition code (c : ascii) : nat := nat_of_ascii c.

Definition between (lo hi : nat) (c : ascii) : bool :=
  Nat.leb lo (code c) && Nat.leb (code c) hi.

(** [str.isspace] on ASCII: TAB..CR, FS..US and the blank. *)
Definition isspace (c : ascii) : bool :=
  between 9 13 c || between 28 32 c.

Definition isupper (c : ascii) : bool := between 65 90 c.
Definition islower (c : ascii) : bool := between 97 122 c.
Definition isletter (c : ascii) : bool := isupper c || islower c.
Definition isdigit (c : ascii) : bool := between 48 57 c.

Definition lower_char (c : ascii) : ascii :=
  if isupper c then ascii_of_nat (code c + 32) else c.
Definition upper_char (c : ascii) : ascii :=
  if islower c then ascii_of_nat (code c - 32) else c.

Fixpoint map_chars (f : ascii -> ascii) (s : string) : string :=
  match s with
  | EmptyString => EmptyString
  | String c s' => String (f c) (map_chars f s')
  end.

(** [s.lower()] *)
Definition lower (s : string) : string := map_chars lower_char s.

Fixpoint all_chars (p : ascii -> bool) (s : string) : bool :=
  match s with
  | EmptyString => true
  | String c s' => p c && all_chars p s'
  end.

(** [s.isascii()] *)
Definition isascii (s : string) : bool :=
  all_chars (fun c => Nat.ltb (code c) 128) s.

(** [s.isalpha()]: non-empty and letters only. *)
Definition isalpha (s : string) : bool :=
  match s with
  | EmptyString => false
  | _ => all_chars isletter s
  end.

Fixpoint lstrip (s : string) : string :=
  match s with
  | String c s' => if isspace c then lstrip s' else s
  | EmptyString => EmptyString
  end.

Fixpoint rstrip (s : string) : string :=
  match s with
  | EmptyString => EmptyString
  | String c s' =>
      match rstrip s' with
      | EmptyString => if isspace c then EmptyString else String c EmptyString
      | t => String c t
      end
  end.

(** [s.strip()] *)
Definition strip (s : string) : string := rstrip (lstrip s).

(** [s.startswith(p)] *)
Definition startswith (p s : string) : bool := String.prefix p s.

(** [needle in hay] *)
Fixpoint contains (needle hay : string) : bool :=
  String.prefix needle hay
  || match hay with
     | EmptyString => false
     | String _ hay' => contains needle hay'
     end.

(** [s.split()]: maximal runs of non-blank characters. [cur] is the word
    being read, reversed. *)
Fixpoint rev_string (acc s : string) : string :=
  match s with
  | EmptyString => acc
  | String c s' => rev_string (String c acc) s'
  end.

Fixpoint split_ws_aux (cur : string) (s : string) : list string :=
  match s with
  | EmptyString =>
      match cur with
      | EmptyString => []
      | _ => [rev_string EmptyString cur]
      end
  | String c s' =>
      if isspace c then
        match cur with
        | EmptyString => split_ws_aux EmptyString s'
        | _ => rev_string EmptyString cur :: split_ws_aux EmptyString s'
        end
      else split_ws_aux (String c cur) s'
  end.

Definition split (s : string) : list string := split_ws_aux EmptyString s.

(** [s.split(sep)] for a one-character separator: never empty. *)
Fixpoint split_on_aux (sep : ascii) (cur : string) (s : string) : list string :=
  match s with
  | EmptyString => [rev_string EmptyString cur]
  | String c s' =>
      if Ascii.eqb c sep
      then rev_string EmptyString cur :: split_on_aux sep EmptyString s'
      else split_on_aux sep (String c cur) s'
  end.

Definition split_on (sep : ascii) (s : string) : list string :=
  split_on_aux sep EmptyString s.

(** [sep.join(l)] *)
Fixpoint join (sep : string) (l : list string) : string :=
  match l with
  | [] => EmptyString
  | [x] => x
  | x :: rest => (x ++ sep ++ join sep rest)%string
  end.

(** [s.title()]: a letter that follows a non-letter is upper-cased, any
    other letter lower-cased. *)
Fixpoint title_aux (prev_letter : bool) (s : string) : string :=
  match s with
  | EmptyString => EmptyString
  | String c s' =>
      String (if prev_letter then lower_char c else upper_char c)
             (title_aux (isletter c) s')
  end.

Definition title (s : string) : string := title_aux false s.

(** [s[:n]] *)
Definition take (n : nat) (s : string) : string := String.substring 0 n s.

(** Truth value of a string: non-empty. *)
Definition truthy (s : string) : bool :=
  match s with EmptyString => false | _ => true end.

(** The blanks that [int] skips around an ASCII literal: TAB..CR and the
    blank, without the separators FS..US that [str.strip] removes. *)
Definition isblank_int (c : ascii) : bool :=
  between 9 13 c || Nat.eqb (code c) 32.

Fixpoint lstrip_int (s : string) : string :=
  match s with
  | String c s' => if isblank_int c then lstrip_int s' else s
  | EmptyString => EmptyString
  end.

Fixpoint rstrip_int (s : string) : string :=
  match s with
  | EmptyString => EmptyString
  | String c s' =>
      match rstrip_int s' with
      | EmptyString => if isblank_int c then EmptyString else String c EmptyString
      | t => String c t
      end
  end.

(** [int(s)] for the decimal literals the catalog can send: blanks around,
    an optional sign, digits with single underscores between them.
    [None] is Python's [ValueError]. *)
Fixpoint digits_value (acc : Z) (prev_digit : bool) (s : string) : option Z :=
  match s with
  | EmptyString => if prev_digit then Some acc else None
  | String c s' =>
      if isdigit c then
        digits_value (10 * acc + Z.of_nat (code c - 48))%Z true s'
      else if Ascii.eqb c "_" then
        if prev_digit then digits_value acc false s' else None
      else None
  end.

Definition int_of_string (s : string) : option Z :=
  match rstrip_int (lstrip_int s) with
  | String "+" t => digits_value 0%Z false t
  | String "-" t => option_map Z.opp (digits_value 0%Z false t)
  | t => digits_value 0%Z false t
  end.

End PyStr.

(* ===================================================================== *)
(** ** The patterns of [re], by backtracking *)
(* ===================================================================== *)

Module Re.

(** The fragment of Python's pattern language the sources use. [Star g r] is
    [r*] when [g] is [true] and the lazy [r*?] otherwise; [Group] is the
    capturing group number 1; [EndAnchor] is [$]. *)
Inductive regex : Type :=
| Eps : regex
| Sym : (ascii -> bool) -> regex
| Cat : regex -> regex -> regex
| Alt : regex -> regex -> regex
| Star : bool -> regex -> regex
| Group : regex -> regex
| EndAnchor : regex.

(** [$] holds at the end of the text and just before a final newline. *)
Definition at_end (s : string) : bool :=
  match s with
  | EmptyString => true
  | String c EmptyString => Ascii.eqb c "010"
  | _ => false
  end.

(** The text read between the positions [s] and its suffix [s']. *)
Definition consumed (s s' : string) : string :=
  String.substring 0 (String.length s - String.length s') s.

(** Backtracking matcher in continuation-passing style: [run r s g k] reads
    a word of [r] from the front of [s] and passes the rest of the input and
    the text of group 1 to [k]; alternatives are tried in the order of the
    [re] module (left branch first, a greedy star takes one more round
    first, a lazy one stops first). A round of a star must read at least
    one character, which bounds the rounds by the length of the input. *)
Fixpoint run {R : Type} (r : regex) (s : string) (g : option string)
         (k : string -> option string -> option R) : option R :=
  match r with
  | Eps => k s g
  | Sym p =>
      match s with
      | String c s' => if p c then k s' g else None
      | EmptyString => None
      end
  | Cat a b => run a s g (fun s' g' => run b s' g' k)
  | Alt a b =>
      match run a s g k with
      | Some x => Some x
      | None => run b s g k
      end
  | Star greedy a =>
      (fix rounds (n : nat) (s : string) (g : option string) : option R :=
         match n with
         | O => k s g
         | S n' =>
             let again (_ : unit) :=
               run a s g (fun s' g' =>
                 if Nat.ltb (String.length s') (String.length s)
                 then rounds n' s' g' else None) in
             if greedy then
               match again tt with
               | Some x => Some x
               | None => k s g
               end
             else
               match k s g with
               | Some x => Some x
               | None => again tt
               end
         end) (S (String.length s)) s g
  | Group a => run a s g (fun s' _ => k s' (Some (consumed s s')))
  | EndAnchor => if at_end s then k s g else None
  end.

(** [re.match(r, s)]: a match at the start of [s]; the value is the text of
    group 1 ([None] inside when the group took no part). *)
Definition match_ (r : regex) (s : string) : option (option string) :=
  run r s None (fun _ g => Some g).

(** [re.search(r, s)]: the leftmost match. *)
Fixpoint search (r : regex) (s : string) : option (option string) :=
  match match_ r s with
  | Some g => Some g
  | None =>
      match s with
      | EmptyString => None
      | String _ s' => search r s'
      end
  end.

Definition found {A : Type} (m : option A) : bool :=
  match m with Some _ => true | None => false end.

Definition plus (r : regex) : regex := Cat r (Star true r).
Definition plus_lazy (r : regex) : regex := Cat r (Star false r).
Definition opt (r : regex) : regex := Alt r Eps.

(** A character, and a literal word, under [re.IGNORECASE]. *)
Definition chr_ci (c : ascii) : regex :=
  Sym (fun x => Ascii.eqb (PyStr.lower_char x) (PyStr.lower_char c)).

Fixpoint lit_ci (s : string) : regex :=
  match s with
  | EmptyString => Eps
  | String c s' => Cat (chr_ci c) (lit_ci s')
  end.

(** [\s], [\d], and [[A-Z]] or [[a-z]] under [re.IGNORECASE]. *)
Definition space : regex := Sym PyStr.isspace.
Definition digit : regex := Sym PyStr.isdigit.
Definition letter : regex := Sym PyStr.isletter.

Fixpoint alts (l : list regex) : regex :=
  match l with
  | [] => Sym (fun _ => false)
  | [r] => r
  | r :: rest => Alt r (alts rest)
  end.

Fixpoint cats (l : list regex) : regex :=
  match l with
  | [] => Eps
  | [r] => r
  | r :: rest => Cat r (cats rest)
  end.

End Re.

(* ===================================================================== *)
(** ** Python floats *)
(* ===================================================================== *)

(** A Python [float] is an IEEE 754 binary64 number. A finite float is
    modelled by the rational it denotes, and the infinities by [2^1024] and
    its opposite, which lie beyond every finite float; an arithmetic
    operation is the exact operation followed by [round]. The scores never
    subtract two infinities, so no NaN is needed. *)
Module Float64.

(** [n/d >= 2^k], for positive [n] and [d]. *)
Definition ge_pow2 (n d k : Z) : bool :=
  if (0 <=? k)%Z then (d * 2 ^ k <=? n)%Z else (d <=? n * 2 ^ (- k))%Z.

(** The largest [k] with [2^k <= n/d], for positive [n] and [d]. *)
Definition floor_log2 (n d : Z) : Z :=
  let k := (Z.log2 n - Z.log2 d)%Z in
  if ge_pow2 n d k then k else (k - 1)%Z.

(** [num/den] rounded to the nearest integer, ties to even. *)
Definition nearest_even (num den : Z) : Z :=
  let q := (num / den)%Z in
  let r := (num mod den)%Z in
  match (2 * r ?= den)%Z with
  | Lt => q
  | Gt => (q + 1)%Z
  | Eq => if Z.even q then q else (q + 1)%Z
  end.

(** A positive [n/d] rounded to 53 significant bits, or to a multiple of
    [2^-1074] in the subnormal range. *)
Definition round_pos (n d : Z) : Q :=
  let e := Z.max (floor_log2 n d - 52) (-1074) in
  let m := if (0 <=? e)%Z then nearest_even n (d * 2 ^ e)
           else nearest_even (n * 2 ^ (- e)) d in
  if (0 <=? e)%Z then inject_Z (m * 2 ^ e)
  else Qred (Qmake m (Z.to_pos (2 ^ (- e)))).

Definition infinity : Q := inject_Z (2 ^ 1024).

(** What rounds to [2^1024] or beyond is [inf]. *)
Definition overflow (q : Q) : Q := if Qle_bool infinity q then infinity else q.

(** Rounding to nearest, ties to even: the float of a decimal literal, of
    an [int], and of the exact result of an operation. *)
Definition round (q : Q) : Q :=
  match Qnum q with
  | Z0 => 0%Q
  | Zpos n => overflow (round_pos (Zpos n) (Zpos (Qden q)))
  | Zneg n => Qopp (overflow (round_pos (Zpos n) (Zpos (Qden q))))
  end.

Definition of_int (z : Z) : Q := round (inject_Z z).
Definition add (x y : Q) : Q := round (x + y)%Q.
Definition sub (x y : Q) : Q := round (x - y)%Q.
Definition mul (x y : Q) : Q := round (x * y)%Q.

(** [min(x, y)] *)
Definition min (x y : Q) : Q := if negb (Qle_bool x y) then y else x.

End Float64.

(* ===================================================================== *)
(** ** config.py *)
(* ===================================================================== *)

Definition TMDB_IMAGE_BASE_URL : string := "https://image.tmdb.org/t/p/w500".

Definition MIN_RATING : Q := 7 # 1.
Definition MIN_VOTE_COUNT : Z := 500.
Definition MIN_RATING_FALLBACK : Q := 65 # 10.
Definition MIN_VOTE_COUNT_FALLBACK : Z := 300.
Definition MAX_CACHE_SIZE : nat := 100.

(** [GENRE_MAP], in the insertion order of the dict literal. *)
Definition GENRE_MAP : list (string * Z) :=
  [ ("detective", 80); ("crime", 80); ("mystery", 9648); ("thriller", 53);
    ("horror", 27); ("comedy", 35); ("action", 28); ("romance", 10749);
    ("drama", 18); ("sci-fi", 878); ("science fiction", 878);
    ("fantasy", 14); ("christmas", 10751); ("xmas", 10751);
    ("holiday", 10751); ("noir", 80); ("western", 37); ("adventure", 12);
    ("war", 10752); ("animation", 16); ("documentary", 99) ]%Z.

(* ===================================================================== *)
(** ** utils.py: validate_and_build_poster_url *)
(* ===================================================================== *)

(** [[a-zA-Z0-9_\-/]] *)
Definition path_char (c : ascii) : bool :=
  PyStr.isletter c || PyStr.isdigit c
  || Ascii.eqb c "_" || Ascii.eqb c "-" || Ascii.eqb c "/".

(** [(jpg|jpeg|png|webp)] *)
Definition image_ext : Re.regex :=
  Re.alts [Re.lit_ci "jpg"; Re.lit_ci "jpeg"; Re.lit_ci "png"; Re.lit_ci "webp"].

(** [^/[a-zA-Z0-9_\-/]+\.(jpg|jpeg|png|webp)$] *)
Definition valid_pattern : Re.regex :=
  Re.cats [Re.chr_ci "/"; Re.plus (Re.Sym path_char); Re.chr_ci ".";
           image_ext; Re.EndAnchor].

(** [^https://image\.tmdb\.org/t/p/w\d+/[a-zA-Z0-9_\-/]+\.(jpg|jpeg|png|webp)$] *)
Definition url_pattern : Re.regex :=
  Re.cats [Re.lit_ci "https://image.tmdb.org/t/p/w"; Re.plus Re.digit;
           Re.chr_ci "/"; Re.plus (Re.Sym path_char); Re.chr_ci ".";
           image_ext; Re.EndAnchor].

Definition suspicious_patterns : list Re.regex :=
  map Re.lit_ci
    ["http"; "https"; "<script"; "javascript"; "data:";
     ".com"; ".org"; ".net"; "www."].

(** The path the checks are run on: stripped, and given a leading slash when
    it has none (lines 17-23 of [utils.py]). *)
Definition normalize_poster_path (poster_path : string) : string :=
  let p := PyStr.strip poster_path in
  if PyStr.startswith "/" p then p else ("/" ++ p)%string.

Definition validate_and_build_poster_url (poster_path : string) : string :=
  if negb (PyStr.truthy poster_path) then ""
  else
    let stripped := PyStr.strip poster_path in
    if negb (PyStr.truthy stripped) || Nat.ltb (String.length stripped) 5 then ""
    else
      let p := if PyStr.startswith "/" stripped then stripped
               else ("/" ++ stripped)%string in
      if negb (Re.found (Re.match_ valid_pattern p)) then ""
      else if existsb (fun pat => Re.found (Re.search pat p)) suspicious_patterns then ""
      else
        let poster_url := (TMDB_IMAGE_BASE_URL ++ p)%string in
        if negb (PyStr.startswith "https://image.tmdb.org/t/p/w" poster_url) then ""
        else if negb (Re.found (Re.match_ url_pattern poster_url)) then ""
        else poster_url.


(* ===================================================================== *)
(** ** Data model *)
(* ===================================================================== *)

(** A key of a dict that may be absent, hold [None] (a JSON [null]) or hold
    a value: the title of a TMDb object, and the keys of
    [context.user_data] that the code both deletes and sets to [None]. *)
Inductive Slot (A : Type) : Type :=
| Absent : Slot A
| PyNone : Slot A
| Held : A -> Slot A.

Arguments Absent {A}.
Arguments PyNone {A}.
Arguments Held {A} _.

(** [d.get(key, default)]: [None] is Python's [None]. *)
Definition slot_get {A : Type} (o : Slot A) (default : A) : option A :=
  match o with
  | Absent => Some default
  | PyNone => None
  | Held a => Some a
  end.

(** [x or ""], and the places that only test [x] for truth before they
    read it as a text. *)
Definition or_empty (o : option string) : string :=
  match o with Some s => s | None => "" end.

(** [f"{x}"] *)
Definition format_text (o : option string) : string :=
  match o with Some s => s | None => "None" end.

(** A movie object of a TMDb list answer (search, discovery, credits). The
    key ["id"] is optional; the key ["title"] may be absent or [null], which
    the readers tell apart ([get("title", "")], [get("title", "Unknown")],
    [.lower()] on the value); the other keys hold the default of their
    [get], and a [null] there reads like the default wherever it is
    read. *)
Record Movie : Type := mkMovie {
  m_id : option Z;
  m_title : Slot string;
  m_overview : string;
  m_release_date : string;
  m_vote_average : Q;
  m_vote_count : Z;
  m_popularity : Q;
  m_poster_path : string
}.

(** The JSON object of [GET /movie/{id}]. *)
Record Details : Type := mkDetails {
  d_id : Z;
  d_title : option string;
  d_vote_average : option Q;
  d_vote_count : Z;
  d_overview : string;
  d_genres : list string;
  d_runtime : Z;
  d_poster_path : string
}.

(** The [movie_data] dict handed to the session and stored in the cache. The
    follow-up entries of an actor queue have no ["genres"] and ["runtime"]
    keys, and take their ["id"] from [r.get("id")] and their ["title"] from
    [r.get("title", "Unknown")], which is [None] for a [null] title. *)
Record MovieData : Type := mkMovieData {
  md_id : option Z;
  md_title : option string;
  md_rating : Q;
  md_poster_url : string;
  md_trailer_url : string;
  md_overview : string;
  md_genres : option (list string);
  md_runtime : option Z
}.

Definition get_or {A : Type} (o : option A) (default : A) : A :=
  match o with Some x => x | None => default end.

(** Truth value of an id: [None] and [0] are false. *)
Definition id_truthy (o : option Z) : bool :=
  match o with
  | Some z => negb (z =? 0)%Z
  | None => false
  end.

Definition mem_Z (z : Z) (l : list Z) : bool := existsb (Z.eqb z) l.

(** [movie_id in ids] for the value of [r.get("id")]. *)
Definition id_in (o : option Z) (ids : list Z) : bool :=
  match o with
  | Some z => mem_Z z ids
  | None => false
  end.

Definition nonempty {A : Type} (l : list A) : bool :=
  match l with [] => false | _ => true end.

(** [set(int(id) for id in excluded_ids if id)] *)
Definition make_excluded_set (excluded_ids : list Z) : list Z :=
  filter (fun id => negb (id =? 0)%Z) excluded_ids.

(** [l[-n:]] *)
Definition lastn {A : Type} (n : nat) (l : list A) : list A :=
  skipn (List.length l - n) l.

(** [list.sort(key=..., reverse=True)]: stable, [gt a b] is [key a > key b]. *)
Fixpoint insert_desc {A : Type} (gt : A -> A -> bool) (x : A) (l : list A) : list A :=
  match l with
  | [] => [x]
  | y :: l' => if gt y x then y :: insert_desc gt x l' else x :: l
  end.

Definition sort_desc {A : Type} (gt : A -> A -> bool) (l : list A) : list A :=
  fold_right (insert_desc gt) [] l.

Definition Qlt_bool (a b : Q) : bool := negb (Qle_bool b a).

(* ===================================================================== *)
(** ** cache.py *)
(* ===================================================================== *)

(** A Python dict with integer keys, as the list of its items in insertion
    order. *)
Module PyDict.
Section Dict.
Variable V : Type.

Definition t : Type := list (Z * V).

Fixpoint get (k : Z) (d : t) : option V :=
  match d with
  | [] => None
  | (k', v) :: d' => if (k' =? k)%Z then Some v else get k d'
  end.

Definition mem (k : Z) (d : t) : bool :=
  match get k d with Some _ => true | None => false end.

(** [d[k] = v] for a key that is present keeps the key's place. *)
Fixpoint replace (k : Z) (v : V) (d : t) : t :=
  match d with
  | [] => []
  | (k', v') :: d' =>
      if (k' =? k)%Z then (k', v) :: d' else (k', v') :: replace k v d'
  end.

(** [d[k] = v] *)
Definition set (k : Z) (v : V) (d : t) : t :=
  if mem k d then replace k v d else d ++ [(k, v)].

(** [del d[k]] *)
Definition del (k : Z) (d : t) : t :=
  filter (fun e => negb (fst e =? k)%Z) d.

(** [next(iter(d))] *)
Definition first_key (d : t) : option Z :=
  match d with
  | (k, _) :: _ => Some k
  | [] => None
  end.

Definition keys (d : t) : list Z := map fst d.

(** The keys of a dict are distinct. *)
Definition wf (d : t) : Prop := NoDup (keys d).
End Dict.
End PyDict.

Arguments PyDict.get {V} k d.
Arguments PyDict.mem {V} k d.
Arguments PyDict.replace {V} k v d.
Arguments PyDict.set {V} k v d.
Arguments PyDict.del {V} k d.
Arguments PyDict.first_key {V} d.
Arguments PyDict.keys {V} d.
Arguments PyDict.wf {V} d.

(** [_movie_cache] *)
Definition Cache : Type := PyDict.t MovieData.

Definition get_cached_movie (movie_id : Z) (c : Cache) : option MovieData :=
  PyDict.get movie_id c.

Definition set_cached_movie (movie_id : Z) (movie_data : MovieData) (c : Cache) : Cache :=
  let c1 := PyDict.set movie_id movie_data c in
  if Nat.ltb MAX_CACHE_SIZE (List.length c1) then
    match PyDict.first_key c1 with
    | Some oldest_key => PyDict.del oldest_key c1
    | None => c1
    end
  else c1.

Definition clear_cache (c : Cache) : Cache := [].

(** The caches the program can build: [set_cached_movie] and [clear_cache]
    are the writers of [_movie_cache] in [cache.py]; the agent's tool
    [get_movie_details] writes it with the same assignment and eviction as
    [set_cached_movie]. *)
Inductive cache_reachable : Cache -> Prop :=
| reach_empty : cache_reachable []
| reach_set : forall c k v,
    cache_reachable c -> cache_reachable (set_cached_movie k v c)
| reach_clear : forall c,
    cache_reachable c -> cache_reachable (clear_cache c).

(* ===================================================================== *)
(** ** The gateway monad *)
(* ===================================================================== *)

(** What the agent's answer parses to ([parse_json_response] and the
    ["movies"] key): no answer, an answer without a movie list, or the
    list. *)
Record AgentMovie : Type := mkAgentMovie {
  am_id : Z;
  am_title : string;
  am_rating : Q;
  am_trailer_url : string;
  am_overview : string
}.

Inductive AgentReply : Type :=
| NoReply : AgentReply
| NoMovieList : AgentReply
| AgentMovies : list AgentMovie -> AgentReply.

(** The answers of the collaborators. The first argument of each is the
    number of calls made before, so that an endpoint asked twice may answer
    differently. A failed call (network error, status other than 200, time
    out) is the empty answer, as the clients in [tmdb_client.py] and
    [memory_client.py] turn it into. [w_agent_lookups] lists, for one run
    of the agent, the movies it asked its tool [get_movie_details] about
    with success, each with the [movie_data] the tool built from the
    catalog's answer. *)
Record World : Type := mkWorld {
  w_search_person : nat -> string -> option Z;
  w_person_credits : nat -> Z -> list Movie;
  w_discover : nat -> list Z -> list Movie;
  w_search_movie : nat -> string -> list Movie;
  w_memories : nat -> string -> list Z * list string;
  w_movie_detail : nat -> Z -> option Details;
  w_movie_videos : nat -> Z -> string;
  w_movie_genres : nat -> string -> option (list string);
  w_agent : nat -> string -> string -> AgentReply;
  w_agent_lookups : nat -> string -> string -> list (Z * MovieData);
  w_year : Z
}.

Inductive Call : Type :=
| SearchPerson : string -> Call
| PersonCredits : Z -> Call
| Discover : list Z -> Call
| SearchMovie : string -> Call
| FetchMemories : string -> Call
| MovieDetail : Z -> Call
| MovieVideos : Z -> Call
| MovieGenres : string -> Call
| AskAgent : string -> string -> Call.

(** A computation that awaits the collaborators: started at time [t] (the
    number of gateway calls made before) on the cache [c], it gives its
    value, the cache it leaves and the calls it made, in order. *)
Record Out (A : Type) : Type := mkOut {
  value : A;
  cache : Cache;
  calls : list Call
}.

Arguments mkOut {A} _ _ _.
Arguments value {A} _.
Arguments cache {A} _.
Arguments calls {A} _.

Definition M (A : Type) : Type := nat -> Cache -> Out A.

Definition ret {A : Type} (x : A) : M A := fun _ c => mkOut x c [].

Definition bind {A B : Type} (m : M A) (k : A -> M B) : M B :=
  fun t c =>
    let o1 := m t c in
    let o2 := k (value o1) (t + List.length (calls o1)) (cache o1) in
    mkOut (value o2) (cache o2) (calls o1 ++ calls o2).

Declare Scope gateway_scope.
Delimit Scope gateway_scope with gw.
Notation "x <- m ;; k" := (bind m (fun x => k))
  (at level 61, m at next level, right associativity) : gateway_scope.
Notation "m ;;; k" := (bind m (fun _ => k))
  (at level 61, right associativity) : gateway_scope.
Local Open Scope gateway_scope.

(** One gateway call: the world's answer at the current time, logged. *)
Definition ask {A : Type} (call : Call) (answer : nat -> A) : M A :=
  fun t c => mkOut (answer t) c [call].

Definition read_cache : M Cache := fun _ c => mkOut c c [].

Definition write_cache (f : Cache -> Cache) : M unit :=
  fun _ c => mkOut tt (f c) [].

(* ===================================================================== *)
(** ** agent_tools.py: the agent and the cache *)
(* ===================================================================== *)

(** ["id": movie_id] of the tool's [movie_data]. *)
Definition with_id (movie_id : Z) (movie_data : MovieData) : MovieData :=
  {| md_id := Some movie_id;
     md_title := md_title movie_data;
     md_rating := md_rating movie_data;
     md_poster_url := md_poster_url movie_data;
     md_trailer_url := md_trailer_url movie_data;
     md_overview := md_overview movie_data;
     md_genres := md_genres movie_data;
     md_runtime := md_runtime movie_data |}.

(** Lines 232-243 and 290-294 of the tool [get_movie_details]: a cached
    movie is answered from the cache; another one is stored under its id,
    and the first key is deleted when more than 100 entries result. The
    ["release_date"] key of the tool's entry is read nowhere and is left
    out of [MovieData]. *)
Definition tool_store (c : Cache) (lookup : Z * MovieData) : Cache :=
  let movie_id := fst lookup in
  if PyDict.mem movie_id c then c
  else
    let c1 := PyDict.set movie_id (with_id movie_id (snd lookup)) c in
    if Nat.ltb 100 (List.length c1) then
      match PyDict.first_key c1 with
      | Some oldest_key => PyDict.del oldest_key c1
      | None => c1
      end
    else c1.

(** [get_agent_response]: one run of the agent. Its tools run in the
    process of the bot, and [get_movie_details] writes the detail cache
    while the agent works; the answer comes after. The memory lookup and
    the catalog calls of the run are the agent's own and are not logged. *)
Definition get_agent_response (w : World) (user_id user_message : string)
  : M AgentReply :=
  run <- ask (AskAgent user_id user_message)
             (fun t => (w_agent w t user_id user_message,
                        w_agent_lookups w t user_id user_message)) ;;
  write_cache (fun c => fold_left tool_store (snd run) c) ;;;
  ret (fst run).

(* ===================================================================== *)
(** ** tmdb_client.py *)
(* ===================================================================== *)

Definition search_person (w : World) (name : string) : M (option Z) :=
  ask (SearchPerson name) (fun t => w_search_person w t name).

Definition get_person_movie_credits (w : World) (person_id : Z) : M (list Movie) :=
  ask (PersonCredits person_id) (fun t => w_person_credits w t person_id).

Definition fetch_movie_videos (w : World) (movie_id : Z) : M string :=
  ask (MovieVideos movie_id) (fun t => w_movie_videos w t movie_id).

Definition common_words : list string :=
  ["the"; "a"; "an"; "and"; "of"; "in"; "on"; "at"; "to"; "for"].

Definition mem_string (s : string) (l : list string) : bool :=
  existsb (String.eqb s) l.

(** The set of the first four words of a normalised title, common words
    removed. *)
Definition title_words (norm : string) : list string :=
  filter (fun x => negb (mem_string x common_words)) (firstn 4 (PyStr.split norm)).

Definition disjoint_words (a b : list string) : bool :=
  negb (existsb (fun x => mem_string x b) a).

(** The checks of [fetch_poster_and_verify_movie] on a fetched record. The
    two log lines that close the function read [returned_title], which is
    bound only inside the title check: when the expected title or the
    record's title is empty the read raises and the handler of line 72
    makes the answer [("", {})]. *)
Definition verify_details (movie_id : Z) (movie_title : string) (d : Details)
  : string * option Details :=
  if negb (d_id d =? movie_id)%Z then ("", None)
  else if PyStr.truthy movie_title && PyStr.truthy (get_or (d_title d) "") then
    let returned_title := get_or (d_title d) "" in
    let expected_norm := PyStr.strip (PyStr.lower movie_title) in
    let returned_norm := PyStr.strip (PyStr.lower returned_title) in
    let expected_words := title_words expected_norm in
    let returned_words := title_words returned_norm in
    if negb (String.eqb expected_norm returned_norm)
       && disjoint_words expected_words returned_words
       && nonempty expected_words && nonempty returned_words
    then ("", None)
    else (validate_and_build_poster_url (d_poster_path d), Some d)
  else ("", None).

Definition fetch_poster_and_verify_movie (w : World) (movie_id : Z) (movie_title : string)
  : M (string * option Details) :=
  answer <- ask (MovieDetail movie_id) (fun t => w_movie_detail w t movie_id) ;;
  match answer with
  | Some d => ret (verify_details movie_id movie_title d)
  | None => ret ("", None)
  end.

(** [fetch_movie_details]: the record alone, fetched without a title to
    check against. *)
Definition fetch_movie_details (w : World) (movie_id : Z) : M (option Details) :=
  fetched <- fetch_poster_and_verify_movie w movie_id "" ;;
  ret (snd fetched).

(* ===================================================================== *)
(** ** movie_search.py *)
(* ===================================================================== *)

(** [GENRE_MAP[key]], or [None] when the key is absent. *)
Fixpoint genre_of_key (key : string) (items : list (string * Z)) : option Z :=
  match items with
  | [] => None
  | (k, genre_id) :: rest =>
      if String.eqb k key then Some genre_id else genre_of_key key rest
  end.

Definition get_tmdb_genre_id (genre_name : string) : option Z :=
  let genre_name_lower := PyStr.strip (PyStr.lower genre_name) in
  match genre_of_key genre_name_lower GENRE_MAP with
  | Some genre_id => Some genre_id
  | None =>
      option_map snd
        (find (fun item => PyStr.contains (fst item) genre_name_lower
                           || PyStr.contains genre_name_lower (fst item))
              GENRE_MAP)
  end.

(** [list(dict.fromkeys(l))] *)
Fixpoint unique_keep_first (seen : list Z) (l : list Z) : list Z :=
  match l with
  | [] => []
  | x :: l' =>
      if mem_Z x seen then unique_keep_first seen l'
      else x :: unique_keep_first (x :: seen) l'
  end.

(** The [with_genres] parameter, as the list of ids it joins; empty when the
    parameter is not sent. *)
Definition with_genres_param (genre_ids : list Z) : list Z :=
  firstn 2 (unique_keep_first [] genre_ids).

Definition discover_trending_movies (w : World) (genre_ids excluded_ids : list Z)
  : M (list Movie) :=
  let excluded_ids_set := make_excluded_set excluded_ids in
  results <- ask (Discover (with_genres_param genre_ids))
                 (fun t => w_discover w t (with_genres_param genre_ids)) ;;
  let results :=
    if nonempty excluded_ids_set && nonempty results
    then filter (fun r => negb (id_in (m_id r) excluded_ids_set)) results
    else results in
  ret (firstn 20 results).

Definition known_actors : list (string * string) :=
  [ ("statham", "Jason Statham"); ("brad pitt", "Brad Pitt");
    ("brad pit", "Brad Pitt"); ("tom hanks", "Tom Hanks");
    ("dicaprio", "Leonardo DiCaprio"); ("leonardo", "Leonardo DiCaprio") ].

(** [films?] and [movies?] *)
Definition films_re : Re.regex := Re.Cat (Re.lit_ci "film") (Re.opt (Re.chr_ci "s")).
Definition movies_re : Re.regex := Re.Cat (Re.lit_ci "movie") (Re.opt (Re.chr_ci "s")).
(** [[A-Z][a-z]+] and [[A-Z][a-z]+\s+[A-Z][a-z]+] *)
Definition name_word : Re.regex := Re.Cat Re.letter (Re.plus Re.letter).
Definition name_pair : Re.regex := Re.cats [name_word; Re.plus Re.space; name_word].
(** [(?:...|films|movies|for)] *)
Definition tail_words : list Re.regex :=
  [Re.lit_ci "films"; Re.lit_ci "movies"; Re.lit_ci "for"].
(** [[a-zA-Z\s]] *)
Definition letter_or_space (c : ascii) : bool := PyStr.isletter c || PyStr.isspace c.

Definition extract_patterns : list Re.regex :=
  [ Re.cats [films_re; Re.plus Re.space;
             Re.Alt (Re.lit_ci "with") (Re.lit_ci "wth"); Re.plus Re.space;
             Re.Group (Re.plus_lazy (Re.Sym letter_or_space));
             Re.alts ([Re.cats [Re.plus Re.space; Re.lit_ci "as"; Re.plus Re.space;
                                Re.lit_ci "a"; Re.opt (Re.chr_ci "n");
                                Re.plus Re.space; Re.lit_ci "actor"];
                       Re.Cat (Re.plus Re.space) (Re.lit_ci "actor");
                       Re.EndAnchor] ++ tail_words)];
    Re.cats [films_re; Re.plus Re.space; Re.lit_ci "starring"; Re.plus Re.space;
             Re.Group (Re.plus_lazy (Re.Sym letter_or_space));
             Re.alts (Re.Cat (Re.plus Re.space) Re.EndAnchor :: tail_words)];
    Re.cats [films_re; Re.plus Re.space; Re.Group name_pair;
             Re.alts (Re.Cat (Re.plus Re.space) Re.EndAnchor :: tail_words)];
    Re.cats [Re.Group name_pair; Re.plus Re.space; films_re];
    Re.cats [Re.Group name_pair; Re.plus Re.space; movies_re] ].

Definition stop_words : list string :=
  ["find"; "films"; "film"; "movies"; "movie"; "with"; "starring";
   "featuring"; "actor"; "actress"; "directed"; "by"; "as"; "an";
   "a"; "the"; "for"; "me"; "wth"; "give"; "suggest"].

Definition first_char_upper (s : string) : bool :=
  match s with
  | String c _ => PyStr.isupper c
  | EmptyString => false
  end.

Fixpoint first_known_actor (query_lower : string) (table : list (string * string))
  : option string :=
  match table with
  | [] => None
  | (key, full_name) :: rest =>
      if PyStr.contains key query_lower then Some full_name
      else first_known_actor query_lower rest
  end.

Fixpoint first_pattern_name (query : string) (patterns : list Re.regex) : option string :=
  match patterns with
  | [] => None
  | pattern :: rest =>
      match Re.search pattern query with
      | Some (Some text) =>
          let name := PyStr.strip text in
          if Nat.ltb 2 (String.length name) then Some (PyStr.title name)
          else first_pattern_name query rest
      | _ => first_pattern_name query rest
      end
  end.

Definition extract_actor_name (query : string) : option string :=
  let query_lower := PyStr.lower query in
  match first_known_actor query_lower known_actors with
  | Some full_name => Some full_name
  | None =>
      match first_pattern_name query extract_patterns with
      | Some name => Some name
      | None =>
          let words := PyStr.split query in
          let clean_words :=
            filter (fun x => negb (mem_string (PyStr.lower x) stop_words)) words in
          let cap_words :=
            filter (fun x => PyStr.truthy x
                             && (first_char_upper x
                                 || (Nat.ltb 4 (String.length x) && PyStr.isalpha x)))
                   clean_words in
          match cap_words with
          | _ :: _ :: _ => Some (PyStr.join " " (lastn 2 cap_words))
          | [only] => Some only
          | [] =>
              if Nat.leb 2 (List.length clean_words)
              then Some (PyStr.title (PyStr.join " " (lastn 2 clean_words)))
              else None
          end
      end
  end.

Definition actor_keywords : list string :=
  ["with"; "wth"; "starring"; "featuring"; "actor"; "actress"; "by"].

Definition actor_name_patterns : list Re.regex :=
  [ Re.cats [films_re; Re.plus Re.space;
             Re.opt (Re.alts [Re.Cat (Re.lit_ci "with") (Re.plus Re.space);
                              Re.Cat (Re.lit_ci "wth") (Re.plus Re.space);
                              Re.Cat (Re.lit_ci "starring") (Re.plus Re.space)]);
             Re.Group (Re.Cat name_word
                         (Re.opt (Re.Cat (Re.plus Re.space) name_word)))];
    Re.cats [Re.Group name_pair; Re.plus Re.space; films_re];
    Re.cats [Re.Group name_pair; Re.plus Re.space; movies_re] ].

Definition known_actor_names : list string :=
  ["pitt"; "statham"; "stathem"; "hanks"; "dicaprio"; "cruise"; "damon";
   "affleck"; "smith"; "reeves"; "jolie"; "depp"; "bale"; "hiddleston"].

Definition is_actor_query (query : string) : bool :=
  let query_lower := PyStr.lower query in
  let has_actor_keyword :=
    existsb (fun kw => PyStr.contains kw query_lower) actor_keywords in
  let has_actor_name_pattern :=
    existsb (fun pattern => Re.found (Re.search pattern query)) actor_name_patterns in
  let has_known_actor :=
    existsb (fun name => PyStr.contains name query_lower) known_actor_names in
  let films_or_movies :=
    PyStr.contains "films" query_lower || PyStr.contains "movies" query_lower in
  let cap_words :=
    filter (fun x => PyStr.truthy x && first_char_upper x
                     && Nat.ltb 3 (String.length x))
           (PyStr.split query) in
  if films_or_movies && Nat.leb 1 (List.length cap_words) && has_actor_keyword
  then true
  else has_actor_keyword
       || (films_or_movies && (has_actor_name_pattern || has_known_actor)).

(** The sort key [(popularity, vote_average)], compared as tuples. *)
Definition credit_gt (a b : Movie) : bool :=
  Qlt_bool (m_popularity b) (m_popularity a)
  || (Qeq_bool (m_popularity a) (m_popularity b)
      && Qlt_bool (m_vote_average b) (m_vote_average a)).

Definition credit_quality (movie : Movie) : bool :=
  (Qle_bool MIN_RATING (m_vote_average movie)
   && (MIN_VOTE_COUNT <=? m_vote_count movie)%Z)
  || (Qle_bool MIN_RATING_FALLBACK (m_vote_average movie)
      && (MIN_VOTE_COUNT_FALLBACK <=? m_vote_count movie)%Z).

Definition search_actor_movies (w : World) (actor_name : string) (excluded_ids : list Z)
  : M (list Movie) :=
  person <- search_person w actor_name ;;
  match person with
  | None => ret []
  | Some person_id =>
      movies_list <- get_person_movie_credits w person_id ;;
      let filtered :=
        filter (fun movie => negb (id_in (m_id movie) excluded_ids)
                             && credit_quality movie)
               movies_list in
      ret (firstn 30 (sort_desc credit_gt filtered))
  end.

(** [int(release_date.split("-")[0])]; [None] is the [ValueError] that both
    callers swallow. *)
Definition release_year (release_date : string) : option Z :=
  match PyStr.split_on "-" release_date with
  | y :: _ => PyStr.int_of_string y
  | [] => None
  end.

(** The test of the first loop of [filter_by_quality]. *)
Definition passes_primary (is_christmas : bool) (r : Movie) : bool :=
  let rating := m_vote_average r in
  let vote_count := m_vote_count r in
  if Qle_bool MIN_RATING rating && (MIN_VOTE_COUNT <=? vote_count)%Z then
    if PyStr.truthy (m_release_date r) && negb is_christmas then
      match release_year (m_release_date r) with
      | Some year =>
          negb ((year <? 2010)%Z
                && (Qlt_bool rating (85 # 10) || (vote_count <? 10000)%Z))
      | None => true
      end
    else true
  else false.

(** The test of the second loop. *)
Definition passes_fallback (r : Movie) : bool :=
  Qle_bool MIN_RATING_FALLBACK (m_vote_average r)
  && (MIN_VOTE_COUNT_FALLBACK <=? m_vote_count r)%Z.

(** [rated_results] after the first loop. *)
Definition primary_tier (results : list Movie) (is_christmas : bool) : list Movie :=
  filter (passes_primary is_christmas) results.

Definition filter_by_quality (results : list Movie) (is_christmas : bool) : list Movie :=
  match primary_tier results is_christmas with
  | [] => filter passes_fallback results
  | rated_results => rated_results
  end.

Fixpoint unique_strings (seen : list string) (l : list string) : list string :=
  match l with
  | [] => []
  | x :: l' =>
      if mem_string x seen then unique_strings seen l'
      else x :: unique_strings (x :: seen) l'
  end.

Definition count_if {A : Type} (p : A -> bool) (l : list A) : Z :=
  Z.of_nat (List.length (filter p l)).

Local Open Scope Q_scope.

(** [score_movie]; [current_year] is [datetime.now().year]. The score is a
    float: the rating and the popularity are the floats of their JSON
    numbers, and every [+=], [-=] and [*] rounds. A release year too large
    for a float ([OverflowError] in [(year - 2020) * 2.0]) is outside the
    model. *)
Definition score_movie (current_year : Z) (movie : Movie) (query : string)
           (from_actor_search : bool) : Q :=
  let rating := Float64.round (m_vote_average movie) in
  let vote_count := m_vote_count movie in
  let popularity := Float64.round (m_popularity movie) in
  let title := PyStr.lower (or_empty (slot_get (m_title movie) "")) in
  let overview := PyStr.lower (m_overview movie) in
  let score : Q := 0 in
  let score := if from_actor_search then Float64.add score (50 # 1) else score in
  let score := Float64.add score (Float64.mul rating (6 # 1)) in
  let score :=
    if (10000 <=? vote_count)%Z then Float64.add score (15 # 1)
    else if (5000 <=? vote_count)%Z then Float64.add score (10 # 1)
    else if (2000 <=? vote_count)%Z then Float64.add score (6 # 1)
    else if (vote_count <? 1000)%Z then Float64.sub score (5 # 1)
    else score in
  let score :=
    if Qle_bool (100 # 1) popularity then Float64.add score (12 # 1)
    else if Qle_bool (50 # 1) popularity then Float64.add score (8 # 1)
    else if Qlt_bool popularity (5 # 1) then Float64.sub score (3 # 1)
    else score in
  let score :=
    if PyStr.truthy (m_release_date movie) then
      match release_year (m_release_date movie) with
      | Some year =>
          let score :=
            if (year <? 2010)%Z then Float64.sub score (15 # 1)
            else if (2020 <=? year)%Z then
              let recency_bonus :=
                Float64.min (Float64.mul (Float64.of_int (year - 2020)) (2 # 1))
                            (10 # 1) in
              Float64.add score recency_bonus
            else score in
          if (current_year - 2 <=? year)%Z then Float64.add score (8 # 1) else score
      | None => score
      end
    else score in
  let query_words := unique_strings [] (PyStr.split (PyStr.lower query)) in
  let title_matches :=
    count_if (fun word => Nat.ltb 2 (String.length word) && PyStr.contains word title)
             query_words in
  let score :=
    Float64.add score (Float64.mul (Float64.of_int title_matches) (10 # 1)) in
  let overview_matches :=
    count_if (fun word => Nat.ltb 2 (String.length word) && PyStr.contains word overview)
             query_words in
  Float64.add score (Float64.mul (Float64.of_int overview_matches) (3 # 1)).

Local Close Scope Q_scope.

Definition holiday_keywords : list string := ["christmas"; "xmas"; "holiday"].

(** [is_christmas_query] of [fast_movie_search]. *)
Definition is_christmas_query (query : string) : bool :=
  existsb (fun kw => PyStr.contains kw (PyStr.lower query)) holiday_keywords.

(** [sorted(GENRE_MAP.items(), key=lambda x: len(x[0]), reverse=True)] *)
Definition genre_items_by_length : list (string * Z) :=
  sort_desc (fun a b => Nat.ltb (String.length (fst b)) (String.length (fst a)))
            GENRE_MAP.

(** The loop that collects [found_genres]; it breaks at two entries. *)
Fixpoint collect_genres (query_lower : string) (items : list (string * Z))
         (found_genres : list Z) : list Z :=
  match items with
  | [] => found_genres
  | (keyword, genre_id) :: rest =>
      if PyStr.contains keyword query_lower then
        let found_genres := found_genres ++ [genre_id] in
        if Nat.leb 2 (List.length found_genres) then found_genres
        else collect_genres query_lower rest found_genres
      else collect_genres query_lower rest found_genres
  end.

Definition found_genres_of (query : string) : list Z :=
  collect_genres (PyStr.lower query) genre_items_by_length [].

Definition search_stop_words : list string :=
  ["find"; "a"; "the"; "an"; "for"; "me"; "give"].

Definition clean_query_of (query : string) : string :=
  if is_christmas_query query then "christmas"
  else PyStr.join " "
         (firstn 5 (filter (fun x => negb (mem_string x search_stop_words))
                           (PyStr.split (PyStr.lower query)))).

(** What the three retrieval blocks leave behind. *)
Record Retrieved : Type := mkRetrieved {
  rt_results : list Movie;
  rt_actor_search_attempted : bool;
  rt_from_actor_search : bool
}.

(** Lines 296-307: actor query detection and handling. *)
Definition actor_stage (w : World) (query : string) (excluded_ids_set : list Z)
  : M Retrieved :=
  if is_actor_query query then
    match extract_actor_name query with
    | Some actor_name =>
        if PyStr.truthy actor_name then
          actor_movies <- search_actor_movies w actor_name excluded_ids_set ;;
          if nonempty actor_movies
          then ret (mkRetrieved actor_movies true true)
          else ret (mkRetrieved [] true false)
        else ret (mkRetrieved [] true false)
    | None => ret (mkRetrieved [] true false)
    end
  else ret (mkRetrieved [] false false).

(** Lines 310-322: genre-based discovery. *)
Definition genre_stage (w : World) (query : string) (excluded_ids : list Z)
           (r : Retrieved) : M Retrieved :=
  if negb (nonempty (rt_results r)) then
    let found_genres := found_genres_of query in
    if nonempty found_genres && negb (is_christmas_query query) then
      discover_results <- discover_trending_movies w found_genres excluded_ids ;;
      if nonempty discover_results
      then ret (mkRetrieved discover_results (rt_actor_search_attempted r)
                            (rt_from_actor_search r))
      else ret r
    else ret r
  else ret r.

(** Lines 325-339: fallback to the title search. *)
Definition search_stage (w : World) (query : string) (r : Retrieved) : M Retrieved :=
  if negb (nonempty (rt_results r)) && negb (rt_actor_search_attempted r) then
    let clean_query := clean_query_of query in
    found <- ask (SearchMovie clean_query)
                 (fun t => w_search_movie w t clean_query) ;;
    ret (mkRetrieved (firstn 10 found) (rt_actor_search_attempted r)
                     (rt_from_actor_search r))
  else ret r.

Definition retrieve (w : World) (query : string) (excluded_ids : list Z) : M Retrieved :=
  r <- actor_stage w query (make_excluded_set excluded_ids) ;;
  r <- genre_stage w query excluded_ids r ;;
  search_stage w query r.

(** Line 353: [r.get("title", "").lower()] raises [AttributeError] on a
    [null] title. *)
Definition title_raises (r : Movie) : bool :=
  match slot_get (m_title r) "" with
  | None => true
  | Some _ => false
  end.

(** Lines 344-362: the test of the history filter on one result whose title
    can be lowered. *)
Definition not_watched (all_excluded : list Z) (watched_titles_set : list string)
           (r : Movie) : bool :=
  let movie_title := PyStr.lower (or_empty (slot_get (m_title r) "")) in
  negb (id_in (m_id r) all_excluded)
  && negb (existsb (fun wt => PyStr.contains wt movie_title
                              || PyStr.contains movie_title wt)
                   watched_titles_set).

Definition christmas_keywords : list string :=
  ["christmas"; "xmas"; "holiday"; "santa"; "elf"; "scrooge";
   "home alone"; "miracle on"; "wonderful life"].

Definition is_christmas_movie (r : Movie) : bool :=
  let text := PyStr.lower (format_text (slot_get (m_title r) "")
                           ++ " " ++ m_overview r)%string in
  existsb (fun kw => PyStr.contains kw text) christmas_keywords.

(** Lines 376-386 *)
Definition christmas_filter (is_christmas : bool) (results : list Movie) : list Movie :=
  if is_christmas then
    match filter is_christmas_movie results with
    | [] => results
    | filtered => filtered
    end
  else results.

(** Lines 388-392 *)
Definition score_and_sort (current_year : Z) (query : string) (from_actor_search : bool)
           (results : list Movie) : list Movie :=
  if Nat.ltb 1 (List.length results) then
    let scored :=
      map (fun r => (score_movie current_year r query from_actor_search, r)) results in
    map snd (sort_desc (fun a b => Qlt_bool (fst b) (fst a)) scored)
  else results.

(** The entry of a follow-up candidate in the actor queue (lines 435-442). *)
Definition queue_entry (r : Movie) : MovieData :=
  {| md_id := m_id r;
     md_title := slot_get (m_title r) "Unknown";
     md_rating := m_vote_average r;
     md_poster_url := validate_and_build_poster_url (m_poster_path r);
     md_trailer_url := "";
     md_overview := PyStr.take 200 (m_overview r);
     md_genres := None;
     md_runtime := None |}.

(** Lines 397-451: the head candidate is served from the cache or fetched,
    verified and cached; an actor retrieval adds up to nine followers. *)
Definition deliver (w : World) (from_actor_search : bool) (results : list Movie)
  : M (option (list MovieData)) :=
  match results with
  | [] => ret None
  | first_movie :: followers =>
      match m_id first_movie with
      | None => ret None
      | Some movie_id =>
          if (movie_id =? 0)%Z then ret None
          else
            c <- read_cache ;;
            match get_cached_movie movie_id c with
            | Some cached => ret (Some [cached])
            | None =>
                fetched <- fetch_poster_and_verify_movie w movie_id
                             (or_empty (slot_get (m_title first_movie) "")) ;;
                match fetched with
                | (_, None) => ret None
                | (poster_url, Some movie_details) =>
                    trailer_url <- fetch_movie_videos w movie_id ;;
                    let movie_data :=
                      {| md_id := Some movie_id;
                         md_title := Some (get_or (d_title movie_details) "");
                         md_rating := get_or (d_vote_average movie_details) 0%Q;
                         md_poster_url := poster_url;
                         md_trailer_url := trailer_url;
                         md_overview := PyStr.take 200 (d_overview movie_details);
                         md_genres := Some (d_genres movie_details);
                         md_runtime := Some (d_runtime movie_details) |} in
                    write_cache (set_cached_movie movie_id movie_data) ;;;
                    if from_actor_search && Nat.ltb 1 (List.length results)
                    then ret (Some (movie_data :: map queue_entry (firstn 9 followers)))
                    else ret (Some [movie_data])
                end
            end
      end
  end.

(** Lines 345-368: the history filter inside its [try]. The loop lowers
    the title of every result before it tests it, so a [null] title
    anywhere in the list raises before [results = filtered] is reached, and
    [except Exception: pass] goes on with the list as it was retrieved.
    [fetch_user_memories] swallows its own failures and answers with empty
    collections. *)
Definition history_filter (all_excluded : list Z) (watched_titles_set : list string)
           (results : list Movie) : list Movie :=
  if existsb title_raises results then results
  else filter (not_watched all_excluded watched_titles_set) results.

(** Lines 341-392: the history filter, the quality filter, the holiday
    filter and the ranking. The empty list stands for each [return None] on
    the way. *)
Definition rank (w : World) (query user_id : string) (excluded_ids : list Z)
           (r : Retrieved) : M (list Movie) :=
  let excluded_ids_set := make_excluded_set excluded_ids in
  let is_christmas := is_christmas_query query in
  if negb (nonempty (rt_results r)) then ret []
  else
    memories <- ask (FetchMemories user_id) (fun t => w_memories w t user_id) ;;
    let all_excluded := fst memories ++ excluded_ids_set in
    let watched_titles_set := map PyStr.lower (snd memories) in
    let results := history_filter all_excluded watched_titles_set (rt_results r) in
    if negb (nonempty results) then ret []
    else
      let results := filter_by_quality results is_christmas in
      if negb (nonempty results) then ret []
      else
        let results := christmas_filter is_christmas results in
        ret (score_and_sort (w_year w) query (rt_from_actor_search r) results).

(** The ordered candidates that reach the detail stage. *)
Definition ranked_candidates (w : World) (query user_id : string)
           (excluded_ids : list Z) : M (list Movie) :=
  r <- retrieve w query excluded_ids ;;
  rank w query user_id excluded_ids r.

(** [fast_movie_search]; [None] for [excluded_ids] is the empty list. *)
Definition fast_movie_search (w : World) (query user_id : string) (excluded_ids : list Z)
  : M (option (list MovieData)) :=
  r <- retrieve w query excluded_ids ;;
  results <- rank w query user_id excluded_ids r ;;
  deliver w (rt_from_actor_search r) results.

(** Whether the genre stage asks the discovery endpoint. *)
Definition discovery_runs (query : string) (r : Retrieved) : bool :=
  negb (nonempty (rt_results r))
  && nonempty (found_genres_of query) && negb (is_christmas_query query).

(** Whether the title search runs. *)
Definition title_search_runs (r : Retrieved) : bool :=
  negb (nonempty (rt_results r)) && negb (rt_actor_search_attempted r).

(** The calls of the person endpoints. *)
Definition is_person_call (call : Call) : Prop :=
  match call with SearchPerson _ | PersonCredits _ => True | _ => False end.

(** Every cache entry is stored under its own id: [fast_movie_search], the
    caller of [set_cached_movie], and the agent's tool both store
    [movie_data] under [movie_data["id"]]. *)
Definition cache_coherent (c : Cache) : Prop :=
  Forall (fun item => md_id (snd item) = Some (fst item)) c.

(** The calls of the two list endpoints that the strategies compete for. *)
Definition is_discover (call : Call) : Prop :=
  match call with Discover _ => True | _ => False end.

Definition is_title_search (call : Call) : Prop :=
  match call with SearchMovie _ => True | _ => False end.

Definition no_list_call (call : Call) : Prop :=
  ~ is_discover call /\ ~ is_title_search call.

(* ===================================================================== *)
(** ** handlers.py: the session *)
(* ===================================================================== *)

(** The keys of [context.user_data] the handlers use. [suggested_movies]
    holds whatever ["id"] values were appended, [None] included. [watching]
    lists the ids that have a [watching_movie_<id>] marker. *)
Record Session : Type := mkSession {
  original_prompt : string;
  movie_queue : list MovieData;
  suggested_movies : list (option Z);
  prefetched_next_movie : Slot MovieData;
  prefetched_query : Slot string;
  watching : list string
}.

Definition new_session : Session :=
  {| original_prompt := ""; movie_queue := []; suggested_movies := [];
     prefetched_next_movie := Absent; prefetched_query := Absent;
     watching := [] |}.

Definition set_queue (q : list MovieData) (s : Session) : Session :=
  {| original_prompt := original_prompt s; movie_queue := q;
     suggested_movies := suggested_movies s;
     prefetched_next_movie := prefetched_next_movie s;
     prefetched_query := prefetched_query s; watching := watching s |}.

Definition set_suggested (l : list (option Z)) (s : Session) : Session :=
  {| original_prompt := original_prompt s; movie_queue := movie_queue s;
     suggested_movies := l;
     prefetched_next_movie := prefetched_next_movie s;
     prefetched_query := prefetched_query s; watching := watching s |}.

Definition set_prompt (p : string) (s : Session) : Session :=
  {| original_prompt := p; movie_queue := movie_queue s;
     suggested_movies := suggested_movies s;
     prefetched_next_movie := prefetched_next_movie s;
     prefetched_query := prefetched_query s; watching := watching s |}.

Definition set_prefetched (m : Slot MovieData) (q : Slot string) (s : Session) : Session :=
  {| original_prompt := original_prompt s; movie_queue := movie_queue s;
     suggested_movies := suggested_movies s;
     prefetched_next_movie := m; prefetched_query := q;
     watching := watching s |}.

Definition add_watching (movie_id : string) (s : Session) : Session :=
  {| original_prompt := original_prompt s; movie_queue := movie_queue s;
     suggested_movies := suggested_movies s;
     prefetched_next_movie := prefetched_next_movie s;
     prefetched_query := prefetched_query s;
     watching := movie_id :: watching s |}.

(** [suggested_movies.append(id)] *)
Definition append_suggested (id : option Z) (s : Session) : Session :=
  set_suggested (suggested_movies s ++ [id]) s.

Definition option_Z_eqb (a b : option Z) : bool :=
  match a, b with
  | Some x, Some y => (x =? y)%Z
  | None, None => true
  | _, _ => false
  end.

(** [id in suggested_movies] *)
Definition is_suggested (id : option Z) (l : list (option Z)) : bool :=
  existsb (option_Z_eqb id) l.

(** The integers of [suggested_movies], as [fast_movie_search] and
    [discover_trending_movies] keep them ([int(id) ... if id]). *)
Fixpoint ints_of (l : list (option Z)) : list Z :=
  match l with
  | [] => []
  | Some z :: l' => z :: ints_of l'
  | None :: l' => ints_of l'
  end.

(** [str(m.get("id"))] *)
Definition id_text (id : option Z) : string :=
  match id with
  | Some z => NilZero.string_of_int (Z.to_int z)
  | None => "None"
  end.

(** What a handler sends: a candidate with its buttons
    ([send_movie_suggestion], which also starts the next prefetch), a text,
    or a rating job handed to the job queue. *)
Inductive Notice : Type :=
| NotInQueue | NothingForRequest | NothingFound | Acknowledged | UnknownAction
| NoMoreMovies | HandlerError.

Inductive Output : Type :=
| Offer : MovieData -> Output
| Say : Notice -> Output
| ScheduleRating : string -> Z -> Output.

Definition normalized (prompt : string) : string := PyStr.strip (PyStr.lower prompt).

(** [found_genres[:2] if found_genres else None], with [found_genres] the
    ids of the [GENRE_MAP] keywords found in the text, in dict order. *)
Definition handler_genres (text_lower : string) : list Z :=
  firstn 2 (map snd (filter (fun item => PyStr.contains (fst item) text_lower) GENRE_MAP)).

Definition words_mismatch (agent_title actual_title : string) : bool :=
  let agent_norm := normalized agent_title in
  let actual_norm := normalized actual_title in
  let agent_words := title_words agent_norm in
  let actual_words := title_words actual_norm in
  disjoint_words agent_words actual_words
  && negb (String.eqb agent_norm actual_norm)
  && nonempty agent_words && nonempty actual_words.

Definition or_default (s default : string) : string :=
  if PyStr.truthy s then s else default.

(** Lines 351-392: the agent's movies that survive verification. *)
Fixpoint valid_agent_movies (w : World) (movies : list AgentMovie)
  : M (list MovieData) :=
  match movies with
  | [] => ret []
  | movie :: rest =>
      if negb (am_id movie =? 0)%Z && PyStr.truthy (am_title movie) then
        fetched <- fetch_poster_and_verify_movie w (am_id movie) (am_title movie) ;;
        match fetched with
        | (poster_url, Some movie_details) =>
            let agent_title := am_title movie in
            let actual_title := get_or (d_title movie_details) agent_title in
            let actual_rating := get_or (d_vote_average movie_details) (am_rating movie) in
            let vote_count := d_vote_count movie_details in
            if negb (PyStr.truthy poster_url) then valid_agent_movies w rest
            else if PyStr.truthy agent_title && PyStr.truthy actual_title
                    && words_mismatch agent_title actual_title
            then valid_agent_movies w rest
            else if Qlt_bool actual_rating (7 # 1)%Q || (vote_count <? 500)%Z
            then valid_agent_movies w rest
            else
              more <- valid_agent_movies w rest ;;
              ret ({| md_id := Some (am_id movie);
                      md_title := Some actual_title;
                      md_rating := actual_rating;
                      md_poster_url := poster_url;
                      md_trailer_url := am_trailer_url movie;
                      md_overview :=
                        or_default (PyStr.take 200 (d_overview movie_details))
                                   "No description available.";
                      md_genres := None;
                      md_runtime := None |} :: more)
        | (_, None) => valid_agent_movies w rest
        end
      else valid_agent_movies w rest
  end.

(** The head of a non-empty result becomes the current suggestion: the
    whole list is stored as the queue and the head's id is appended to
    [suggested_movies] (lines 284-288, 304-308, 395-399, 405-409 and
    594-599). *)
Definition offer_result (movies : list MovieData) (s : Session)
  : option (Session * list Output) :=
  match movies with
  | [] => None
  | first :: _ => Some (append_suggested (md_id first) (set_queue movies s), [Offer first])
  end.

(** Lines 311-339 and 602-630: the last-resort discovery call. [reset] tells
    whether [suggested_movies] is overwritten (line 337) or appended to
    (line 628); [default_overview] is the text that replaces an empty
    synopsis in [handle_message]. *)
Definition discover_fallback (w : World) (text : string) (excluded_ids : list Z)
           (reset : bool) (default_overview : string) (s : Session)
  : M (option (Session * list Output)) :=
  discover_results <- discover_trending_movies w (handler_genres (PyStr.lower text))
                        excluded_ids ;;
  match discover_results with
  | [] => ret None
  | first_discover :: _ =>
      match m_id first_discover with
      | Some movie_id =>
          if (movie_id =? 0)%Z then ret None
          else
            fetched <- fetch_poster_and_verify_movie w movie_id
                         (or_empty (slot_get (m_title first_discover) "")) ;;
            match fetched with
            | (poster_url, Some movie_details) =>
                if PyStr.truthy poster_url then
                  let movie_data :=
                    {| md_id := Some movie_id;
                       md_title := Some (get_or (d_title movie_details) "");
                       md_rating := get_or (d_vote_average movie_details) 0%Q;
                       md_poster_url := poster_url;
                       md_trailer_url := "";
                       md_overview :=
                         or_default (PyStr.take 200 (d_overview movie_details))
                                    default_overview;
                       md_genres := None;
                       md_runtime := None |} in
                  let s := set_queue [movie_data] s in
                  let s := if reset then set_suggested [Some movie_id] s
                           else append_suggested (Some movie_id) s in
                  ret (Some (s, [Offer movie_data]))
                else ret None
            | (_, None) => ret None
            end
      | None => ret None
      end
  end.

(** An incoming text message. *)
Record Update : Type := mkUpdate {
  u_in_group : bool;
  u_text : string;
  u_bot_username : string
}.

(** Lines 252-256: a group message that does not mention the bot. *)
Definition not_for_bot (u : Update) : bool :=
  u_in_group u && PyStr.truthy (u_text u)
  && negb (PyStr.startswith "/" (u_text u))
  && PyStr.truthy (u_bot_username u)
  && negb (PyStr.contains ("@" ++ u_bot_username u)%string (u_text u)).

(** Lines 291-414 of [handle_message]: the agent, then its fallbacks. *)
Definition agent_path (w : World) (user_id user_message : string) (s : Session)
  : M (Session * list Output) :=
  response <- get_agent_response w user_id user_message ;;
  match response with
  | NoReply =>
      fast_result <- fast_movie_search w user_message user_id [] ;;
      match offer_result (get_or fast_result []) s with
      | Some done => ret done
      | None =>
          if negb (is_christmas_query user_message) then
            found <- discover_fallback w user_message [] true
                       "No description available." s ;;
            match found with
            | Some done => ret done
            | None => ret (s, [Say NothingForRequest])
            end
          else ret (s, [Say NothingForRequest])
      end
  | parsed =>
      valid_movies <-
        match parsed with
        | AgentMovies movies => valid_agent_movies w movies
        | _ => ret []
        end ;;
      match offer_result valid_movies s with
      | Some done => ret done
      | None =>
          fallback_result <- fast_movie_search w user_message user_id [] ;;
          match offer_result (get_or fallback_result []) s with
          | Some done => ret done
          | None => ret (s, [Say NothingFound])
          end
      end
  end.

Definition handle_message (w : World) (u : Update) (user_id : string) (s : Session)
  : M (Session * list Output) :=
  if not_for_bot u then ret (s, [])
  else
    let user_message := u_text u in
    let is_new_query :=
      negb (String.eqb (normalized (original_prompt s)) (normalized user_message)) in
    let s :=
      if is_new_query
      then set_suggested [] (set_prefetched PyNone PyNone (set_queue [] s))
      else s in
    let s := set_prompt user_message s in
    if is_actor_query user_message then
      fast_result <- fast_movie_search w user_message user_id [] ;;
      match offer_result (get_or fast_result []) s with
      | Some done => ret done
      | None => agent_path w user_id user_message s
      end
    else agent_path w user_id user_message s.

(** [data.split('_', 1)] when it has two parts. *)
Fixpoint split_callback_aux (action : string) (data : string) : option (string * string) :=
  match data with
  | EmptyString => None
  | String c rest =>
      if Ascii.eqb c "_"
      then Some (PyStr.rev_string EmptyString action, rest)
      else split_callback_aux (String c action) rest
  end.

Definition split_callback (data : string) : option (string * string) :=
  split_callback_aux EmptyString data.

(** [next((m for m in movie_queue if str(m.get("id")) == movie_id), None)] *)
Definition find_current (movie_id : string) (queue : list MovieData) : option MovieData :=
  find (fun m => String.eqb (id_text (md_id m)) movie_id) queue.

(** [x or 120] *)
Definition or_120 (runtime : Z) : Z := if (runtime =? 0)%Z then 120%Z else runtime.

(** Lines 447-494: the runtime that sets the delay of the rating job. *)
Definition runtime_minutes_of (w : World) (movie_id : string) : M Z :=
  match PyStr.int_of_string movie_id with
  | Some movie_id_int =>
      c <- read_cache ;;
      match PyDict.get movie_id_int c with
      | Some cached => ret (or_120 (get_or (md_runtime cached) 120%Z))
      | None =>
          answer <- ask (MovieDetail movie_id_int)
                        (fun t => w_movie_detail w t movie_id_int) ;;
          match answer with
          | Some movie_details => ret (or_120 (d_runtime movie_details))
          | None => ret 120%Z
          end
      end
  | None => ret 120%Z
  end.

(** Lines 446-524: what the pressed button does before the queue moves. *)
Definition perform_action (w : World) (action movie_id : string) (s : Session)
  : M (Session * list Output) :=
  if String.eqb action "watch" then
    runtime_minutes <- runtime_minutes_of w movie_id ;;
    ret (add_watching movie_id s,
         [ScheduleRating movie_id ((15 + runtime_minutes) * 60)%Z; Say Acknowledged])
  else if String.eqb action "dislike" then
    ask (MovieGenres movie_id) (fun t => w_movie_genres w t movie_id) ;;;
    ret (s, [Say Acknowledged])
  else if String.eqb action "watched" then ret (s, [Say Acknowledged])
  else ret (s, [Say UnknownAction]).

(** Lines 535-547: the current movie leaves the queue and its id joins
    [suggested_movies]. *)
Definition retire_current (movie_id : string) (s : Session) : Session :=
  let s :=
    set_queue (filter (fun m => negb (String.eqb (id_text (md_id m)) movie_id))
                      (movie_queue s)) s in
  match PyStr.int_of_string movie_id with
  | Some movie_id_int =>
      if is_suggested (Some movie_id_int) (suggested_movies s) then s
      else append_suggested (Some movie_id_int) s
  | None => s
  end.

(** The outcome of lines 553-566. [UsePrefetched s' m]: the standing
    prefetched candidate [m] is offered from session [s']. [PrefetchRaised
    s']: reading a [None] tag or deleting an absent one raised, and the
    handler of line 637 reports it. [NoPrefetched]: the check falls
    through. *)
Inductive PrefetchCheck : Type :=
| UsePrefetched : Session -> MovieData -> PrefetchCheck
| PrefetchRaised : Session -> PrefetchCheck
| NoPrefetched : PrefetchCheck.

Definition check_prefetched (s : Session) : PrefetchCheck :=
  match prefetched_next_movie s with
  | Held prefetched_movie =>
      match prefetched_query s with
      | PyNone => PrefetchRaised s
      | tag =>
          let prefetched_query_text :=
            match tag with Held q => q | _ => "" end in
          if String.eqb (normalized prefetched_query_text)
                        (normalized (original_prompt s)) then
            let prefetched_id := md_id prefetched_movie in
            if id_truthy prefetched_id
               && negb (is_suggested prefetched_id (suggested_movies s)) then
              match tag with
              | Held _ =>
                  let s := set_prefetched Absent Absent s in
                  let s := append_suggested prefetched_id s in
                  UsePrefetched (set_queue [prefetched_movie] s) prefetched_movie
              | _ => PrefetchRaised (set_prefetched Absent Absent s)
              end
            else NoPrefetched
          else NoPrefetched
      end
  | _ => NoPrefetched
  end.

(** Lines 549-635: the next candidate after a dislike or an already-watched
    button. The session returned with an [Offer] is the session at the call
    of [send_movie_suggestion]: the handler writes nothing after it. The
    time limit on [fast_movie_search] is not modelled: the search runs to
    its end. *)
Definition next_candidate (w : World) (user_id : string) (s : Session)
  : M (Session * list Output) :=
  match check_prefetched s with
  | UsePrefetched s' prefetched_movie => ret (s', [Offer prefetched_movie])
  | PrefetchRaised s' => ret (s', [Say HandlerError])
  | NoPrefetched =>
      let filtered_queue :=
        filter (fun m => negb (is_suggested (md_id m) (suggested_movies s)))
               (movie_queue s) in
      match filtered_queue with
      | first :: _ => ret (set_queue filtered_queue s, [Offer first])
      | [] =>
          let excluded_ids := ints_of (suggested_movies s) in
          fast_result <- fast_movie_search w (original_prompt s) user_id excluded_ids ;;
          match offer_result (get_or fast_result []) s with
          | Some done => ret done
          | None =>
              if negb (is_actor_query (original_prompt s)) then
                found <- discover_fallback w (original_prompt s) excluded_ids false "" s ;;
                match found with
                | Some done => ret done
                | None => ret (s, [Say NoMoreMovies])
                end
              else ret (s, [Say NoMoreMovies])
          end
      end
  end.

Definition is_reject (action : string) : bool :=
  String.eqb action "dislike" || String.eqb action "watched".

Definition handle_button_callback (w : World) (data user_id : string) (s : Session)
  : M (Session * list Output) :=
  match split_callback data with
  | None => ret (s, [])
  | Some (action, movie_id) =>
      match find_current movie_id (movie_queue s) with
      | None => ret (s, [Say NotInQueue])
      | Some current_movie =>
          acted <- perform_action w action movie_id s ;;
          let (s, said) := acted in
          let s := retire_current movie_id s in
          if is_reject action then
            next <- next_candidate w user_id s ;;
            let (s, offered) := next in
            ret (s, said ++ offered)
          else ret (s, said)
      end
  end.

Definition excluded_ids_text (suggested : list (option Z)) : string :=
  PyStr.join ", " (map id_text (firstn 5 suggested)).

Definition prefetch_prompt (original_prompt : string) (suggested : list (option Z)) : string :=
  match suggested with
  | [] => ("Based on my original request: '" ++ original_prompt
           ++ "', suggest another film.")%string
  | _ => ("Based on my original request: '" ++ original_prompt
          ++ "', suggest another film. Excluded IDs: "
          ++ excluded_ids_text suggested ++ ".")%string
  end.

(** The loop of lines 149-165: the first agent movie whose record can be
    fetched and verified. *)
Fixpoint first_verified (w : World) (movies : list AgentMovie)
  : M (option MovieData) :=
  match movies with
  | [] => ret None
  | movie :: rest =>
      if negb (am_id movie =? 0)%Z && PyStr.truthy (am_title movie) then
        fetched <- fetch_poster_and_verify_movie w (am_id movie) (am_title movie) ;;
        match fetched with
        | (poster_url, Some movie_details) =>
            ret (Some {| md_id := Some (am_id movie);
                         md_title := Some (get_or (d_title movie_details) (am_title movie));
                         md_rating := am_rating movie;
                         md_poster_url := poster_url;
                         md_trailer_url := am_trailer_url movie;
                         md_overview := am_overview movie;
                         md_genres := None;
                         md_runtime := None |})
        | (_, None) => first_verified w rest
        end
      else first_verified w rest
  end.

(** [prefetch_next_movie], the task that [send_movie_suggestion] starts. It
    reads the prompt and the suggested ids of the session [started] it was
    created in, and writes the slot of the session [s] it finishes in. *)
Definition prefetch_next_movie (w : World) (user_id : string) (started s : Session)
  : M Session :=
  if negb (PyStr.truthy (original_prompt started)) then ret s
  else
    let prompt := prefetch_prompt (original_prompt started) (suggested_movies started) in
    response <- get_agent_response w user_id prompt ;;
    match response with
    | AgentMovies movies =>
        verified <- first_verified w movies ;;
        match verified with
        | Some movie_with_poster =>
            ret (set_prefetched (Held movie_with_poster)
                                (Held (original_prompt started)) s)
        | None => ret s
        end
    | _ => ret s
    end.

(** The state of the process as a session sees it: the time, the detail
    cache and the keys of [context.user_data]. *)
Record Process : Type := mkProcess {
  p_time : nat;
  p_cache : Cache;
  p_session : Session
}.

Definition after {A : Type} (p : Process) (o : Out A) (s : Session) : Process :=
  {| p_time := p_time p + List.length (calls o); p_cache := cache o; p_session := s |}.

(** The transitions of a session: a text message, a pressed button, and the
    completion of a prefetch task started in an earlier state. *)
Inductive session_step (w : World) (user_id : string) : Process -> Process -> Prop :=
| step_message : forall p u,
    let o := handle_message w u user_id (p_session p) (p_time p) (p_cache p) in
    session_step w user_id p (after p o (fst (value o)))
| step_button : forall p data,
    let o := handle_button_callback w data user_id (p_session p) (p_time p) (p_cache p) in
    session_step w user_id p (after p o (fst (value o)))
| step_prefetch : forall p started,
    let o := prefetch_next_movie w user_id started (p_session p) (p_time p) (p_cache p) in
    session_step w user_id p (after p o (value o)).

Inductive session_reachable (w : World) (user_id : string) : Process -> Prop :=
| reach_start : forall t c,
    session_reachable w user_id
      {| p_time := t; p_cache := c; p_session := new_session |}
| reach_step : forall p p',
    session_reachable w user_id p -> session_step w user_id p p' ->
    session_reachable w user_id p'.

(** The invariant of the design document: no queue entry's id is in
    [suggested_movies]. *)
Definition queue_unsuggested (s : Session) : Prop :=
  forall m, In m (movie_queue s) -> is_suggested (md_id m) (suggested_movies s) = false.

(** [str(i)] for a natural number. *)
Definition nat_text (i : nat) : string := id_text (Some (Z.of_nat i)).

(** A button of the rating keyboard: its label and its callback data. *)
Definition rating_button (movie_id : string) (i : nat) : string * string :=
  ((nat_text i ++ "/10")%string,
   ("rate_" ++ movie_id ++ "_" ++ nat_text i)%string).

(** The loop of lines 46-52 over [range(1, 11)]: rows of five buttons. *)
Fixpoint keyboard_rows (movie_id : string) (numbers : list nat)
         (keyboard : list (list (string * string))) (row : list (string * string))
  : list (list (string * string)) :=
  match numbers with
  | [] => if nonempty row then keyboard ++ [row] else keyboard
  | i :: rest =>
      let row := row ++ [rating_button movie_id i] in
      if Nat.eqb (List.length row) 5
      then keyboard_rows movie_id rest (keyboard ++ [row]) []
      else keyboard_rows movie_id rest keyboard row
  end.

Definition rating_keyboard (movie_id : string) : list (list (string * string)) :=
  keyboard_rows movie_id (seq 1 10) [] [].

(** [ask_for_rating], the job scheduled by the watch button: the keyboard
    it sends, or [None] when the [watching_movie_<id>] marker is gone. *)
Definition ask_for_rating (movie_id : string) (s : Session)
  : option (list (list (string * string))) :=
  if mem_string movie_id (watching s) then Some (rating_keyboard movie_id) else None.

(** The three answers to a rating. *)
Inductive RatingTier : Type := Excellent | Good | Disliked.

Definition rating_tier (rating : Z) : RatingTier :=
  if (8 <=? rating)%Z then Excellent
  else if (6 <=? rating)%Z then Good
  else Disliked.

Definition clear_watching (movie_id : string) (s : Session) : Session :=
  {| original_prompt := original_prompt s; movie_queue := movie_queue s;
     suggested_movies := suggested_movies s;
     prefetched_next_movie := prefetched_next_movie s;
     prefetched_query := prefetched_query s;
     watching := filter (fun x => negb (String.eqb x movie_id)) (watching s) |}.

(** [handle_rating_callback]: the session it leaves and the rating it
    records with its answer; [None] when the data is not of the form
    [rate_<id>_<rating>] or the rating is no integer (the [ValueError] of
    line 78 leaves the handler before anything is done). The memory client
    of line 81 is taken to be built and the Telegram calls to return, as in
    the other handlers; [save_memory] catches its own errors, and its
    outcome is not read. *)
Definition handle_rating_callback (w : World) (data user_id : string) (s : Session)
  : M (Session * option (Z * RatingTier)) :=
  match PyStr.split_on "_" data with
  | [tag; movie_id; rating_text] =>
      if String.eqb tag "rate" then
        match PyStr.int_of_string rating_text with
        | Some rating =>
            ask (MovieGenres movie_id) (fun t => w_movie_genres w t movie_id) ;;;
            ret (clear_watching movie_id s, Some (rating, rating_tier rating))
        | None => ret (s, None)
        end
      else ret (s, None)
  | _ => ret (s, None)
  end.

(** The callback data of the three buttons [send_movie_suggestion] puts
    under a candidate (lines 187-193 of [handlers.py]). *)
Definition suggestion_buttons (movie : MovieData) : list string :=
  [ ("watch_" ++ id_text (md_id movie))%string;
    ("dislike_" ++ id_text (md_id movie))%string;
    ("watched_" ++ id_text (md_id movie))%string ].

(** A pattern whose character tests do not tell a letter from its
    lower-case form: what [re.IGNORECASE] makes of a pattern. *)
Fixpoint case_blind (r : Re.regex) : Prop :=
  match r with
  | Re.Eps | Re.EndAnchor => True
  | Re.Sym p => forall ch, p (PyStr.lower_char ch) = p ch
  | Re.Cat a b | Re.Alt a b => case_blind a /\ case_blind b
  | Re.Star _ a | Re.Group a => case_blind a
  end.

(* ===================================================================== *)
(** ** Sample data *)
(* ===================================================================== *)

(** A decidable form of [NoDup] on keys, to check concrete dicts. *)
Fixpoint distinct_keys (l : list Z) : bool :=
  match l with
  | [] => true
  | k :: l' => negb (mem_Z k l') && distinct_keys l'
  end.

Definition sample_entry (movie_id : Z) : MovieData :=
  {| md_id := Some movie_id; md_title := Some "Sample"; md_rating := (75 # 10)%Q;
     md_poster_url := ""; md_trailer_url := ""; md_overview := "";
     md_genres := Some []; md_runtime := Some 100%Z |}.

(** A cache filled to its capacity with the ids 1 to 100, in that order. *)
Definition full_cache : Cache :=
  map (fun n => (Z.of_nat n, sample_entry (Z.of_nat n))) (seq 1 MAX_CACHE_SIZE).

(** A film of 2005 rated 9.0 by 600 voters, and one rated 9.0 by 50000. *)
Definition old_acclaimed_few_votes : Movie :=
  {| m_id := Some 11%Z; m_title := Held "Old Gem"; m_overview := "";
     m_release_date := "2005-06-01"; m_vote_average := (9 # 1)%Q;
     m_vote_count := 600%Z; m_popularity := (10 # 1)%Q; m_poster_path := "" |}.

Definition old_acclaimed_many_votes : Movie :=
  {| m_id := Some 12%Z; m_title := Held "Old Classic"; m_overview := "";
     m_release_date := "2005-06-01"; m_vote_average := (9 # 1)%Q;
     m_vote_count := 50000%Z; m_popularity := (10 # 1)%Q; m_poster_path := "" |}.

(** A catalog that knows nothing: every call answers empty. *)
Definition quiet_world : World :=
  {| w_search_person := fun _ _ => None;
     w_person_credits := fun _ _ => [];
     w_discover := fun _ _ => [];
     w_search_movie := fun _ _ => [];
     w_memories := fun _ _ => ([], []);
     w_movie_detail := fun _ _ => None;
     w_movie_videos := fun _ _ => "";
     w_movie_genres := fun _ _ => None;
     w_agent := fun _ _ _ => NoReply;
     w_agent_lookups := fun _ _ _ => [];
     w_year := 2026%Z |}.

(** Three credits of one person: films with the ids 5 and 9, and one whose
    id is 0. *)
Definition credit_alpha : Movie :=
  {| m_id := Some 5%Z; m_title := Held "Alpha"; m_overview := "A story.";
     m_release_date := "2021-03-04"; m_vote_average := (8 # 1)%Q;
     m_vote_count := 12000%Z; m_popularity := (60 # 1)%Q;
     m_poster_path := "/alpha.jpg" |}.

Definition credit_zero : Movie :=
  {| m_id := Some 0%Z; m_title := Held "Beta"; m_overview := "Another story.";
     m_release_date := "2019-01-01"; m_vote_average := (72 # 10)%Q;
     m_vote_count := 800%Z; m_popularity := (20 # 1)%Q;
     m_poster_path := "/beta.jpg" |}.

Definition credit_gamma : Movie :=
  {| m_id := Some 9%Z; m_title := Held "Gamma"; m_overview := "A third story.";
     m_release_date := "2018-05-06"; m_vote_average := (75 # 10)%Q;
     m_vote_count := 3000%Z; m_popularity := (30 # 1)%Q;
     m_poster_path := "/gamma.jpg" |}.

Definition details_alpha : Details :=
  {| d_id := 5%Z; d_title := Some "Alpha"; d_vote_average := Some (8 # 1)%Q;
     d_vote_count := 12000%Z; d_overview := "A story."; d_genres := ["Drama"];
     d_runtime := 110%Z; d_poster_path := "/alpha.jpg" |}.

(** A catalog with one person, these three credits and the record of the
    first. *)
Definition credits_world : World :=
  {| w_search_person := fun _ _ => Some 31%Z;
     w_person_credits := fun _ _ => [credit_alpha; credit_zero; credit_gamma];
     w_discover := fun _ _ => [];
     w_search_movie := fun _ _ => [];
     w_memories := fun _ _ => ([], []);
     w_movie_detail := fun _ id => if (id =? 5)%Z then Some details_alpha else None;
     w_movie_videos := fun _ _ => "";
     w_movie_genres := fun _ _ => None;
     w_agent := fun _ _ _ => NoReply;
     w_agent_lookups := fun _ _ _ => [];
     w_year := 2026%Z |}.

(** A film whose title is [null], and a catalog whose title search answers
    with the film 5 and that one. *)
Definition untitled_film : Movie :=
  {| m_id := Some 7%Z; m_title := PyNone; m_overview := "No title.";
     m_release_date := "2020-02-02"; m_vote_average := (71 # 10)%Q;
     m_vote_count := 600%Z; m_popularity := (10 # 1)%Q;
     m_poster_path := "/untitled.jpg" |}.

Definition search_world : World :=
  {| w_search_person := w_search_person credits_world;
     w_person_credits := w_person_credits credits_world;
     w_discover := w_discover credits_world;
     w_search_movie := fun _ _ => [credit_alpha; untitled_film];
     w_memories := w_memories credits_world;
     w_movie_detail := w_movie_detail credits_world;
     w_movie_videos := w_movie_videos credits_world;
     w_movie_genres := w_movie_genres credits_world;
     w_agent := w_agent credits_world;
     w_agent_lookups := w_agent_lookups credits_world;
     w_year := 2026%Z |}.

(** Two films that differ in rating and votes only: 8.2 with 1500 votes,
    and 7.2 with 2000 votes. *)
Definition rated_82 : Movie :=
  {| m_id := Some 41%Z; m_title := Held "Eight"; m_overview := "";
     m_release_date := ""; m_vote_average := (82 # 10)%Q;
     m_vote_count := 1500%Z; m_popularity := (10 # 1)%Q; m_poster_path := "" |}.

Definition rated_72 : Movie :=
  {| m_id := Some 42%Z; m_title := Held "Seven"; m_overview := "";
     m_release_date := ""; m_vote_average := (72 # 10)%Q;
     m_vote_count := 2000%Z; m_popularity := (10 # 1)%Q; m_poster_path := "" |}.

(** The answer to "movies with Tom Hanks" on that catalog, with nothing
    excluded and with the id 0 excluded. *)
Definition credits_answer (excluded_ids : list Z) : list MovieData :=
  get_or (value (fast_movie_search credits_world "movies with Tom Hanks" "user"
                                   excluded_ids 0 []))
         [].

(** The session after the message "movies with Tom Hanks" on that catalog,
    and the same session once a prefetch task has left a candidate tagged
    with the prompt, in another case and with blanks around. *)
Definition hanks_update : Update :=
  {| u_in_group := false; u_text := "movies with Tom Hanks"; u_bot_username := "" |}.

Definition session_after_message : Session :=
  fst (value (handle_message credits_world hanks_update "user" new_session 0 [])).

Definition prefetched_delta : MovieData :=
  {| md_id := Some 77%Z; md_title := Some "Delta"; md_rating := (81 # 10)%Q;
     md_poster_url := "https://image.tmdb.org/t/p/w500/delta.jpg";
     md_trailer_url := ""; md_overview := "A fourth story.";
     md_genres := None; md_runtime := None |}.

Definition session_with_prefetch : Session :=
  set_prefetched (Held prefetched_delta) (Held " Movies With Tom Hanks ")
                 session_after_message.

(** A holiday film and a film that is none. *)
Definition holiday_film : Movie :=
  {| m_id := Some 21%Z; m_title := Held "A Christmas Tale"; m_overview := "Snow.";
     m_release_date := "2021-12-01"; m_vote_average := (74 # 10)%Q;
     m_vote_count := 900%Z; m_popularity := (15 # 1)%Q; m_poster_path := "" |}.

(** A world like [credits_world] whose agent proposes the film 5, and a
    session that has just been reset by another prompt. *)
Definition agent_world : World :=
  {| w_search_person := w_search_person credits_world;
     w_person_credits := w_person_credits credits_world;
     w_discover := w_discover credits_world;
     w_search_movie := w_search_movie credits_world;
     w_memories := w_memories credits_world;
     w_movie_detail := w_movie_detail credits_world;
     w_movie_videos := w_movie_videos credits_world;
     w_movie_genres := w_movie_genres credits_world;
     w_agent := fun _ _ _ =>
       AgentMovies [ {| am_id := 5%Z; am_title := "Alpha"; am_rating := (8 # 1)%Q;
                        am_trailer_url := ""; am_overview := "A story." |} ];
     w_agent_lookups := fun _ _ _ => [];
     w_year := 2026%Z |}.

Definition session_after_reset : Session :=
  set_prompt "a quiet comedy"
    (set_suggested [] (set_prefetched PyNone PyNone (set_queue [] session_after_message))).

Definition comedy_update : Update :=
  {| u_in_group := false; u_text := "a quiet comedy"; u_bot_username := "" |}.

(* ===================================================================== *)
(** * Properties *)
(* ===================================================================== *)

(** ** The poster validator *)

Lemma startswith_slash_cons : forall p, PyStr.startswith "/" ("/" ++ p)%string = true.
Proof.
  intros p. unfold PyStr.startswith. simpl. destruct p; reflexivity.
Qed.

Lemma normalize_starts_with_slash :
  forall p, PyStr.startswith "/" (normalize_poster_path p) = true.
Proof.
  intros p. unfold normalize_poster_path.
  destruct (PyStr.startswith "/" (PyStr.strip p)) eqn:E.
  - exact E.
  - apply startswith_slash_cons.
Qed.

(** C6, as stated, fails: a reference without a leading slash is not
    rejected for that reason; ["abc123.jpg"] is accepted. *)
Lemma poster_without_slash_accepted :
  PyStr.startswith "/" "abc123.jpg" = false
  /\ validate_and_build_poster_url "abc123.jpg"
     = "https://image.tmdb.org/t/p/w500/abc123.jpg".
Proof. split; vm_compute; reflexivity. Qed.

(** C6, amended: the validator answers either the empty string or the base
    URL followed by the normalised path, which is the stripped reference
    with a slash put in front when it has none, begins with "/" and matches
    the path pattern; a reference without the leading slash gives the same
    URL as the one with it; the four test vectors of the design document
    hold. *)
Theorem poster_validator_contract :
  (forall p,
      validate_and_build_poster_url p = ""
      \/ (validate_and_build_poster_url p
            = (TMDB_IMAGE_BASE_URL ++ normalize_poster_path p)%string
          /\ PyStr.startswith "/" (normalize_poster_path p) = true
          /\ Re.found (Re.match_ valid_pattern (normalize_poster_path p)) = true))
  /\ validate_and_build_poster_url "abc123.jpg"
     = validate_and_build_poster_url "/abc123.jpg"
  /\ validate_and_build_poster_url "/abc123.jpg"
     = "https://image.tmdb.org/t/p/w500/abc123.jpg"
  /\ validate_and_build_poster_url "http://evil.com/x.jpg" = ""
  /\ validate_and_build_poster_url "/abc<script>.jpg" = ""
  /\ validate_and_build_poster_url "" = "".
Proof.
  split; [| repeat split; vm_compute; reflexivity].
  intros p.
  pose proof (normalize_starts_with_slash p) as Hslash.
  unfold validate_and_build_poster_url.
  fold (normalize_poster_path p) in *.
  change (if PyStr.startswith "/" (PyStr.strip p) then PyStr.strip p
          else ("/" ++ PyStr.strip p)%string) with (normalize_poster_path p).
  destruct (negb (PyStr.truthy p)); [left; reflexivity |].
  destruct (negb (PyStr.truthy (PyStr.strip p))
            || Nat.ltb (String.length (PyStr.strip p)) 5); [left; reflexivity |].
  destruct (Re.found (Re.match_ valid_pattern (normalize_poster_path p))) eqn:Hpat;
    [| left; reflexivity].
  cbv beta iota delta [negb].
  destruct (existsb _ suspicious_patterns); [left; reflexivity |].
  destruct (PyStr.startswith "https://image.tmdb.org/t/p/w" _); [| left; reflexivity].
  destruct (Re.found (Re.match_ url_pattern _)); [| left; reflexivity].
  right. repeat split; assumption.
Qed.

(** ** The detail cache *)

Section DictFacts.
Context {V : Type}.
Implicit Types (d : PyDict.t V) (k : Z) (v : V).

Lemma dict_mem_keys : forall d k, PyDict.mem k d = true <-> In k (PyDict.keys d).
Proof.
  unfold PyDict.mem. induction d as [| [k' v'] d IH]; intros k; simpl.
  - split; [discriminate | tauto].
  - destruct (Z.eqb_spec k' k) as [-> | Hne].
    + split; auto.
    + rewrite IH. split; [auto | intros [H | H]; [contradiction | exact H]].
Qed.

Lemma dict_keys_replace : forall d k v, PyDict.keys (PyDict.replace k v d) = PyDict.keys d.
Proof.
  induction d as [| [k' v'] d IH]; intros k v; simpl; [reflexivity |].
  destruct (k' =? k)%Z; simpl; [reflexivity | now rewrite IH].
Qed.

Lemma dict_keys_set_new :
  forall d k v, PyDict.mem k d = false -> PyDict.set k v d = d ++ [(k, v)].
Proof. intros d k v H. unfold PyDict.set. now rewrite H. Qed.

Lemma dict_wf_set : forall d k v, PyDict.wf d -> PyDict.wf (PyDict.set k v d).
Proof.
  intros d k v Hwf. unfold PyDict.wf, PyDict.set.
  destruct (PyDict.mem k d) eqn:Hmem.
  - now rewrite dict_keys_replace.
  - unfold PyDict.keys. rewrite map_app. simpl.
    apply NoDup_app; [exact Hwf | constructor; [tauto | constructor] |].
    intros x Hx [<- | []].
    apply dict_mem_keys in Hx. congruence.
Qed.

Lemma dict_length_set : forall d k v, List.length (PyDict.set k v d) <= S (List.length d).
Proof.
  intros d k v. unfold PyDict.set. destruct (PyDict.mem k d).
  - assert (H : List.length (PyDict.replace k v d) = List.length d).
    { pose proof (f_equal (@List.length Z) (dict_keys_replace d k v)) as E.
      unfold PyDict.keys in E. now rewrite !length_map in E. }
    lia.
  - rewrite length_app. simpl. lia.
Qed.

Lemma dict_del_absent : forall d k, ~ In k (PyDict.keys d) -> PyDict.del k d = d.
Proof.
  induction d as [| [k' v'] d IH]; intros k Hk; simpl; [reflexivity |].
  simpl in Hk. destruct (Z.eqb_spec k' k) as [-> | Hne]; simpl.
  - tauto.
  - f_equal. apply IH. tauto.
Qed.

(** Deleting the first key of a dict removes its first item and nothing
    else. *)
Lemma dict_del_first :
  forall k v d, PyDict.wf ((k, v) :: d) -> PyDict.del k ((k, v) :: d) = d.
Proof.
  intros k v d Hwf. inversion Hwf as [| ? ? Hnotin Hrest]; subst.
  simpl. rewrite Z.eqb_refl. simpl. now apply dict_del_absent.
Qed.

Lemma dict_get_app_new :
  forall d k v k', PyDict.get k' (d ++ [(k, v)]) =
                   match PyDict.get k' d with
                   | Some x => Some x
                   | None => if (k =? k')%Z then Some v else None
                   end.
Proof.
  induction d as [| [k0 v0] d IH]; intros k v k'; simpl; [reflexivity |].
  destruct (k0 =? k')%Z; [reflexivity | apply IH].
Qed.

Lemma dict_get_absent : forall d k, ~ In k (PyDict.keys d) -> PyDict.get k d = None.
Proof.
  intros d k Hk. destruct (PyDict.get k d) eqn:E; [| reflexivity].
  exfalso. apply Hk. apply dict_mem_keys. unfold PyDict.mem. now rewrite E.
Qed.
End DictFacts.

Lemma set_cached_movie_wf :
  forall c k v, PyDict.wf c -> PyDict.wf (set_cached_movie k v c).
Proof.
  intros c k v Hwf. unfold set_cached_movie.
  pose proof (dict_wf_set c k v Hwf) as Hset.
  destruct (Nat.ltb MAX_CACHE_SIZE _); [| exact Hset].
  destruct (PyDict.set k v c) as [| [k0 v0] rest] eqn:E; [exact Hset |].
  cbv beta iota delta [PyDict.first_key].
  rewrite (dict_del_first k0 v0 rest Hset).
  now inversion Hset.
Qed.

Lemma set_cached_movie_bounded :
  forall c k v,
    PyDict.wf c -> List.length c <= MAX_CACHE_SIZE ->
    List.length (set_cached_movie k v c) <= MAX_CACHE_SIZE.
Proof.
  intros c k v Hwf Hlen. unfold set_cached_movie.
  pose proof (dict_wf_set c k v Hwf) as Hset.
  pose proof (dict_length_set c k v) as Hle.
  destruct (Nat.ltb_spec MAX_CACHE_SIZE (List.length (PyDict.set k v c))) as [Hgt | Hok];
    [| exact Hok].
  destruct (PyDict.set k v c) as [| [k0 v0] rest] eqn:E; [simpl in *; lia |].
  cbv beta iota delta [PyDict.first_key].
  rewrite (dict_del_first k0 v0 rest Hset). simpl List.length in *. lia.
Qed.

Lemma cache_reachable_sound :
  forall c, cache_reachable c -> PyDict.wf c /\ List.length c <= MAX_CACHE_SIZE.
Proof.
  induction 1 as [| c k v _ [Hwf Hlen] | c _ _].
  - split; [constructor | simpl; lia].
  - split; [now apply set_cached_movie_wf | now apply set_cached_movie_bounded].
  - split; [constructor | simpl; lia].
Qed.

(** C7: on a cache of exactly [MAX_CACHE_SIZE] = 100 entries, caching a
    movie whose id is not a key appends the new entry and deletes the first
    item in insertion order and nothing else, so 100 entries remain; and in
    every cache the program can build, the size after [set_cached_movie] is
    at most the capacity. *)
Theorem set_cached_movie_evicts_oldest :
  (forall (c : Cache) movie_id movie_data,
      PyDict.wf c ->
      List.length c = MAX_CACHE_SIZE ->
      PyDict.mem movie_id c = false ->
      exists oldest rest,
        c = oldest :: rest
        /\ set_cached_movie movie_id movie_data c = rest ++ [(movie_id, movie_data)]
        /\ List.length (set_cached_movie movie_id movie_data c) = MAX_CACHE_SIZE
        /\ get_cached_movie (fst oldest) (set_cached_movie movie_id movie_data c) = None
        /\ get_cached_movie movie_id (set_cached_movie movie_id movie_data c)
           = Some movie_data
        /\ (forall k, k <> fst oldest -> k <> movie_id ->
                      get_cached_movie k (set_cached_movie movie_id movie_data c)
                      = get_cached_movie k c))
  /\ (forall (c : Cache) movie_id movie_data,
         cache_reachable c ->
         List.length (set_cached_movie movie_id movie_data c) <= MAX_CACHE_SIZE).
Proof.
  split.
  - intros c movie_id movie_data Hwf Hlen Hmem.
    destruct c as [| [k0 v0] rest]; [discriminate Hlen |].
    exists (k0, v0), rest.
    assert (Hnew : ~ In movie_id (PyDict.keys ((k0, v0) :: rest))).
    { intros Hin. apply dict_mem_keys in Hin. congruence. }
    assert (Hset : set_cached_movie movie_id movie_data ((k0, v0) :: rest)
                   = rest ++ [(movie_id, movie_data)]).
    { unfold set_cached_movie. rewrite (dict_keys_set_new _ _ _ Hmem).
      pose proof (dict_wf_set _ movie_id movie_data Hwf) as Hwf'.
      rewrite (dict_keys_set_new _ _ _ Hmem) in Hwf'.
      replace (Nat.ltb MAX_CACHE_SIZE (List.length (((k0, v0) :: rest) ++ [(movie_id, movie_data)])))
        with true.
      - simpl app in *. cbv beta iota delta [PyDict.first_key].
        now apply dict_del_first.
      - symmetry. apply Nat.ltb_lt. rewrite length_app, Hlen.
        cbn [List.length]. lia. }
    inversion Hwf as [| ? ? Hk0 Hrest]; subst.
    simpl in Hnew.
    rewrite Hset. unfold get_cached_movie. simpl fst.
    repeat split.
    + rewrite length_app. cbn [List.length] in *. lia.
    + rewrite dict_get_app_new, (dict_get_absent rest k0 Hk0).
      destruct (Z.eqb_spec movie_id k0); [subst; tauto | reflexivity].
    + rewrite dict_get_app_new, (dict_get_absent rest movie_id) by tauto.
      now rewrite Z.eqb_refl.
    + intros k Hk Hid. rewrite dict_get_app_new. simpl.
      destruct (Z.eqb_spec k0 k); [congruence |].
      destruct (Z.eqb_spec movie_id k); [congruence |].
      now destruct (PyDict.get k rest).
  - intros c movie_id movie_data Hreach.
    destruct (cache_reachable_sound c Hreach) as [Hwf Hlen].
    now apply set_cached_movie_bounded.
Qed.

Lemma distinct_keys_NoDup : forall l, distinct_keys l = true -> NoDup l.
Proof.
  induction l as [| k l IH]; simpl; intros H; [constructor |].
  apply andb_true_iff in H. destruct H as [Hk Hl].
  constructor; [| auto].
  intros Hin. apply negb_true_iff in Hk.
  assert (mem_Z k l = true) as Hmem.
  { unfold mem_Z. apply existsb_exists. exists k. split; [exact Hin | apply Z.eqb_refl]. }
  congruence.
Qed.

Lemma set_cached_movie_evicts_oldest_witness :
  (exists oldest rest,
      full_cache = oldest :: rest
      /\ set_cached_movie 101 (sample_entry 101) full_cache
         = rest ++ [(101%Z, sample_entry 101)]
      /\ List.length (set_cached_movie 101 (sample_entry 101) full_cache) = MAX_CACHE_SIZE
      /\ get_cached_movie (fst oldest) (set_cached_movie 101 (sample_entry 101) full_cache)
         = None
      /\ get_cached_movie 101 (set_cached_movie 101 (sample_entry 101) full_cache)
         = Some (sample_entry 101)
      /\ (forall k, k <> fst oldest -> k <> 101%Z ->
                    get_cached_movie k (set_cached_movie 101 (sample_entry 101) full_cache)
                    = get_cached_movie k full_cache))
  /\ List.length (set_cached_movie 7 (sample_entry 7) []) <= MAX_CACHE_SIZE.
Proof.
  split.
  - apply (proj1 set_cached_movie_evicts_oldest full_cache 101%Z (sample_entry 101)).
    + apply distinct_keys_NoDup. vm_compute. reflexivity.
    + vm_compute. reflexivity.
    + vm_compute. reflexivity.
  - apply (proj2 set_cached_movie_evicts_oldest [] 7%Z (sample_entry 7)).
    apply reach_empty.
Defined.

(** ** The quality filter *)

Lemma release_year_needs_text :
  forall release_date year,
    release_year release_date = Some year -> PyStr.truthy release_date = true.
Proof.
  intros [| c s] year H; [| reflexivity].
  vm_compute in H. discriminate.
Qed.

Lemma Qlt_bool_false_iff : forall a b, Qlt_bool a b = false <-> (b <= a)%Q.
Proof.
  intros a b. unfold Qlt_bool. rewrite negb_false_iff. apply Qle_bool_iff.
Qed.

(** The first-loop test on a candidate that meets the primary thresholds and
    was released before 2010. *)
Lemma passes_primary_old :
  forall r year,
    (MIN_RATING <= m_vote_average r)%Q ->
    (MIN_VOTE_COUNT <= m_vote_count r)%Z ->
    release_year (m_release_date r) = Some year ->
    (year < 2010)%Z ->
    (passes_primary false r = true
     <-> ((85 # 10 <= m_vote_average r)%Q /\ (10000 <= m_vote_count r)%Z))
    /\ passes_primary true r = true.
Proof.
  intros r year Hrating Hvotes Hyear Hold.
  unfold passes_primary.
  apply Qle_bool_iff in Hrating. apply Z.leb_le in Hvotes.
  rewrite Hrating, Hvotes, Hyear, (release_year_needs_text _ _ Hyear).
  apply Z.ltb_lt in Hold. rewrite Hold.
  cbn [andb negb]. split; [| reflexivity].
  rewrite negb_true_iff, orb_false_iff, Qlt_bool_false_iff, Z.ltb_ge.
  reflexivity.
Qed.

(** What [filter_by_quality] returns: the primary tier when a candidate
    passes the first loop, the relaxed tier otherwise. *)
Lemma filter_by_quality_tiers :
  forall results is_christmas,
    ((exists x, In x results /\ passes_primary is_christmas x = true) ->
     filter_by_quality results is_christmas = primary_tier results is_christmas)
    /\ ((forall x, In x results -> passes_primary is_christmas x = false) ->
        filter_by_quality results is_christmas = filter passes_fallback results).
Proof.
  intros results is_christmas. unfold filter_by_quality. split.
  - intros (x & Hin & Hpass).
    destruct (primary_tier results is_christmas) as [| y l] eqn:E; [| reflexivity].
    assert (Hx : In x (primary_tier results is_christmas))
      by (unfold primary_tier; apply filter_In; auto).
    rewrite E in Hx. contradiction.
  - intros Hnone.
    destruct (primary_tier results is_christmas) as [| y l] eqn:E; [reflexivity |].
    assert (Hy : In y (primary_tier results is_christmas)) by (rewrite E; now left).
    unfold primary_tier in Hy. apply filter_In in Hy. destruct Hy as [Hin Hpass].
    rewrite (Hnone y Hin) in Hpass. discriminate.
Qed.

(** C1, as stated, fails: a film of 2005 rated 9.0 by 600 voters meets the
    primary thresholds and the claimed exception (rating at least 8.5), the
    query is no holiday query, and [filter_by_quality] drops it from a list
    in which another film passes the primary test. *)
Lemma age_rule_is_not_a_disjunction :
  In old_acclaimed_few_votes [old_acclaimed_few_votes; old_acclaimed_many_votes]
  /\ (MIN_RATING <= m_vote_average old_acclaimed_few_votes)%Q
  /\ (MIN_VOTE_COUNT <= m_vote_count old_acclaimed_few_votes)%Z
  /\ release_year (m_release_date old_acclaimed_few_votes) = Some 2005%Z
  /\ ((85 # 10 <= m_vote_average old_acclaimed_few_votes)%Q
      \/ (10000 <= m_vote_count old_acclaimed_few_votes)%Z)
  /\ filter_by_quality [old_acclaimed_few_votes; old_acclaimed_many_votes] false
     = [old_acclaimed_many_votes]
  /\ ~ In old_acclaimed_few_votes
          (filter_by_quality [old_acclaimed_few_votes; old_acclaimed_many_votes] false).
Proof.
  split; [left; reflexivity |].
  split; [apply Qle_bool_iff; vm_compute; reflexivity |].
  split; [vm_compute; discriminate |].
  split; [vm_compute; reflexivity |].
  split; [left; apply Qle_bool_iff; vm_compute; reflexivity |].
  split; [vm_compute; reflexivity |].
  intros H. vm_compute in H. destruct H as [H | []]. discriminate H.
Qed.

(** C1, amended: a candidate of the input with rating at least 7.0, at least
    500 votes and a release year before 2010 passes the first loop of
    [filter_by_quality] on a non-holiday query if and only if its rating is
    at least 8.5 AND its vote count is at least 10000. When some candidate
    passes the first loop, the function returns the primary tier, so it
    keeps the old film exactly under that condition; when none does, the
    relaxed tier keeps the old film whatever its age. A holiday query keeps
    it regardless. *)
Theorem age_rule_needs_rating_and_votes :
  forall results r year,
    In r results ->
    (MIN_RATING <= m_vote_average r)%Q ->
    (MIN_VOTE_COUNT <= m_vote_count r)%Z ->
    release_year (m_release_date r) = Some year ->
    (year < 2010)%Z ->
    (In r (primary_tier results false)
     <-> ((85 # 10 <= m_vote_average r)%Q /\ (10000 <= m_vote_count r)%Z))
    /\ ((exists x, In x results /\ passes_primary false x = true) ->
        filter_by_quality results false = primary_tier results false
        /\ (In r (filter_by_quality results false)
            <-> ((85 # 10 <= m_vote_average r)%Q /\ (10000 <= m_vote_count r)%Z)))
    /\ ((forall x, In x results -> passes_primary false x = false) ->
        In r (filter_by_quality results false))
    /\ In r (filter_by_quality results true).
Proof.
  intros results r year Hin Hrating Hvotes Hyear Hold.
  destruct (passes_primary_old r year Hrating Hvotes Hyear Hold) as [Hiff Hholiday].
  assert (Hprimary : In r (primary_tier results false)
                     <-> ((85 # 10 <= m_vote_average r)%Q
                          /\ (10000 <= m_vote_count r)%Z)).
  { unfold primary_tier. rewrite filter_In, <- Hiff. tauto. }
  split; [exact Hprimary |]. split; [| split].
  - intros Hsome.
    rewrite (proj1 (filter_by_quality_tiers results false) Hsome).
    split; [reflexivity | exact Hprimary].
  - intros Hnone.
    rewrite (proj2 (filter_by_quality_tiers results false) Hnone).
    apply filter_In. split; [exact Hin |].
    unfold passes_fallback. apply andb_true_iff. split.
    + apply Qle_bool_iff. apply Qle_trans with (y := MIN_RATING); [| exact Hrating].
      apply Qle_bool_iff. vm_compute. reflexivity.
    + apply Z.leb_le. unfold MIN_VOTE_COUNT_FALLBACK, MIN_VOTE_COUNT in *. lia.
  - rewrite (proj1 (filter_by_quality_tiers results true)); [| now exists r].
    unfold primary_tier. apply filter_In. auto.
Qed.

Lemma age_rule_needs_rating_and_votes_witness :
  ((In old_acclaimed_many_votes
       (primary_tier [old_acclaimed_few_votes; old_acclaimed_many_votes] false)
    <-> ((85 # 10 <= m_vote_average old_acclaimed_many_votes)%Q
         /\ (10000 <= m_vote_count old_acclaimed_many_votes)%Z))
   /\ filter_by_quality [old_acclaimed_few_votes; old_acclaimed_many_votes] false
      = primary_tier [old_acclaimed_few_votes; old_acclaimed_many_votes] false
   /\ (In old_acclaimed_many_votes
          (filter_by_quality [old_acclaimed_few_votes; old_acclaimed_many_votes] false)
       <-> ((85 # 10 <= m_vote_average old_acclaimed_many_votes)%Q
            /\ (10000 <= m_vote_count old_acclaimed_many_votes)%Z))
   /\ In old_acclaimed_many_votes
         (filter_by_quality [old_acclaimed_few_votes; old_acclaimed_many_votes] true))
  /\ In old_acclaimed_few_votes (filter_by_quality [old_acclaimed_few_votes] false).
Proof.
  assert (Hmany :
            (MIN_RATING <= m_vote_average old_acclaimed_many_votes)%Q
            /\ (MIN_RATING <= m_vote_average old_acclaimed_few_votes)%Q)
    by (split; apply Qle_bool_iff; vm_compute; reflexivity).
  split.
  - destruct (age_rule_needs_rating_and_votes
                [old_acclaimed_few_votes; old_acclaimed_many_votes]
                old_acclaimed_many_votes 2005%Z)
      as (Hprimary & Hsome & _ & Hholiday).
    + simpl. auto.
    + apply Hmany.
    + vm_compute. discriminate.
    + vm_compute. reflexivity.
    + reflexivity.
    + destruct Hsome as [Heq Hkept].
      * exists old_acclaimed_many_votes. split; [simpl; auto | vm_compute; reflexivity].
      * split; [exact Hprimary |]. split; [exact Heq |].
        split; [exact Hkept | exact Hholiday].
  - destruct (age_rule_needs_rating_and_votes
                [old_acclaimed_few_votes] old_acclaimed_few_votes 2005%Z)
      as (_ & _ & Hnone & _).
    + simpl. auto.
    + apply Hmany.
    + vm_compute. discriminate.
    + vm_compute. reflexivity.
    + reflexivity.
    + apply Hnone. intros x [<- | []]. vm_compute. reflexivity.
Defined.

Lemma filter_twice :
  forall (A : Type) (p : A -> bool) (l : list A), filter p (filter p l) = filter p l.
Proof.
  intros A p l. induction l as [| x l IH]; simpl; [reflexivity |].
  destruct (p x) eqn:E; simpl; [rewrite E; f_equal |]; exact IH.
Qed.

Lemma filter_none_of_sublist :
  forall (A : Type) (p q : A -> bool) (l : list A),
    filter p l = [] -> filter p (filter q l) = [].
Proof.
  intros A p q l. induction l as [| x l IH]; simpl; [reflexivity |].
  destruct (p x) eqn:Ep; [discriminate |].
  intros H. destruct (q x); simpl; [rewrite Ep |]; auto.
Qed.

(** C4: filtering a filtered list again, with the same holiday flag, gives
    the same list, whichever tier the first pass admitted candidates at. *)
Theorem filter_by_quality_idempotent :
  forall (results : list Movie) (is_christmas : bool),
    filter_by_quality (filter_by_quality results is_christmas) is_christmas
    = filter_by_quality results is_christmas.
Proof.
  intros results is_christmas. unfold filter_by_quality at 2 3.
  destruct (primary_tier results is_christmas) as [| r rated] eqn:Hprimary.
  - unfold filter_by_quality, primary_tier.
    rewrite (filter_none_of_sublist _ _ passes_fallback results Hprimary).
    apply filter_twice.
  - unfold filter_by_quality. rewrite <- Hprimary. unfold primary_tier at 1 2.
    fold (primary_tier results is_christmas).
    unfold primary_tier at 1 2. rewrite filter_twice.
    fold (primary_tier results is_christmas). rewrite Hprimary. reflexivity.
Qed.

(** ** The gateway monad *)

Lemma value_bind :
  forall (A B : Type) (m : M A) (k : A -> M B) t c,
    value (bind m k t c)
    = value (k (value (m t c)) (t + List.length (calls (m t c))) (cache (m t c))).
Proof. reflexivity. Qed.

Lemma cache_bind :
  forall (A B : Type) (m : M A) (k : A -> M B) t c,
    cache (bind m k t c)
    = cache (k (value (m t c)) (t + List.length (calls (m t c))) (cache (m t c))).
Proof. reflexivity. Qed.

Lemma calls_bind :
  forall (A B : Type) (m : M A) (k : A -> M B) t c,
    calls (bind m k t c)
    = calls (m t c)
      ++ calls (k (value (m t c)) (t + List.length (calls (m t c))) (cache (m t c))).
Proof. reflexivity. Qed.

Ltac gateway :=
  repeat (rewrite ?value_bind, ?cache_bind, ?calls_bind;
          cbn [ret ask read_cache write_cache value cache calls]).

(** ** Retrieval: which endpoint is asked *)

Lemma search_actor_movies_calls :
  forall w name ex t c,
    Forall no_list_call (calls (search_actor_movies w name ex t c))
    /\ cache (search_actor_movies w name ex t c) = c.
Proof.
  intros. unfold search_actor_movies, search_person, get_person_movie_credits.
  gateway. destruct (w_search_person w t name); gateway.
  - split; [| reflexivity].
    repeat constructor; simpl; tauto.
  - split; [| reflexivity].
    repeat constructor; simpl; tauto.
Qed.

Lemma actor_stage_calls :
  forall w query ex t c,
    Forall no_list_call (calls (actor_stage w query ex t c))
    /\ cache (actor_stage w query ex t c) = c.
Proof.
  intros. unfold actor_stage.
  destruct (is_actor_query query); [| split; [constructor | reflexivity]].
  destruct (extract_actor_name query) as [name |]; [| split; [constructor | reflexivity]].
  destruct (PyStr.truthy name); [| split; [constructor | reflexivity]].
  gateway.
  destruct (search_actor_movies_calls w name ex t c) as [Hcalls Hcache].
  destruct (nonempty (value (search_actor_movies w name ex t c)));
    gateway; rewrite app_nil_r; auto.
Qed.

(** The actor stage marks the search as attempted exactly on actor
    queries, and claims its results only when it has some. *)
Lemma actor_stage_flags :
  forall w query ex t c,
    let r := value (actor_stage w query ex t c) in
    rt_actor_search_attempted r = is_actor_query query
    /\ rt_from_actor_search r = nonempty (rt_results r).
Proof.
  intros. subst r. unfold actor_stage.
  destruct (is_actor_query query); [| split; reflexivity].
  destruct (extract_actor_name query) as [name |]; [| split; reflexivity].
  destruct (PyStr.truthy name); [| split; reflexivity].
  gateway.
  destruct (nonempty (value (search_actor_movies w name ex t c))) eqn:E;
    gateway; split; auto.
Qed.

Lemma discover_trending_movies_calls :
  forall w genre_ids ex t c,
    calls (discover_trending_movies w genre_ids ex t c)
    = [Discover (with_genres_param genre_ids)]
    /\ cache (discover_trending_movies w genre_ids ex t c) = c.
Proof. intros. unfold discover_trending_movies. gateway. split; reflexivity. Qed.

Lemma genre_stage_calls :
  forall w query ex r t c,
    calls (genre_stage w query ex r t c)
    = (if discovery_runs query r
       then [Discover (with_genres_param (found_genres_of query))] else [])
    /\ cache (genre_stage w query ex r t c) = c
    /\ rt_actor_search_attempted (value (genre_stage w query ex r t c))
       = rt_actor_search_attempted r
    /\ rt_from_actor_search (value (genre_stage w query ex r t c))
       = rt_from_actor_search r
    /\ (discovery_runs query r = false -> value (genre_stage w query ex r t c) = r).
Proof.
  intros. unfold genre_stage, discovery_runs.
  destruct (negb (nonempty (rt_results r))); cbn [andb]; [| repeat split; reflexivity].
  destruct (nonempty (found_genres_of query) && negb (is_christmas_query query)) eqn:E;
    [| repeat split; reflexivity].
  gateway.
  destruct (discover_trending_movies_calls w (found_genres_of query) ex t c)
    as [Hcalls Hcache].
  destruct (nonempty (value (discover_trending_movies w (found_genres_of query) ex t c)));
    gateway; rewrite Hcalls, Hcache; repeat split; try reflexivity; discriminate.
Qed.

Lemma search_stage_calls :
  forall w query r t c,
    calls (search_stage w query r t c)
    = (if title_search_runs r then [SearchMovie (clean_query_of query)] else [])
    /\ cache (search_stage w query r t c) = c
    /\ rt_from_actor_search (value (search_stage w query r t c))
       = rt_from_actor_search r
    /\ (title_search_runs r = false -> value (search_stage w query r t c) = r).
Proof.
  intros. unfold search_stage, title_search_runs.
  destruct (negb (nonempty (rt_results r)) && negb (rt_actor_search_attempted r));
    gateway; repeat split; try reflexivity; discriminate.
Qed.

Lemma rank_calls :
  forall w query user_id ex r t c,
    Forall no_list_call (calls (rank w query user_id ex r t c))
    /\ cache (rank w query user_id ex r t c) = c.
Proof.
  intros. unfold rank.
  destruct (negb (nonempty (rt_results r))); [split; [constructor | reflexivity] |].
  gateway.
  assert (H : Forall no_list_call [FetchMemories user_id]).
  { repeat constructor; simpl; tauto. }
  repeat match goal with
         | |- context [if ?b then _ else _] => destruct b; gateway
         end; split; auto.
Qed.

Lemma fetch_poster_calls :
  forall w movie_id title t c,
    calls (fetch_poster_and_verify_movie w movie_id title t c) = [MovieDetail movie_id]
    /\ cache (fetch_poster_and_verify_movie w movie_id title t c) = c.
Proof.
  intros. unfold fetch_poster_and_verify_movie. gateway.
  destruct (w_movie_detail w t movie_id); gateway; split; reflexivity.
Qed.

Lemma deliver_calls :
  forall w from_actor results t c,
    Forall no_list_call (calls (deliver w from_actor results t c)).
Proof.
  intros. unfold deliver.
  destruct results as [| first_movie followers]; [constructor |].
  destruct (m_id first_movie) as [movie_id |]; [| constructor].
  destruct (movie_id =? 0)%Z; [constructor |].
  gateway.
  destruct (get_cached_movie movie_id c); [constructor |].
  gateway.
  match goal with
  | |- context [fetch_poster_and_verify_movie w ?a ?b ?t' ?c'] =>
      destruct (fetch_poster_calls w a b t' c') as [Hcalls Hcache];
      rewrite Hcalls;
      destruct (value (fetch_poster_and_verify_movie w a b t' c'))
        as [poster [details |]]
  end; gateway.
  - unfold fetch_movie_videos. gateway.
    destruct (from_actor && _); gateway; repeat constructor; simpl; tauto.
  - repeat constructor; simpl; tauto.
Qed.

(** The list-endpoint calls of one search, in order: the discovery call of
    the genre stage, then the title search, among calls of other kinds. *)
Lemma fast_movie_search_calls_shape :
  forall w query user_id ex t c,
    let a := actor_stage w query (make_excluded_set ex) t c in
    let g := genre_stage w query ex (value a) (t + List.length (calls a)) c in
    exists pre post,
      Forall no_list_call pre /\ Forall no_list_call post
      /\ calls (fast_movie_search w query user_id ex t c)
         = pre
           ++ (if discovery_runs query (value a)
               then [Discover (with_genres_param (found_genres_of query))] else [])
           ++ (if title_search_runs (value g)
               then [SearchMovie (clean_query_of query)] else [])
           ++ post.
Proof.
  intros. subst a g.
  destruct (actor_stage_calls w query (make_excluded_set ex) t c) as [Hpre Hc1].
  set (a := actor_stage w query (make_excluded_set ex) t c) in *.
  exists (calls a).
  unfold fast_movie_search, retrieve. gateway. fold a. rewrite Hc1.
  set (t1 := t + List.length (calls a)).
  destruct (genre_stage_calls w query ex (value a) t1 c) as (Hg & Hc2 & _).
  set (g := genre_stage w query ex (value a) t1 c) in *.
  rewrite Hc2.
  set (t2 := t1 + List.length (calls g)).
  destruct (search_stage_calls w query (value g) t2 c) as (Hs & Hc3 & _).
  set (s := search_stage w query (value g) t2 c) in *.
  rewrite Hc3.
  set (t3 := t + _).
  destruct (rank_calls w query user_id ex (value s) t3 c) as [Hrank Hc4].
  set (k := rank w query user_id ex (value s) t3 c) in *.
  rewrite Hc4.
  set (t4 := t3 + _).
  exists (calls k ++ calls (deliver w (rt_from_actor_search (value s)) (value k) t4 c)).
  split; [exact Hpre |].
  split; [apply Forall_app; split; [exact Hrank | apply deliver_calls] |].
  rewrite <- Hg, <- Hs, <- !app_assoc. reflexivity.
Qed.

Lemma no_list_call_discover :
  forall l genres, Forall no_list_call l -> ~ In (Discover genres) l.
Proof.
  intros l genres H Hin. rewrite Forall_forall in H.
  destruct (H _ Hin) as [Hd _]. apply Hd. exact I.
Qed.

Lemma no_list_call_title_search :
  forall l term, Forall no_list_call l -> ~ In (SearchMovie term) l.
Proof.
  intros l term H Hin. rewrite Forall_forall in H.
  destruct (H _ Hin) as [_ Hs]. apply Hs. exact I.
Qed.

Lemma clean_query_of_holiday :
  forall query, is_christmas_query query = true -> clean_query_of query = "christmas".
Proof. intros query H. unfold clean_query_of. now rewrite H. Qed.

Lemma discovery_skipped_on_holiday :
  forall query r, is_christmas_query query = true -> discovery_runs query r = false.
Proof.
  intros query r H. unfold discovery_runs. rewrite H.
  cbn [negb]. now rewrite andb_false_r.
Qed.

Lemma In_insert_desc :
  forall (A : Type) (gt : A -> A -> bool) (x y : A) (l : list A),
    In x (insert_desc gt y l) <-> x = y \/ In x l.
Proof.
  intros A gt x y l. induction l as [| z l IH]; simpl.
  - split; intros [H | H]; auto.
  - destruct (gt z y); simpl; rewrite ?IH; intuition auto.
Qed.

Lemma In_sort_desc :
  forall (A : Type) (gt : A -> A -> bool) (x : A) (l : list A),
    In x (sort_desc gt l) <-> In x l.
Proof.
  intros A gt x l. unfold sort_desc. induction l as [| y l IH]; simpl.
  - tauto.
  - rewrite In_insert_desc, IH. intuition auto.
Qed.

Lemma collect_genres_nonempty :
  forall query_lower items found_genres,
    (found_genres <> []
     \/ exists keyword genre_id,
         In (keyword, genre_id) items /\ PyStr.contains keyword query_lower = true) ->
    collect_genres query_lower items found_genres <> [].
Proof.
  intros query_lower items.
  induction items as [| [keyword genre_id] rest IH]; intros found_genres H;
    cbn [collect_genres].
  - destruct H as [H | (k & g & [] & _)]. exact H.
  - destruct (PyStr.contains keyword query_lower) eqn:E.
    + assert (Hgrown : found_genres ++ [genre_id] <> [])
        by (destruct found_genres; discriminate).
      match goal with
      | |- (if ?b then _ else _) <> [] => destruct b
      end; [exact Hgrown | apply IH; now left].
    + apply IH. destruct H as [H | (k & g & [Heq | Hin] & Hk)].
      * now left.
      * injection Heq as <- <-. congruence.
      * right. now exists k, g.
Qed.

(** The holiday keywords are keys of the genre table, all for the family
    genre. *)
Lemma holiday_keywords_in_genre_map :
  forall keyword, In keyword holiday_keywords -> In (keyword, 10751%Z) GENRE_MAP.
Proof.
  intros keyword [<- | [<- | [<- | []]]]; unfold GENRE_MAP;
    repeat (try (left; reflexivity); right).
Qed.

(** C8: on a query with a holiday keyword, the genre table does match the
    query, yet no call of the discovery endpoint is made; every title
    search that is made asks for the fixed term "christmas", and when the
    query is no actor query the title search is made. *)
Theorem holiday_query_skips_discovery :
  forall w query user_id ex t c,
    is_christmas_query query = true ->
    found_genres_of query <> []
    /\ (forall genres,
           ~ In (Discover genres) (calls (fast_movie_search w query user_id ex t c)))
    /\ (forall term,
           In (SearchMovie term) (calls (fast_movie_search w query user_id ex t c)) ->
           term = "christmas")
    /\ (is_actor_query query = false ->
        In (SearchMovie "christmas") (calls (fast_movie_search w query user_id ex t c))).
Proof.
  intros w query user_id ex t c Hholiday.
  split.
  { unfold found_genres_of. apply collect_genres_nonempty. right.
    unfold is_christmas_query in Hholiday. apply existsb_exists in Hholiday.
    destruct Hholiday as (keyword & Hin & Hfound).
    exists keyword, 10751%Z. split; [| exact Hfound].
    unfold genre_items_by_length. apply In_sort_desc.
    now apply holiday_keywords_in_genre_map. }
  destruct (fast_movie_search_calls_shape w query user_id ex t c)
    as (pre & post & Hpre & Hpost & Hcalls).
  cbv zeta in Hcalls.
  rewrite (discovery_skipped_on_holiday _ _ Hholiday),
          (clean_query_of_holiday _ Hholiday) in Hcalls.
  set (a := actor_stage w query (make_excluded_set ex) t c) in *.
  destruct (genre_stage_calls w query ex (value a) (t + List.length (calls a)) c)
    as (_ & _ & Hattempted & _ & Hsame).
  rewrite (Hsame (discovery_skipped_on_holiday _ _ Hholiday)) in Hcalls.
  rewrite Hcalls. cbn [app].
  split; [| split].
  - intros genres Hin. apply in_app_or in Hin. destruct Hin as [Hin | Hin].
    + now apply (no_list_call_discover pre genres).
    + apply in_app_or in Hin. destruct Hin as [Hin | Hin].
      * destruct (title_search_runs (value a)); simpl in Hin;
          [destruct Hin as [Hin | []]; discriminate | exact Hin].
      * now apply (no_list_call_discover post genres).
  - intros term Hin. apply in_app_or in Hin. destruct Hin as [Hin | Hin].
    + now apply no_list_call_title_search in Hin.
    + apply in_app_or in Hin. destruct Hin as [Hin | Hin].
      * destruct (title_search_runs (value a)); simpl in Hin;
          [destruct Hin as [Hin | []]; congruence | destruct Hin].
      * now apply no_list_call_title_search in Hin.
  - intros Hactor.
    assert (Hruns : title_search_runs (value a) = true).
    { subst a. unfold title_search_runs, actor_stage. now rewrite Hactor. }
    rewrite Hruns. apply in_or_app. right. left. reflexivity.
Qed.

(** C2, amended: on an actor query whose person strategy yields nothing,
    the search asks the discovery endpoint exactly when the request names a
    genre and is no holiday request, and never asks the title search, which
    runs only when no actor search was attempted; when no strategy has a
    result the answer is [None]. *)
Theorem actor_query_never_reaches_title_search :
  forall w query user_id ex t c,
    is_actor_query query = true ->
    rt_results (value (actor_stage w query (make_excluded_set ex) t c)) = [] ->
    (forall term,
        ~ In (SearchMovie term) (calls (fast_movie_search w query user_id ex t c)))
    /\ (In (Discover (with_genres_param (found_genres_of query)))
           (calls (fast_movie_search w query user_id ex t c))
        <-> (found_genres_of query <> [] /\ is_christmas_query query = false))
    /\ (rt_results (value (retrieve w query ex t c)) = [] ->
        value (fast_movie_search w query user_id ex t c) = None).
Proof.
  intros w query user_id ex t c Hactor Hempty.
  destruct (fast_movie_search_calls_shape w query user_id ex t c)
    as (pre & post & Hpre & Hpost & Hcalls).
  cbv zeta in Hcalls.
  set (a := actor_stage w query (make_excluded_set ex) t c) in *.
  destruct (actor_stage_flags w query (make_excluded_set ex) t c) as [Hflag _].
  fold a in Hflag. rewrite Hactor in Hflag.
  destruct (genre_stage_calls w query ex (value a) (t + List.length (calls a)) c)
    as (_ & _ & Hattempted & _ & _).
  assert (Hnosearch :
            title_search_runs
              (value (genre_stage w query ex (value a) (t + List.length (calls a)) c))
            = false).
  { unfold title_search_runs. rewrite Hattempted, Hflag. apply andb_false_r. }
  rewrite Hnosearch in Hcalls. cbn [app] in Hcalls.
  assert (Hruns : discovery_runs query (value a) = true
                  <-> (found_genres_of query <> [] /\ is_christmas_query query = false)).
  { unfold discovery_runs. rewrite Hempty. cbn [nonempty negb andb].
    rewrite andb_true_iff, negb_true_iff.
    destruct (found_genres_of query); simpl; split; intros [H1 H2];
      split; congruence. }
  split; [| split].
  - intros term Hin. rewrite Hcalls in Hin.
    apply in_app_or in Hin. destruct Hin as [Hin | Hin].
    + now apply (no_list_call_title_search pre term).
    + apply in_app_or in Hin. destruct Hin as [Hin | Hin].
      * destruct (discovery_runs query (value a)); simpl in Hin;
          [destruct Hin as [Hin | []]; discriminate | exact Hin].
      * now apply (no_list_call_title_search post term).
  - rewrite <- Hruns, Hcalls. split.
    + intros Hin. apply in_app_or in Hin. destruct Hin as [Hin | Hin].
      * now apply no_list_call_discover in Hin.
      * apply in_app_or in Hin. destruct Hin as [Hin | Hin].
        -- destruct (discovery_runs query (value a)); [reflexivity | destruct Hin].
        -- now apply no_list_call_discover in Hin.
    + intros Hrun. rewrite Hrun. apply in_or_app. right. left. reflexivity.
  - intros Hnone. unfold fast_movie_search. gateway.
    unfold rank at 1. rewrite Hnone. cbn [nonempty negb]. gateway.
    unfold rank. rewrite Hnone. cbn [nonempty negb]. gateway.
    reflexivity.
Qed.

Lemma holiday_query_skips_discovery_witness :
  found_genres_of "christmas movie" <> []
  /\ (forall genres,
         ~ In (Discover genres)
              (calls (fast_movie_search quiet_world "christmas movie" "user" [] 0 [])))
  /\ (forall term,
         In (SearchMovie term)
            (calls (fast_movie_search quiet_world "christmas movie" "user" [] 0 [])) ->
         term = "christmas")
  /\ (is_actor_query "christmas movie" = false ->
      In (SearchMovie "christmas")
         (calls (fast_movie_search quiet_world "christmas movie" "user" [] 0 []))).
Proof.
  apply (holiday_query_skips_discovery quiet_world "christmas movie" "user" [] 0 []).
  vm_compute. reflexivity.
Defined.

(** C2, as stated, fails: for the actor query "action movies with Tom
    Hanks" on a catalog that finds no such person, the person strategy
    yields nothing and the discovery call yields nothing, and the search
    ends with [None] without any title search. *)
Lemma actor_query_stops_before_title_search :
  is_actor_query "action movies with Tom Hanks" = true
  /\ rt_results (value (actor_stage quiet_world "action movies with Tom Hanks"
                                    (make_excluded_set []) 0 [])) = []
  /\ calls (fast_movie_search quiet_world "action movies with Tom Hanks" "user" [] 0 [])
     = [SearchPerson "Tom Hanks"; Discover [28%Z]]
  /\ value (fast_movie_search quiet_world "action movies with Tom Hanks" "user" [] 0 [])
     = None
  /\ ~ (exists term,
           In (SearchMovie term)
              (calls (fast_movie_search quiet_world "action movies with Tom Hanks"
                                        "user" [] 0 []))).
Proof.
  assert (Hcalls :
            calls (fast_movie_search quiet_world "action movies with Tom Hanks"
                                     "user" [] 0 [])
            = [SearchPerson "Tom Hanks"; Discover [28%Z]])
    by (vm_compute; reflexivity).
  split; [vm_compute; reflexivity |].
  split; [vm_compute; reflexivity |].
  split; [exact Hcalls |].
  split; [vm_compute; reflexivity |].
  intros [term Hin]. rewrite Hcalls in Hin.
  destruct Hin as [H | [H | []]]; discriminate.
Qed.

Lemma actor_query_never_reaches_title_search_witness :
  (forall term,
      ~ In (SearchMovie term)
           (calls (fast_movie_search quiet_world "action movies with Tom Hanks"
                                     "user" [] 0 [])))
  /\ (In (Discover (with_genres_param (found_genres_of "action movies with Tom Hanks")))
         (calls (fast_movie_search quiet_world "action movies with Tom Hanks"
                                   "user" [] 0 []))
      <-> (found_genres_of "action movies with Tom Hanks" <> []
           /\ is_christmas_query "action movies with Tom Hanks" = false))
  /\ (rt_results (value (retrieve quiet_world "action movies with Tom Hanks" [] 0 [])) = [] ->
      value (fast_movie_search quiet_world "action movies with Tom Hanks" "user" [] 0 [])
      = None).
Proof.
  apply (actor_query_never_reaches_title_search
           quiet_world "action movies with Tom Hanks" "user" [] 0 []).
  - vm_compute. reflexivity.
  - vm_compute. reflexivity.
Defined.

(** ** The ranked candidates and the detail stage *)

Lemma retrieve_cache :
  forall w query ex t c, cache (retrieve w query ex t c) = c.
Proof.
  intros. unfold retrieve. gateway.
  destruct (actor_stage_calls w query (make_excluded_set ex) t c) as [_ Hc1].
  rewrite Hc1.
  match goal with
  | |- context [genre_stage w query ex ?r ?t' c] =>
      destruct (genre_stage_calls w query ex r t' c) as (_ & Hc2 & _)
  end.
  rewrite Hc2.
  match goal with
  | |- context [search_stage w query ?r ?t' c] =>
      destruct (search_stage_calls w query r t' c) as (_ & Hc3 & _)
  end.
  exact Hc3.
Qed.

(** The search is the detail stage run on the ranked candidates, on the
    cache the search started with. *)
Lemma fast_movie_search_value :
  forall w query user_id ex t c,
    exists t',
      value (fast_movie_search w query user_id ex t c)
      = value (deliver w (rt_from_actor_search (value (retrieve w query ex t c)))
                 (value (ranked_candidates w query user_id ex t c)) t' c).
Proof.
  intros. unfold fast_movie_search, ranked_candidates. gateway.
  rewrite retrieve_cache.
  match goal with
  | |- context [rank w query user_id ex ?r ?t' c] =>
      destruct (rank_calls w query user_id ex r t' c) as [_ Hc]
  end.
  rewrite Hc. eexists. reflexivity.
Qed.

(** What a successful detail stage returns: the cached record of the head
    candidate, or its fresh record, followed on an actor retrieval by the
    queue entries of at most nine more candidates. *)
Lemma deliver_inv :
  forall w from_actor results t c movies,
    value (deliver w from_actor results t c) = Some movies ->
    exists first_movie followers movie_id,
      results = first_movie :: followers
      /\ m_id first_movie = Some movie_id
      /\ movie_id <> 0%Z
      /\ ((exists cached,
              get_cached_movie movie_id c = Some cached /\ movies = [cached])
          \/ (get_cached_movie movie_id c = None
              /\ exists movie_data,
                  md_id movie_data = Some movie_id
                  /\ movies
                     = movie_data
                       :: (if from_actor && Nat.ltb 1 (List.length results)
                           then map queue_entry (firstn 9 followers) else []))).
Proof.
  intros w from_actor results t c movies. unfold deliver.
  destruct results as [| first_movie followers]; [discriminate |].
  destruct (m_id first_movie) as [movie_id |] eqn:Hid; [| discriminate].
  destruct (Z.eqb_spec movie_id 0) as [| Hnz]; [discriminate |].
  gateway.
  destruct (get_cached_movie movie_id c) as [cached |] eqn:Hget; gateway.
  - intros H. injection H as <-.
    exists first_movie, followers, movie_id. repeat split; auto.
    left. exists cached. auto.
  - match goal with
    | |- context [fetch_poster_and_verify_movie w ?a ?b ?t' ?c'] =>
        destruct (value (fetch_poster_and_verify_movie w a b t' c'))
          as [poster [details |]]
    end; gateway; [| discriminate].
    destruct (from_actor && Nat.ltb 1 (List.length (first_movie :: followers)));
      gateway; intros H; injection H as <-;
      exists first_movie, followers, movie_id; repeat split; auto;
      right; (split; [exact Hget |]); eexists; (split; [| reflexivity]);
      reflexivity.
Qed.

(** C10: a result other than [None] holds between one and ten movies: one
    when the retrieval was not an actor retrieval, one (the cached record)
    when the head candidate is in the cache, and otherwise the head followed
    by the queue entries of at most nine of the next candidates. *)
Theorem fast_movie_search_result_size :
  forall w query user_id ex t c movies,
    value (fast_movie_search w query user_id ex t c) = Some movies ->
    (1 <= List.length movies <= 10)
    /\ (rt_from_actor_search (value (retrieve w query ex t c)) = false ->
        List.length movies = 1)
    /\ (forall first_movie rest movie_id cached,
           value (ranked_candidates w query user_id ex t c) = first_movie :: rest ->
           m_id first_movie = Some movie_id ->
           get_cached_movie movie_id c = Some cached ->
           movies = [cached])
    /\ (exists head followers,
           movies = head :: followers
           /\ List.length followers <= 9
           /\ (followers = []
               \/ followers
                  = map queue_entry
                        (firstn 9 (tl (value (ranked_candidates w query user_id ex t c)))))).
Proof.
  intros w query user_id ex t c movies Hsome.
  destruct (fast_movie_search_value w query user_id ex t c) as [t' Hval].
  rewrite Hval in Hsome. clear Hval.
  apply deliver_inv in Hsome.
  destruct Hsome as (first_movie & followers & movie_id & Hres & Hid & Hnz & Hcase).
  rewrite Hres in Hcase |- *.
  assert (Hnine : List.length (map queue_entry (firstn 9 followers)) <= 9).
  { rewrite length_map. apply firstn_le_length. }
  destruct Hcase as [(cached & Hget & ->) | (Hmiss & movie_data & Hdata & ->)].
  - split; [simpl; lia |]. split; [reflexivity |]. split.
    + intros f r k d Heq Hk Hd. injection Heq as <- <-.
      rewrite Hid in Hk. injection Hk as <-. congruence.
    + exists cached, []. repeat split; simpl; auto; lia.
  - assert (Hhit : forall f r k d,
               first_movie :: followers = f :: r -> m_id f = Some k ->
               get_cached_movie k c = Some d ->
               movie_data
               :: (if rt_from_actor_search (value (retrieve w query ex t c))
                      && Nat.ltb 1 (List.length (first_movie :: followers))
                   then map queue_entry (firstn 9 followers) else []) = [d]).
    { intros f r k d Heq Hk Hd. injection Heq as <- <-.
      rewrite Hid in Hk. injection Hk as <-. congruence. }
    split; [| split; [| split; [exact Hhit |]]].
    + destruct (_ && _); cbn [List.length]; lia.
    + intros ->. reflexivity.
    + eexists _, _. split; [reflexivity |].
      destruct (_ && _); cbn [tl]; split; auto; simpl; lia.
Qed.

Lemma fast_movie_search_result_size_witness :
  (1 <= List.length (credits_answer []) <= 10)
  /\ (rt_from_actor_search
        (value (retrieve credits_world "movies with Tom Hanks" [] 0 [])) = false ->
      List.length (credits_answer []) = 1)
  /\ (forall first_movie rest movie_id cached,
         value (ranked_candidates credits_world "movies with Tom Hanks" "user" [] 0 [])
         = first_movie :: rest ->
         m_id first_movie = Some movie_id ->
         get_cached_movie movie_id [] = Some cached ->
         credits_answer [] = [cached])
  /\ (exists head followers,
         credits_answer [] = head :: followers
         /\ List.length followers <= 9
         /\ (followers = []
             \/ followers
                = map queue_entry
                      (firstn 9 (tl (value (ranked_candidates credits_world
                                              "movies with Tom Hanks" "user" [] 0 [])))))).
Proof.
  apply (fast_movie_search_result_size
           credits_world "movies with Tom Hanks" "user" [] 0 [] (credits_answer [])).
  vm_compute. reflexivity.
Defined.

(** ** The exclusion filter *)

Lemma score_and_sort_incl :
  forall year query from_actor results x,
    In x (score_and_sort year query from_actor results) -> In x results.
Proof.
  intros year query from_actor results x. unfold score_and_sort.
  destruct (Nat.ltb 1 (List.length results)); [| auto].
  rewrite in_map_iff. intros [[score r] [<- Hin]].
  apply In_sort_desc in Hin. apply in_map_iff in Hin.
  destruct Hin as [r' [Heq Hin]]. now injection Heq as _ <-.
Qed.

Lemma christmas_filter_incl :
  forall is_christmas results x,
    In x (christmas_filter is_christmas results) -> In x results.
Proof.
  intros is_christmas results x. unfold christmas_filter.
  destruct is_christmas; [| auto].
  destruct (filter is_christmas_movie results) eqn:E; [auto |].
  rewrite <- E. intros H. now apply filter_In in H.
Qed.

Lemma filter_by_quality_incl :
  forall results is_christmas x,
    In x (filter_by_quality results is_christmas) -> In x results.
Proof.
  intros results is_christmas x. unfold filter_by_quality, primary_tier.
  destruct (filter (passes_primary is_christmas) results) eqn:E.
  - intros H. now apply filter_In in H.
  - rewrite <- E. intros H. now apply filter_In in H.
Qed.

Lemma In_firstn_incl :
  forall (A : Type) (n : nat) (l : list A) (x : A), In x (firstn n l) -> In x l.
Proof.
  intros A n l x H. rewrite <- (firstn_skipn n l). apply in_or_app. now left.
Qed.

Lemma mem_Z_app :
  forall z a b, mem_Z z (a ++ b) = mem_Z z a || mem_Z z b.
Proof. intros. unfold mem_Z. apply existsb_app. Qed.

Lemma mem_excluded_set :
  forall i excluded_ids,
    In i excluded_ids -> i <> 0%Z -> mem_Z i (make_excluded_set excluded_ids) = true.
Proof.
  intros i ex Hin Hnz. unfold mem_Z, make_excluded_set.
  apply existsb_exists. exists i. split; [| apply Z.eqb_refl].
  apply filter_In. split; [exact Hin |].
  apply negb_true_iff. now apply Z.eqb_neq.
Qed.

Lemma title_raises_iff :
  forall r, title_raises r = true <-> m_title r = PyNone.
Proof. intros r. unfold title_raises. destruct (m_title r); simpl; split; congruence. Qed.

(** The history filter is applied when no title raises. *)
Lemma history_filter_applied :
  forall all_excluded watched results,
    (forall r, In r results -> m_title r <> PyNone) ->
    history_filter all_excluded watched results
    = filter (not_watched all_excluded watched) results.
Proof.
  intros all_excluded watched results Htitles. unfold history_filter.
  destruct (existsb title_raises results) eqn:E; [| reflexivity].
  apply existsb_exists in E. destruct E as (r & Hin & Hraise).
  apply title_raises_iff in Hraise. now apply Htitles in Hraise.
Qed.

(** The history filter keeps candidates of its input only. *)
Lemma history_filter_incl :
  forall all_excluded watched results x,
    In x (history_filter all_excluded watched results) -> In x results.
Proof.
  intros all_excluded watched results x. unfold history_filter.
  destruct (existsb title_raises results); [auto |].
  intros H. now apply filter_In in H.
Qed.

(** No ranked candidate carries an id of the excluded set, when no retrieved
    title is [null]. *)
Lemma rank_excludes :
  forall w query user_id ex r t c x,
    (forall y, In y (rt_results r) -> m_title y <> PyNone) ->
    In x (value (rank w query user_id ex r t c)) ->
    id_in (m_id x) (make_excluded_set ex) = false.
Proof.
  intros w query user_id ex r t c x Htitles. unfold rank.
  destruct (negb (nonempty (rt_results r))); [intros [] |].
  gateway.
  set (watched := w_memories w t user_id).
  rewrite (history_filter_applied _ _ _ Htitles).
  destruct (negb (nonempty (filter _ (rt_results r)))); gateway; [intros [] |].
  destruct (negb (nonempty (filter_by_quality _ _))); gateway; [intros [] |].
  intros Hin.
  apply score_and_sort_incl, christmas_filter_incl, filter_by_quality_incl in Hin.
  apply filter_In in Hin. destruct Hin as [_ Hkeep].
  unfold not_watched in Hkeep. apply andb_true_iff in Hkeep.
  destruct Hkeep as [Hid _]. apply negb_true_iff in Hid.
  destruct (m_id x) as [z |]; [| reflexivity].
  simpl in *. rewrite mem_Z_app in Hid. now apply orb_false_iff in Hid.
Qed.

Lemma ranked_candidates_exclude :
  forall w query user_id ex t c i x,
    (forall y, In y (rt_results (value (retrieve w query ex t c))) ->
               m_title y <> PyNone) ->
    In i ex -> i <> 0%Z ->
    In x (value (ranked_candidates w query user_id ex t c)) ->
    m_id x <> Some i.
Proof.
  intros w query user_id ex t c i x Htitles Hin Hnz Hx Hid.
  unfold ranked_candidates in Hx. rewrite value_bind in Hx.
  apply (rank_excludes _ _ _ _ _ _ _ _ Htitles) in Hx.
  rewrite Hid in Hx. simpl in Hx.
  rewrite (mem_excluded_set i ex Hin Hnz) in Hx. discriminate.
Qed.

Lemma cache_coherent_get :
  forall (c : Cache) k d,
    cache_coherent c -> PyDict.get k c = Some d -> md_id d = Some k.
Proof.
  unfold cache_coherent, get_cached_movie.
  induction c as [| [k0 v0] c IH]; intros k d Hc; simpl; [discriminate |].
  inversion Hc as [| ? ? Hhead Htail]; subst. simpl in Hhead.
  destruct (Z.eqb_spec k0 k) as [<- | Hne].
  - intros H. now injection H as <-.
  - now apply IH.
Qed.

(** C5, as stated, fails for the id 0, which the construction of the
    excluded set drops: with 0 among the excluded ids, the answer to an
    actor query holds a follow-up entry whose id is 0. *)
Lemma excluded_zero_is_returned :
  In 0%Z [0%Z]
  /\ value (fast_movie_search credits_world "movies with Tom Hanks" "user" [0%Z] 0 [])
     = Some (credits_answer [0%Z])
  /\ exists m, In m (credits_answer [0%Z]) /\ md_id m = Some 0%Z.
Proof.
  split; [simpl; auto |].
  split; [vm_compute; reflexivity |].
  exists (queue_entry credit_zero). split.
  - vm_compute. right. right. left. reflexivity.
  - reflexivity.
Qed.

(** The exclusion also fails when a retrieved title is [null]: the history
    filter raises on it and is abandoned, and the excluded film 5, which
    the title search returned, is the result. *)
Lemma excluded_id_returned_after_null_title :
  In 5%Z [5%Z]
  /\ rt_results (value (retrieve search_world "alpha" [5%Z] 0 []))
     = [credit_alpha; untitled_film]
  /\ m_title untitled_film = PyNone
  /\ exists m,
      value (fast_movie_search search_world "alpha" "user" [5%Z] 0 []) = Some [m]
      /\ md_id m = Some 5%Z.
Proof.
  split; [left; reflexivity |].
  split; [vm_compute; reflexivity |].
  split; [reflexivity |].
  eexists. split; [vm_compute; reflexivity | reflexivity].
Qed.

(** C5, amended: for every id other than 0 in the excluded ids, every
    cache whose entries are stored under their own ids, and every search
    in which no retrieved candidate has a [null] title (so that the history
    filter runs to its end), no movie of the result carries that id. *)
Theorem excluded_id_never_returned :
  forall w query user_id excluded_ids t c i movies,
    In i excluded_ids ->
    i <> 0%Z ->
    cache_coherent c ->
    (forall r, In r (rt_results (value (retrieve w query excluded_ids t c))) ->
               m_title r <> PyNone) ->
    value (fast_movie_search w query user_id excluded_ids t c) = Some movies ->
    forall m, In m movies -> md_id m <> Some i.
Proof.
  intros w query user_id ex t c i movies Hin Hnz Hcoh Htitles Hsome m Hm.
  pose proof (ranked_candidates_exclude w query user_id ex t c i) as Hranked.
  specialize (fun x => Hranked x Htitles).
  destruct (fast_movie_search_value w query user_id ex t c) as [t' Hval].
  rewrite Hval in Hsome. clear Hval.
  apply deliver_inv in Hsome.
  destruct Hsome as (first_movie & followers & movie_id & Hres & Hid & _ & Hcase).
  rewrite Hres in Hranked.
  assert (Hhead : movie_id <> i).
  { intros ->. apply (Hranked first_movie Hin Hnz); [left; reflexivity | exact Hid]. }
  destruct Hcase as [(cached & Hget & ->) | (_ & movie_data & Hdata & ->)].
  - destruct Hm as [<- | []]. rewrite (cache_coherent_get _ _ _ Hcoh Hget). congruence.
  - destruct Hm as [<- | Hm]; [rewrite Hdata; congruence |].
    destruct (_ && _); [| destruct Hm].
    apply in_map_iff in Hm. destruct Hm as [r [<- Hr]].
    apply In_firstn_incl in Hr. simpl.
    apply (Hranked r Hin Hnz). right. exact Hr.
Qed.

Lemma excluded_id_never_returned_witness :
  Forall (fun m => md_id m <> Some 9%Z) (credits_answer [9%Z]).
Proof.
  apply Forall_forall.
  apply (excluded_id_never_returned
           credits_world "movies with Tom Hanks" "user" [9%Z] 0 [] 9%Z
           (credits_answer [9%Z])).
  - simpl. auto.
  - discriminate.
  - constructor.
  - intros r Hr. vm_compute in Hr.
    repeat (destruct Hr as [<- | Hr]; [discriminate |]). destruct Hr.
  - vm_compute. reflexivity.
Defined.


(** The hypothesis on the cache is an invariant of the program: the empty
    cache has it, and a search keeps it. *)
Lemma cache_coherent_set :
  forall (c : Cache) k v,
    cache_coherent c -> md_id v = Some k -> cache_coherent (set_cached_movie k v c).
Proof.
  intros c k v Hc Hv.
  assert (Hset : cache_coherent (PyDict.set k v c)).
  { unfold PyDict.set. destruct (PyDict.mem k c).
    - clear - Hc Hv. unfold cache_coherent in *.
      induction c as [| [k0 v0] c IH]; simpl; [constructor |].
      inversion Hc as [| ? ? Hhead Htail]; subst.
      destruct (Z.eqb_spec k0 k) as [-> | Hne]; constructor; auto.
    - apply Forall_app. split; [exact Hc | repeat constructor; exact Hv]. }
  unfold set_cached_movie.
  destruct (Nat.ltb MAX_CACHE_SIZE _); [| exact Hset].
  destruct (PyDict.first_key (PyDict.set k v c)); [| exact Hset].
  unfold PyDict.del, cache_coherent in *.
  apply Forall_forall. intros item Hin. apply filter_In in Hin.
  rewrite Forall_forall in Hset. apply Hset. tauto.
Qed.

Lemma tool_store_coherent :
  forall lookups c,
    cache_coherent c -> cache_coherent (fold_left tool_store lookups c).
Proof.
  induction lookups as [| lookup rest IH]; intros c Hc; [exact Hc |].
  cbn [fold_left]. apply IH.
  change (tool_store c lookup)
    with (if PyDict.mem (fst lookup) c then c
          else set_cached_movie (fst lookup) (with_id (fst lookup) (snd lookup)) c).
  destruct (PyDict.mem (fst lookup) c); [exact Hc |].
  now apply cache_coherent_set.
Qed.

Lemma fast_movie_search_keeps_coherent :
  forall w query user_id ex t c,
    cache_coherent c ->
    cache_coherent (cache (fast_movie_search w query user_id ex t c)).
Proof.
  intros w query user_id ex t c Hc.
  unfold fast_movie_search. gateway. rewrite retrieve_cache.
  match goal with
  | |- context [rank w query user_id ex ?r ?t' c] =>
      destruct (rank_calls w query user_id ex r t' c) as [_ Hrank];
      rewrite Hrank; generalize (value (rank w query user_id ex r t' c))
  end.
  intros results.
  match goal with
  | |- cache_coherent (cache (deliver w ?fa results ?t' c)) =>
      generalize fa; generalize t'
  end.
  intros t' from_actor. unfold deliver.
  destruct results as [| first_movie followers]; [exact Hc |].
  destruct (m_id first_movie) as [movie_id |]; [| exact Hc].
  destruct (movie_id =? 0)%Z; [exact Hc |].
  gateway.
  destruct (get_cached_movie movie_id c); [exact Hc |].
  gateway.
  match goal with
  | |- context [fetch_poster_and_verify_movie w ?a ?b ?t1 ?c1] =>
      destruct (fetch_poster_calls w a b t1 c1) as [_ Hfetch];
      rewrite Hfetch;
      destruct (value (fetch_poster_and_verify_movie w a b t1 c1))
        as [poster [details |]]
  end; gateway; [| exact Hc].
  unfold fetch_movie_videos. gateway.
  destruct (from_actor && _); gateway; now apply cache_coherent_set.
Qed.

(** ** The session *)

Lemma option_Z_eqb_refl : forall id, option_Z_eqb id id = true.
Proof. intros [z |]; simpl; [apply Z.eqb_refl | reflexivity]. Qed.

Lemma is_suggested_last :
  forall id l, is_suggested id (l ++ [id]) = true.
Proof.
  intros id l. unfold is_suggested. rewrite existsb_app. simpl.
  rewrite option_Z_eqb_refl. now rewrite orb_true_r.
Qed.

Lemma is_reject_cases :
  forall action, is_reject action = true -> action = "dislike" \/ action = "watched".
Proof.
  intros action H. unfold is_reject in H. apply orb_true_iff in H.
  destruct H as [H | H]; apply String.eqb_eq in H; auto.
Qed.

(** A reject button only acknowledges: the session is not touched before
    the current movie is retired. *)
Lemma perform_action_reject :
  forall w action movie_id s t c,
    is_reject action = true ->
    value (perform_action w action movie_id s t c) = (s, [Say Acknowledged])
    /\ cache (perform_action w action movie_id s t c) = c.
Proof.
  intros w action movie_id s t c H.
  destruct (is_reject_cases action H) as [-> | ->]; unfold perform_action; simpl;
    gateway; split; reflexivity.
Qed.

(** The handler on a reject button for a movie of the queue: the action is
    acknowledged, the movie retired, and the next candidate looked for. *)
Lemma handle_button_callback_reject :
  forall w data user_id s t c action movie_id current,
    split_callback data = Some (action, movie_id) ->
    is_reject action = true ->
    find_current movie_id (movie_queue s) = Some current ->
    exists t',
      value (handle_button_callback w data user_id s t c)
      = (fst (value (next_candidate w user_id (retire_current movie_id s) t' c)),
         [Say Acknowledged]
           ++ snd (value (next_candidate w user_id (retire_current movie_id s) t' c))).
Proof.
  intros w data user_id s t c action movie_id current Hsplit Hreject Hfind.
  exists (t + List.length (calls (perform_action w action movie_id s t c))).
  unfold handle_button_callback. rewrite Hsplit, Hfind. gateway.
  destruct (perform_action_reject w action movie_id s t c Hreject) as [Hval Hcache].
  rewrite Hval, Hcache, Hreject. gateway.
  destruct (value (next_candidate w user_id (retire_current movie_id s) _ c)).
  gateway. reflexivity.
Qed.

Lemma retire_current_keeps :
  forall movie_id s,
    original_prompt (retire_current movie_id s) = original_prompt s
    /\ prefetched_next_movie (retire_current movie_id s) = prefetched_next_movie s
    /\ prefetched_query (retire_current movie_id s) = prefetched_query s.
Proof.
  intros movie_id s. unfold retire_current.
  destruct (PyStr.int_of_string movie_id) as [z |]; [| repeat split].
  destruct (is_suggested _ _); repeat split.
Qed.

(** C3, as stated, fails: after the first message of a session the offered
    head is in the queue and its id is in [suggested_movies]. *)
Lemma offered_head_stays_in_queue :
  session_reachable credits_world "user"
    {| p_time := 5; p_cache := cache (handle_message credits_world hanks_update "user"
                                        new_session 0 []);
       p_session := session_after_message |}
  /\ ~ queue_unsuggested session_after_message.
Proof.
  split.
  - pose (p0 := {| p_time := 0; p_cache := []; p_session := new_session |}).
    apply (reach_step credits_world "user" p0); [apply reach_start |].
    exact (step_message credits_world "user" p0 hanks_update).
  - intros H.
    assert (Hhead : exists m, In m (movie_queue session_after_message)
                              /\ is_suggested (md_id m)
                                   (suggested_movies session_after_message) = true).
    { vm_compute. eexists. split; [left; reflexivity | reflexivity]. }
    destruct Hhead as [m [Hin Hs]]. rewrite (H m Hin) in Hs. discriminate.
Qed.

(** C3, amended: the queue is filtered against [suggested_movies] when a
    reject is served from the rest of the queue, and the queue stored by
    that step holds no candidate whose id is suggested; every other offer (a
    fresh result list, a consumed prefetched candidate, the last-resort
    discovery) stores the offered candidate in the queue with its id in
    [suggested_movies]. *)
Theorem queue_filtered_when_advanced :
  (forall w data user_id s t c action movie_id current first rest,
      split_callback data = Some (action, movie_id) ->
      is_reject action = true ->
      find_current movie_id (movie_queue s) = Some current ->
      check_prefetched (retire_current movie_id s) = NoPrefetched ->
      filter (fun m => negb (is_suggested (md_id m)
                               (suggested_movies (retire_current movie_id s))))
             (movie_queue (retire_current movie_id s)) = first :: rest ->
      snd (value (handle_button_callback w data user_id s t c))
      = [Say Acknowledged; Offer first]
      /\ movie_queue (fst (value (handle_button_callback w data user_id s t c)))
         = first :: rest
      /\ queue_unsuggested (fst (value (handle_button_callback w data user_id s t c))))
  /\ (forall movies s s' out,
         offer_result movies s = Some (s', out) ->
         exists first,
           out = [Offer first] /\ movie_queue s' = movies
           /\ In first (movie_queue s')
           /\ is_suggested (md_id first) (suggested_movies s') = true)
  /\ (forall s s' m,
         check_prefetched s = UsePrefetched s' m ->
         movie_queue s' = [m]
         /\ is_suggested (md_id m) (suggested_movies s') = true)
  /\ (forall w text ex reset default_overview s t c s' out,
         value (discover_fallback w text ex reset default_overview s t c)
         = Some (s', out) ->
         exists m,
           out = [Offer m] /\ movie_queue s' = [m]
           /\ is_suggested (md_id m) (suggested_movies s') = true).
Proof.
  split; [| split; [| split]].
  - intros w data user_id s t c action movie_id current first rest
           Hsplit Hreject Hfind Hcheck Hfilter.
    destruct (handle_button_callback_reject w data user_id s t c action movie_id
                current Hsplit Hreject Hfind) as [t' Hval].
    rewrite Hval. unfold next_candidate. rewrite Hcheck, Hfilter. gateway.
    cbn [fst snd app]. split; [reflexivity |]. split; [reflexivity |].
    intros m Hin. cbn [set_queue movie_queue suggested_movies] in *.
    rewrite <- Hfilter in Hin. apply filter_In in Hin.
    destruct Hin as [_ Hin]. now apply negb_true_iff in Hin.
  - intros movies s s' out H. unfold offer_result in H.
    destruct movies as [| first rest]; [discriminate |].
    injection H as <- <-. exists first.
    cbn [append_suggested set_suggested set_queue movie_queue suggested_movies].
    repeat split; [left; reflexivity | apply is_suggested_last].
  - intros s s' m H. unfold check_prefetched in H.
    destruct (prefetched_next_movie s) as [| | held]; try discriminate.
    destruct (prefetched_query s) as [| | tag]; try discriminate;
      destruct (String.eqb _ _); try discriminate;
      destruct (id_truthy (md_id held) && _); try discriminate.
    injection H as <- <-.
    cbn [append_suggested set_suggested set_queue set_prefetched movie_queue
         suggested_movies].
    split; [reflexivity | apply is_suggested_last].
  - intros w text ex reset default_overview s t c s' out. unfold discover_fallback.
    gateway.
    destruct (value (discover_trending_movies w _ ex t c)) as [| first_discover rest];
      gateway; [discriminate |].
    destruct (m_id first_discover) as [movie_id |]; gateway; [| discriminate].
    destruct (movie_id =? 0)%Z; gateway; [discriminate |].
    match goal with
    | |- context [fetch_poster_and_verify_movie w ?a ?b ?t1 ?c1] =>
        destruct (value (fetch_poster_and_verify_movie w a b t1 c1))
          as [poster [details |]]
    end; gateway; [| discriminate].
    destruct (PyStr.truthy poster); gateway; [| discriminate].
    intros H. injection H as <- <-. eexists. split; [reflexivity |].
    destruct reset;
      cbn [append_suggested set_suggested set_queue movie_queue suggested_movies md_id];
      split; try reflexivity.
    + simpl. now rewrite Z.eqb_refl.
    + apply is_suggested_last.
Qed.

Lemma queue_filtered_when_advanced_witness :
  snd (value (handle_button_callback credits_world "dislike_5" "user"
                session_after_message 5 []))
  = [Say Acknowledged; Offer (queue_entry credit_gamma)]
  /\ movie_queue (fst (value (handle_button_callback credits_world "dislike_5" "user"
                                session_after_message 5 [])))
     = [queue_entry credit_gamma; queue_entry credit_zero]
  /\ queue_unsuggested (fst (value (handle_button_callback credits_world "dislike_5"
                                      "user" session_after_message 5 []))).
Proof.
  eapply (proj1 queue_filtered_when_advanced credits_world "dislike_5" "user"
                session_after_message 5 [] "dislike" "5").
  - reflexivity.
  - reflexivity.
  - vm_compute. reflexivity.
  - vm_compute. reflexivity.
  - vm_compute. reflexivity.
Defined.

(** C9, as stated, fails: a reject button whose movie is no longer in the
    queue (here the id 3) offers nothing and leaves the prefetch slot as it
    is, although a prefetched candidate stands whose tag matches the
    prompt and whose id is not suggested. *)
Lemma stale_reject_offers_nothing :
  split_callback "dislike_3" = Some ("dislike", "3")
  /\ is_reject "dislike" = true
  /\ prefetched_next_movie session_with_prefetch = Held prefetched_delta
  /\ prefetched_query session_with_prefetch = Held " Movies With Tom Hanks "
  /\ normalized " Movies With Tom Hanks "
     = normalized (original_prompt session_with_prefetch)
  /\ is_suggested (md_id prefetched_delta) (suggested_movies session_with_prefetch)
     = false
  /\ value (handle_button_callback credits_world "dislike_3" "user"
              session_with_prefetch 5 [])
     = (session_with_prefetch, [Say NotInQueue]).
Proof. repeat split; vm_compute; reflexivity. Qed.

(** C9, amended: on a reject button for a movie that is in the queue, if a
    prefetched candidate stands whose tag matches the prompt up to case and
    surrounding blanks, and whose id is a non-zero id that is not in
    [suggested_movies] once the rejected movie has been retired, then the
    only candidate offered is the prefetched one, both prefetch keys are
    deleted in the session it is offered from, its id is appended to
    [suggested_movies] and it becomes the whole queue. A reject button for
    a movie that is not in the queue offers nothing and leaves the session,
    the prefetch slot included, as it was. *)
Theorem reject_offers_matching_prefetched :
  forall w data user_id s t c action movie_id,
    split_callback data = Some (action, movie_id) ->
    is_reject action = true ->
    (find_current movie_id (movie_queue s) = None ->
     snd (value (handle_button_callback w data user_id s t c)) = [Say NotInQueue]
     /\ fst (value (handle_button_callback w data user_id s t c)) = s
     /\ calls (handle_button_callback w data user_id s t c) = [])
    /\ (forall current prefetched tag,
           find_current movie_id (movie_queue s) = Some current ->
           prefetched_next_movie s = Held prefetched ->
           prefetched_query s = Held tag ->
           normalized tag = normalized (original_prompt s) ->
           id_truthy (md_id prefetched) = true ->
           is_suggested (md_id prefetched)
                        (suggested_movies (retire_current movie_id s)) = false ->
           snd (value (handle_button_callback w data user_id s t c))
           = [Say Acknowledged; Offer prefetched]
           /\ prefetched_next_movie
                (fst (value (handle_button_callback w data user_id s t c)))
              = Absent
           /\ prefetched_query
                (fst (value (handle_button_callback w data user_id s t c)))
              = Absent
           /\ movie_queue (fst (value (handle_button_callback w data user_id s t c)))
              = [prefetched]
           /\ suggested_movies
                (fst (value (handle_button_callback w data user_id s t c)))
              = suggested_movies (retire_current movie_id s) ++ [md_id prefetched]).
Proof.
  intros w data user_id s t c action movie_id Hsplit Hreject. split.
  - intros Hnone. unfold handle_button_callback. rewrite Hsplit, Hnone.
    repeat split.
  - intros current prefetched tag Hfind Hslot Htag Hmatch Htruthy Hfresh.
    destruct (handle_button_callback_reject w data user_id s t c action movie_id
                current Hsplit Hreject Hfind) as [t' Hval].
    rewrite Hval. clear Hval.
    destruct (retire_current_keeps movie_id s) as (Hprompt & Hkeep1 & Hkeep2).
    assert (Hcheck :
              check_prefetched (retire_current movie_id s)
              = UsePrefetched
                  (set_queue [prefetched]
                     (append_suggested (md_id prefetched)
                        (set_prefetched Absent Absent (retire_current movie_id s))))
                  prefetched).
    { unfold check_prefetched.
      rewrite Hkeep1, Hkeep2, Hprompt, Hslot, Htag, Hmatch, String.eqb_refl.
      rewrite Htruthy, Hfresh. reflexivity. }
    unfold next_candidate. rewrite Hcheck. gateway.
    repeat split.
Qed.

Lemma reject_offers_matching_prefetched_witness :
  (snd (value (handle_button_callback credits_world "dislike_3" "user"
                 session_with_prefetch 5 [])) = [Say NotInQueue]
   /\ fst (value (handle_button_callback credits_world "dislike_3" "user"
                    session_with_prefetch 5 [])) = session_with_prefetch
   /\ calls (handle_button_callback credits_world "dislike_3" "user"
               session_with_prefetch 5 []) = [])
  /\ (snd (value (handle_button_callback credits_world "dislike_5" "user"
                    session_with_prefetch 5 []))
      = [Say Acknowledged; Offer prefetched_delta]
      /\ prefetched_next_movie
           (fst (value (handle_button_callback credits_world "dislike_5" "user"
                          session_with_prefetch 5 []))) = Absent
      /\ prefetched_query
           (fst (value (handle_button_callback credits_world "dislike_5" "user"
                          session_with_prefetch 5 []))) = Absent
      /\ movie_queue
           (fst (value (handle_button_callback credits_world "dislike_5" "user"
                          session_with_prefetch 5 []))) = [prefetched_delta]
      /\ suggested_movies
           (fst (value (handle_button_callback credits_world "dislike_5" "user"
                          session_with_prefetch 5 [])))
         = suggested_movies (retire_current "5" session_with_prefetch)
           ++ [md_id prefetched_delta]).
Proof.
  split.
  - apply (proj1 (reject_offers_matching_prefetched credits_world "dislike_3" "user"
                    session_with_prefetch 5 [] "dislike" "3" eq_refl eq_refl)).
    vm_compute. reflexivity.
  - eapply (proj2 (reject_offers_matching_prefetched credits_world "dislike_5" "user"
                     session_with_prefetch 5 [] "dislike" "5" eq_refl eq_refl)
                  _ prefetched_delta " Movies With Tom Hanks ").
    + vm_compute. reflexivity.
    + reflexivity.
    + reflexivity.
    + vm_compute. reflexivity.
    + reflexivity.
    + vm_compute. reflexivity.
Defined.

(* ===================================================================== *)
(** * Further properties of the code *)
(* ===================================================================== *)

(** ** cache.py *)

Lemma dict_get_replace_same :
  forall (V : Type) (d : PyDict.t V) k v,
    PyDict.mem k d = true -> PyDict.get k (PyDict.replace k v d) = Some v.
Proof.
  intros V d k v. unfold PyDict.mem.
  induction d as [| [k0 v0] d IH]; simpl; [discriminate |].
  destruct (Z.eqb_spec k0 k) as [-> | Hne]; simpl.
  - now rewrite Z.eqb_refl.
  - destruct (Z.eqb_spec k0 k); [contradiction | exact IH].
Qed.

Lemma dict_get_replace_other :
  forall (V : Type) (d : PyDict.t V) k v k',
    k' <> k -> PyDict.get k' (PyDict.replace k v d) = PyDict.get k' d.
Proof.
  intros V d k v k' Hne.
  induction d as [| [k0 v0] d IH]; simpl; [reflexivity |].
  destruct (Z.eqb_spec k0 k) as [-> | Hne0]; simpl.
  - destruct (Z.eqb_spec k k'); [congruence | reflexivity].
  - destruct (k0 =? k')%Z; [reflexivity | exact IH].
Qed.

Lemma dict_get_del_other :
  forall (V : Type) (d : PyDict.t V) k k',
    k' <> k -> PyDict.get k' (PyDict.del k d) = PyDict.get k' d.
Proof.
  intros V d k k' Hne.
  induction d as [| [k0 v0] d IH]; simpl; [reflexivity |].
  destruct (Z.eqb_spec k0 k) as [-> | Hne0]; simpl.
  - destruct (Z.eqb_spec k k'); [congruence | exact IH].
  - destruct (k0 =? k')%Z; [reflexivity | exact IH].
Qed.

Lemma dict_get_set_same :
  forall (V : Type) (d : PyDict.t V) k v, PyDict.get k (PyDict.set k v d) = Some v.
Proof.
  intros V d k v. unfold PyDict.set.
  destruct (PyDict.mem k d) eqn:Hmem.
  - now apply dict_get_replace_same.
  - rewrite dict_get_app_new. unfold PyDict.mem in Hmem.
    destruct (PyDict.get k d); [discriminate | now rewrite Z.eqb_refl].
Qed.

Lemma dict_length_replace :
  forall (V : Type) (d : PyDict.t V) k v,
    List.length (PyDict.replace k v d) = List.length d.
Proof.
  intros V d k v. induction d as [| [k0 v0] d IH]; simpl; [reflexivity |].
  destruct (k0 =? k)%Z; simpl; [reflexivity | now rewrite IH].
Qed.

Lemma set_cached_movie_get_same :
  forall (c : Cache) k v,
    List.length c <= MAX_CACHE_SIZE ->
    PyDict.get k (set_cached_movie k v c) = Some v.
Proof.
  intros c k v Hlen. unfold set_cached_movie.
  pose proof (dict_get_set_same _ c k v) as Hget.
  destruct (Nat.ltb_spec MAX_CACHE_SIZE (List.length (PyDict.set k v c)))
    as [Hfull | _]; [| exact Hget].
  unfold PyDict.set in *.
  destruct (PyDict.mem k c) eqn:Hmem.
  - rewrite dict_length_replace in Hfull. lia.
  - destruct c as [| [k0 v0] rest]; [simpl in Hfull; unfold MAX_CACHE_SIZE in Hfull; lia |].
    cbn [app PyDict.first_key].
    rewrite dict_get_del_other; [exact Hget |].
    intros ->. unfold PyDict.mem in Hmem. simpl in Hmem.
    now rewrite Z.eqb_refl in Hmem.
Qed.

(** X1. Insert then look up: in a cache within its capacity, the entry just
    stored is the one read back under its id, whether or not storing it
    evicted another entry; a later [clear_cache] forgets it. *)
Theorem cached_movie_is_read_back :
  forall (c : Cache) movie_id movie_data,
    List.length c <= MAX_CACHE_SIZE ->
    get_cached_movie movie_id (set_cached_movie movie_id movie_data c)
    = Some movie_data
    /\ get_cached_movie movie_id
         (clear_cache (set_cached_movie movie_id movie_data c)) = None.
Proof.
  intros c movie_id movie_data Hlen. split.
  - unfold get_cached_movie. now apply set_cached_movie_get_same.
  - reflexivity.
Qed.

Lemma cached_movie_is_read_back_witness :
  get_cached_movie 101 (set_cached_movie 101 (sample_entry 101) full_cache)
  = Some (sample_entry 101)
  /\ get_cached_movie 101
       (clear_cache (set_cached_movie 101 (sample_entry 101) full_cache)) = None.
Proof.
  apply (cached_movie_is_read_back full_cache 101%Z (sample_entry 101)).
  apply Nat.leb_le. vm_compute. reflexivity.
Defined.

(** X2. Nothing is evicted unless the cache is full and the id is new: when
    the id is already cached, or the cache is below its capacity, every
    other id keeps its entry, and a cached id keeps its place in the
    insertion order. *)
Theorem set_cached_movie_keeps_others :
  forall (c : Cache) movie_id movie_data,
    List.length c <= MAX_CACHE_SIZE ->
    PyDict.mem movie_id c = true \/ List.length c < MAX_CACHE_SIZE ->
    (forall k, k <> movie_id ->
               get_cached_movie k (set_cached_movie movie_id movie_data c)
               = get_cached_movie k c)
    /\ (PyDict.mem movie_id c = true ->
        PyDict.keys (set_cached_movie movie_id movie_data c) = PyDict.keys c)
    /\ (PyDict.mem movie_id c = false ->
        set_cached_movie movie_id movie_data c = c ++ [(movie_id, movie_data)]).
Proof.
  intros c movie_id movie_data Hlen Hroom.
  assert (Hset : set_cached_movie movie_id movie_data c
                 = PyDict.set movie_id movie_data c).
  { unfold set_cached_movie.
    destruct (Nat.ltb_spec MAX_CACHE_SIZE (List.length (PyDict.set movie_id movie_data c)))
      as [Hfull | _]; [| reflexivity].
    exfalso. unfold PyDict.set in Hfull.
    destruct (PyDict.mem movie_id c) eqn:Hmem.
    - rewrite dict_length_replace in Hfull. lia.
    - rewrite length_app in Hfull. simpl in Hfull.
      destruct Hroom as [Hroom | Hroom]; [discriminate | lia]. }
  rewrite Hset. unfold get_cached_movie, PyDict.set.
  split; [| split].
  - intros k Hk. destruct (PyDict.mem movie_id c).
    + now apply dict_get_replace_other.
    + rewrite dict_get_app_new.
      destruct (PyDict.get k c); [reflexivity |].
      destruct (Z.eqb_spec movie_id k); [congruence | reflexivity].
  - intros ->. apply dict_keys_replace.
  - intros ->. reflexivity.
Qed.

Lemma set_cached_movie_keeps_others_witness :
  (forall k, k <> 7%Z ->
             get_cached_movie k (set_cached_movie 7 (sample_entry 8) full_cache)
             = get_cached_movie k full_cache)
  /\ (PyDict.mem 7 full_cache = true ->
      PyDict.keys (set_cached_movie 7 (sample_entry 8) full_cache)
      = PyDict.keys full_cache)
  /\ (PyDict.mem 7 full_cache = false ->
      set_cached_movie 7 (sample_entry 8) full_cache
      = full_cache ++ [(7%Z, sample_entry 8)]).
Proof.
  apply (set_cached_movie_keeps_others full_cache 7%Z (sample_entry 8)).
  - apply Nat.leb_le. vm_compute. reflexivity.
  - left. vm_compute. reflexivity.
Defined.

(** ** Sorting with [reverse=True] *)

Section SortFacts.
Context {A : Type} (gt : A -> A -> bool).

Lemma insert_desc_perm :
  forall x l, Permutation (insert_desc gt x l) (x :: l).
Proof.
  intros x l. induction l as [| y l IH]; simpl; [apply Permutation_refl |].
  destruct (gt y x); [| apply Permutation_refl].
  eapply Permutation_trans; [apply perm_skip, IH | apply perm_swap].
Qed.

Lemma sort_desc_perm : forall l, Permutation (sort_desc gt l) l.
Proof.
  induction l as [| x l IH]; simpl; [constructor |].
  eapply Permutation_trans; [apply insert_desc_perm | now apply perm_skip].
Qed.

(** When [gt] decides a transitive "may come before" relation [R], the
    sorted list is ordered by [R]. *)
Lemma sort_desc_sorted :
  forall (R : A -> A -> Prop),
    (forall a b, gt a b = true -> R a b) ->
    (forall a b, gt a b = false -> R b a) ->
    (forall a b c, R a b -> R b c -> R a c) ->
    forall l, StronglySorted R (sort_desc gt l).
Proof.
  intros R Hgt Hle Htrans.
  assert (Hins : forall x l, StronglySorted R l -> StronglySorted R (insert_desc gt x l)).
  { intros x l Hl. induction Hl as [| y l Hl IH Hy]; simpl.
    - constructor; constructor.
    - destruct (gt y x) eqn:E.
      + constructor; [exact IH |].
        apply Forall_forall. intros z Hz.
        apply (Permutation_in _ (insert_desc_perm x l)) in Hz.
        destruct Hz as [<- | Hz]; [now apply Hgt |].
        rewrite Forall_forall in Hy. now apply Hy.
      + constructor; [now constructor |].
        constructor; [now apply Hle |].
        apply Forall_forall. intros z Hz. rewrite Forall_forall in Hy.
        apply (Htrans _ y); [now apply Hle | now apply Hy]. }
  induction l as [| x l IH]; simpl; [constructor | now apply Hins].
Qed.

(** Ties keep the given order: a list in which no element outranks
    another is left as it is. *)
Lemma sort_desc_all_ties :
  forall l, (forall a b, In a l -> In b l -> gt a b = false) -> sort_desc gt l = l.
Proof.
  induction l as [| x l IH]; intros H; simpl; [reflexivity |].
  rewrite IH by (intros a b Ha Hb; apply H; now right).
  destruct l as [| y l]; simpl; [reflexivity |].
  rewrite (H y x); [reflexivity | right; now left | now left].
Qed.
End SortFacts.

Lemma StronglySorted_firstn :
  forall (A : Type) (R : A -> A -> Prop) (n : nat) (l : list A),
    StronglySorted R l -> StronglySorted R (firstn n l).
Proof.
  intros A R n l H. revert n.
  induction H as [| x l Hl IH Hx]; intros [| n]; simpl; try constructor.
  - apply IH.
  - apply Forall_forall. intros z Hz. apply In_firstn_incl in Hz.
    rewrite Forall_forall in Hx. now apply Hx.
Qed.

Lemma NoDup_firstn :
  forall (A : Type) (n : nat) (l : list A), NoDup l -> NoDup (firstn n l).
Proof.
  intros A n l H. revert n.
  induction H as [| x l Hx Hl IH]; intros [| n]; simpl; try constructor.
  - intros Hin. apply Hx. now apply In_firstn_incl in Hin.
  - apply IH.
Qed.

(** ** movie_search.py: the retrieval functions *)

Lemma unique_keep_first_spec :
  forall l seen,
    NoDup (unique_keep_first seen l)
    /\ (forall x, In x (unique_keep_first seen l) -> In x l /\ mem_Z x seen = false).
Proof.
  induction l as [| y l IH]; intros seen; simpl.
  - split; [constructor | intros x []].
  - destruct (mem_Z y seen) eqn:E.
    + destruct (IH seen) as [Hnd Hin]. split; [exact Hnd |].
      intros x Hx. destruct (Hin x Hx). auto.
    + destruct (IH (y :: seen)) as [Hnd Hin]. split.
      * constructor; [| exact Hnd].
        intros Hy. destruct (Hin y Hy) as [_ Hmem].
        unfold mem_Z in Hmem. simpl in Hmem. now rewrite Z.eqb_refl in Hmem.
      * intros x [<- | Hx]; [auto |].
        destruct (Hin x Hx) as [Hl Hmem]. split; [auto |].
        unfold mem_Z in *. simpl in Hmem. now apply orb_false_iff in Hmem.
Qed.

Lemma id_in_nil : forall o, id_in o [] = false.
Proof. intros [z |]; reflexivity. Qed.

(** X3. Discovery asks the catalog once, with at most two distinct genre
    ids taken from the request, and answers with at most twenty of the
    catalog's movies, none of which has an excluded non-zero id. *)
Theorem discover_trending_movies_bounds :
  forall w genre_ids excluded_ids t c,
    calls (discover_trending_movies w genre_ids excluded_ids t c)
    = [Discover (with_genres_param genre_ids)]
    /\ List.length (with_genres_param genre_ids) <= 2
    /\ NoDup (with_genres_param genre_ids)
    /\ (forall g, In g (with_genres_param genre_ids) -> In g genre_ids)
    /\ List.length (value (discover_trending_movies w genre_ids excluded_ids t c)) <= 20
    /\ (forall r,
           In r (value (discover_trending_movies w genre_ids excluded_ids t c)) ->
           In r (w_discover w t (with_genres_param genre_ids))
           /\ id_in (m_id r) (make_excluded_set excluded_ids) = false).
Proof.
  intros w genre_ids ex t c.
  destruct (unique_keep_first_spec genre_ids []) as [Hnd Hin].
  split; [apply discover_trending_movies_calls |].
  split; [apply firstn_le_length |].
  split; [now apply NoDup_firstn |].
  split; [intros g Hg; apply In_firstn_incl in Hg; now apply Hin |].
  unfold discover_trending_movies. gateway.
  split; [apply firstn_le_length |].
  intros r Hr. apply In_firstn_incl in Hr.
  destruct (make_excluded_set ex) as [| e es] eqn:Hex; cbn [nonempty andb] in Hr.
  - split; [exact Hr | apply id_in_nil].
  - destruct (w_discover w t (with_genres_param genre_ids)) as [| x xs];
      cbn [nonempty] in Hr; [destruct Hr |].
    apply filter_In in Hr. destruct Hr as [Hr Hid].
    split; [exact Hr | now apply negb_true_iff in Hid].
Qed.

Lemma Qlt_bool_true_lt : forall a b, Qlt_bool a b = true -> (a < b)%Q.
Proof.
  intros a b H. unfold Qlt_bool in H. apply negb_true_iff in H.
  apply Qnot_le_lt. intros Hle. apply Qle_bool_iff in Hle. congruence.
Qed.

Lemma relaxed_below_primary :
  forall rating votes,
    (MIN_RATING <= rating)%Q -> (MIN_VOTE_COUNT <= votes)%Z ->
    (MIN_RATING_FALLBACK <= rating)%Q /\ (MIN_VOTE_COUNT_FALLBACK <= votes)%Z.
Proof.
  intros rating votes Hr Hv. split.
  - apply (Qle_trans _ MIN_RATING); [| exact Hr].
    apply Qle_bool_iff. reflexivity.
  - unfold MIN_VOTE_COUNT, MIN_VOTE_COUNT_FALLBACK in *. lia.
Qed.

Lemma credit_quality_floor :
  forall movie,
    credit_quality movie = true ->
    (MIN_RATING_FALLBACK <= m_vote_average movie)%Q
    /\ (MIN_VOTE_COUNT_FALLBACK <= m_vote_count movie)%Z.
Proof.
  intros movie H. unfold credit_quality in H.
  apply orb_true_iff in H. destruct H as [H | H];
    apply andb_true_iff in H; destruct H as [Hr Hv];
    apply Qle_bool_iff in Hr; apply Z.leb_le in Hv.
  - now apply relaxed_below_primary.
  - now split.
Qed.

Lemma credit_gt_true :
  forall a b, credit_gt a b = true -> (m_popularity b <= m_popularity a)%Q.
Proof.
  intros a b H. unfold credit_gt in H. apply orb_true_iff in H.
  destruct H as [H | H].
  - apply Qlt_le_weak. now apply Qlt_bool_true_lt.
  - apply andb_true_iff in H. destruct H as [H _].
    apply Qeq_bool_iff in H. apply Qle_lteq. right. now symmetry.
Qed.

Lemma credit_gt_false :
  forall a b, credit_gt a b = false -> (m_popularity a <= m_popularity b)%Q.
Proof.
  intros a b H. unfold credit_gt in H. apply orb_false_iff in H.
  destruct H as [H _]. now apply Qlt_bool_false_iff in H.
Qed.

(** X4. The credits of a person come back as at most thirty movies of the
    catalog's credit list, none with an excluded id, each with a rating of
    at least 6.5 and at least 300 votes, the most popular first; a person
    the catalog does not know gives the empty list after the one lookup. *)
Theorem search_actor_movies_result :
  forall w actor_name excluded_ids t c,
    List.length (value (search_actor_movies w actor_name excluded_ids t c)) <= 30
    /\ (forall movie,
           In movie (value (search_actor_movies w actor_name excluded_ids t c)) ->
           (exists person_id,
               w_search_person w t actor_name = Some person_id
               /\ In movie (w_person_credits w (t + 1) person_id))
           /\ id_in (m_id movie) excluded_ids = false
           /\ (MIN_RATING_FALLBACK <= m_vote_average movie)%Q
           /\ (MIN_VOTE_COUNT_FALLBACK <= m_vote_count movie)%Z)
    /\ StronglySorted (fun a b => (m_popularity b <= m_popularity a)%Q)
                      (value (search_actor_movies w actor_name excluded_ids t c))
    /\ (w_search_person w t actor_name = None ->
        value (search_actor_movies w actor_name excluded_ids t c) = []
        /\ calls (search_actor_movies w actor_name excluded_ids t c)
           = [SearchPerson actor_name]).
Proof.
  intros w name ex t c.
  unfold search_actor_movies, search_person, get_person_movie_credits. gateway.
  destruct (w_search_person w t name) as [person_id |]; gateway.
  - split; [apply firstn_le_length |].
    split; [| split; [| discriminate]].
    + intros movie Hin. apply In_firstn_incl in Hin.
      apply In_sort_desc in Hin. apply filter_In in Hin.
      destruct Hin as [Hin Hkeep]. apply andb_true_iff in Hkeep.
      destruct Hkeep as [Hid Hq]. apply negb_true_iff in Hid.
      split; [exists person_id; split; [reflexivity | exact Hin] |].
      split; [exact Hid | now apply credit_quality_floor].
    + apply StronglySorted_firstn.
      apply (sort_desc_sorted credit_gt).
      * apply credit_gt_true.
      * intros a b H. now apply credit_gt_false.
      * intros a b d Hab Hbd. now apply (Qle_trans _ (m_popularity b)).
  - split; [simpl; lia |].
    split; [intros movie [] |].
    split; [constructor |]. intros _. split; reflexivity.
Qed.

(** ** movie_search.py: the filters *)

(** X5. Whatever tier admits them, the candidates kept by the quality
    filter are candidates of the input with a rating of at least 6.5 and at
    least 300 votes; and as soon as one candidate passes the primary test,
    every candidate kept passes it, with a rating of at least 7.0 and at
    least 500 votes. *)
Theorem filter_by_quality_floor :
  forall results is_christmas r,
    In r (filter_by_quality results is_christmas) ->
    In r results
    /\ (MIN_RATING_FALLBACK <= m_vote_average r)%Q
    /\ (MIN_VOTE_COUNT_FALLBACK <= m_vote_count r)%Z
    /\ ((exists x, In x results /\ passes_primary is_christmas x = true) ->
        passes_primary is_christmas r = true
        /\ (MIN_RATING <= m_vote_average r)%Q
        /\ (MIN_VOTE_COUNT <= m_vote_count r)%Z).
Proof.
  intros results is_christmas r Hin.
  assert (Hprimary : forall x,
             passes_primary is_christmas x = true ->
             (MIN_RATING <= m_vote_average x)%Q /\ (MIN_VOTE_COUNT <= m_vote_count x)%Z).
  { intros x Hx. unfold passes_primary in Hx.
    destruct (Qle_bool MIN_RATING (m_vote_average x)) eqn:Er; [| discriminate].
    destruct (MIN_VOTE_COUNT <=? m_vote_count x)%Z eqn:Ev; [| discriminate].
    split; [now apply Qle_bool_iff | now apply Z.leb_le]. }
  unfold filter_by_quality, primary_tier in Hin.
  destruct (filter (passes_primary is_christmas) results) as [| y rated] eqn:E.
  - apply filter_In in Hin. destruct Hin as [Hin Hpass].
    unfold passes_fallback in Hpass. apply andb_true_iff in Hpass.
    destruct Hpass as [Hr Hv].
    split; [exact Hin |].
    split; [now apply Qle_bool_iff |].
    split; [now apply Z.leb_le |].
    intros (x & Hx & Hpx).
    assert (Hxin : In x (filter (passes_primary is_christmas) results))
      by (apply filter_In; now split).
    rewrite E in Hxin. destruct Hxin.
  - rewrite <- E in Hin. apply filter_In in Hin. destruct Hin as [Hin Hpass].
    destruct (Hprimary r Hpass) as [Hr Hv].
    destruct (relaxed_below_primary _ _ Hr Hv) as [Hr' Hv'].
    repeat split; auto.
Qed.

Lemma filter_by_quality_floor_witness :
  In old_acclaimed_many_votes
     [old_acclaimed_few_votes; old_acclaimed_many_votes]
  /\ (MIN_RATING_FALLBACK <= m_vote_average old_acclaimed_many_votes)%Q
  /\ (MIN_VOTE_COUNT_FALLBACK <= m_vote_count old_acclaimed_many_votes)%Z
  /\ ((exists x, In x [old_acclaimed_few_votes; old_acclaimed_many_votes]
                 /\ passes_primary false x = true) ->
      passes_primary false old_acclaimed_many_votes = true
      /\ (MIN_RATING <= m_vote_average old_acclaimed_many_votes)%Q
      /\ (MIN_VOTE_COUNT <= m_vote_count old_acclaimed_many_votes)%Z).
Proof.
  apply (filter_by_quality_floor
           [old_acclaimed_few_votes; old_acclaimed_many_votes] false
           old_acclaimed_many_votes).
  vm_compute. left. reflexivity.
Defined.

(** X6. The relaxed tier does not apply the age rule: when no candidate
    passes the primary test, every candidate with a rating of at least 6.5
    and at least 300 votes is kept, whatever its release year; and an empty
    list stays empty. *)
Theorem relaxed_tier_ignores_age :
  forall results is_christmas,
    primary_tier results is_christmas = [] ->
    (forall r,
        In r results ->
        (MIN_RATING_FALLBACK <= m_vote_average r)%Q ->
        (MIN_VOTE_COUNT_FALLBACK <= m_vote_count r)%Z ->
        In r (filter_by_quality results is_christmas))
    /\ (results = [] -> filter_by_quality results is_christmas = []).
Proof.
  intros results is_christmas Hnone. unfold filter_by_quality. rewrite Hnone.
  split.
  - intros r Hin Hr Hv. apply filter_In. split; [exact Hin |].
    unfold passes_fallback. apply andb_true_iff.
    split; [now apply Qle_bool_iff | now apply Z.leb_le].
  - intros ->. reflexivity.
Qed.

Lemma relaxed_tier_ignores_age_witness :
  (forall r,
      In r [old_acclaimed_few_votes] ->
      (MIN_RATING_FALLBACK <= m_vote_average r)%Q ->
      (MIN_VOTE_COUNT_FALLBACK <= m_vote_count r)%Z ->
      In r (filter_by_quality [old_acclaimed_few_votes] false))
  /\ ([old_acclaimed_few_votes] = [] ->
      filter_by_quality [old_acclaimed_few_votes] false = []).
Proof.
  apply (relaxed_tier_ignores_age [old_acclaimed_few_votes] false).
  vm_compute. reflexivity.
Defined.

(** X7. The holiday keyword filter never empties the list: it keeps only
    candidates of the input, keeps at least one of a non-empty input, keeps
    only holiday films when the input has one, and does nothing on a query
    that is no holiday query. *)
Theorem christmas_filter_never_empties :
  forall is_christmas results,
    results <> [] ->
    christmas_filter is_christmas results <> []
    /\ (forall r, In r (christmas_filter is_christmas results) -> In r results)
    /\ (is_christmas = true ->
        (exists x, In x results /\ is_christmas_movie x = true) ->
        forall r, In r (christmas_filter is_christmas results) ->
                  is_christmas_movie r = true)
    /\ (is_christmas = false -> christmas_filter is_christmas results = results).
Proof.
  intros is_christmas results Hne.
  split; [| split; [apply christmas_filter_incl | split]].
  - unfold christmas_filter. destruct is_christmas; [| exact Hne].
    destruct (filter is_christmas_movie results); [exact Hne | discriminate].
  - intros -> (x & Hx & Hmovie) r Hr. unfold christmas_filter in Hr.
    destruct (filter is_christmas_movie results) as [| y ys] eqn:E.
    + assert (Hin : In x (filter is_christmas_movie results))
        by (apply filter_In; now split).
      rewrite E in Hin. destruct Hin.
    + rewrite <- E in Hr. now apply filter_In in Hr.
  - intros ->. reflexivity.
Qed.

Lemma christmas_filter_never_empties_witness :
  christmas_filter true [credit_alpha; holiday_film] <> []
  /\ (forall r, In r (christmas_filter true [credit_alpha; holiday_film]) ->
                In r [credit_alpha; holiday_film])
  /\ (true = true ->
      (exists x, In x [credit_alpha; holiday_film] /\ is_christmas_movie x = true) ->
      forall r, In r (christmas_filter true [credit_alpha; holiday_film]) ->
                is_christmas_movie r = true)
  /\ (true = false ->
      christmas_filter true [credit_alpha; holiday_film]
      = [credit_alpha; holiday_film]).
Proof.
  apply (christmas_filter_never_empties true [credit_alpha; holiday_film]).
  discriminate.
Defined.

(** ** movie_search.py: ranking *)

Lemma scored_pairs_sorted :
  forall (score : Movie -> Q) (pairs : list (Q * Movie)),
    StronglySorted (fun p q => (fst q <= fst p)%Q) pairs ->
    (forall p, In p pairs -> fst p = score (snd p)) ->
    StronglySorted (fun a b => (score b <= score a)%Q) (map snd pairs).
Proof.
  intros score pairs H. induction H as [| p pairs Hs IH Hp]; intros Hscore; simpl.
  - constructor.
  - constructor.
    + apply IH. intros q Hq. apply Hscore. now right.
    + apply Forall_forall. intros b Hb. apply in_map_iff in Hb.
      destruct Hb as (q & <- & Hq). rewrite Forall_forall in Hp.
      rewrite <- (Hscore p) by now left.
      rewrite <- (Hscore q) by now right.
      now apply Hp.
Qed.

Lemma map_snd_scored :
  forall (score : Movie -> Q) (results : list Movie),
    map snd (map (fun r => (score r, r)) results) = results.
Proof.
  intros score results. rewrite map_map. simpl. apply map_id.
Qed.

(** The scores are rounded as the floats of the code are: 8.2 * 6.0 is
    49.199999999999996 (6924284427082137 / 2^47), below 7.2 * 6.0 + 6.0,
    the float 49.2 (3462142213541069 / 2^46), so the film rated 7.2 by
    2000 voters goes before the film rated 8.2 by 1500, which exact
    arithmetic would leave in place. *)
Lemma score_movie_rounds :
  (score_movie 2026 rated_82 "" false == 6924284427082137 # 140737488355328)%Q
  /\ (score_movie 2026 rated_72 "" false == 3462142213541069 # 70368744177664)%Q
  /\ (score_movie 2026 rated_82 "" false < score_movie 2026 rated_72 "" false)%Q
  /\ score_and_sort 2026 "" false [rated_82; rated_72] = [rated_72; rated_82].
Proof.
  split; [vm_compute; reflexivity |].
  split; [vm_compute; reflexivity |].
  split; vm_compute; reflexivity.
Qed.

(** X8. Ranking loses and invents nothing and puts the best first: the
    ranked list is a permutation of the candidates in which no candidate
    has a higher score, as the float the code computes, than one before
    it; candidates that all have the same score keep their retrieval
    order. *)
Theorem score_and_sort_ranks :
  forall current_year query from_actor results,
    Permutation (score_and_sort current_year query from_actor results) results
    /\ StronglySorted
         (fun a b => (score_movie current_year b query from_actor
                      <= score_movie current_year a query from_actor)%Q)
         (score_and_sort current_year query from_actor results)
    /\ ((forall a b, In a results -> In b results ->
                     (score_movie current_year a query from_actor
                      <= score_movie current_year b query from_actor)%Q) ->
        score_and_sort current_year query from_actor results = results).
Proof.
  intros year query fa results. unfold score_and_sort.
  set (score := fun r => score_movie year r query fa).
  set (gt := fun a b : Q * Movie => Qlt_bool (fst b) (fst a)).
  destruct (Nat.ltb 1 (List.length results)) eqn:Elen.
  - split; [| split].
    + rewrite <- (map_snd_scored score results) at 2.
      apply Permutation_map. apply sort_desc_perm.
    + apply (scored_pairs_sorted score).
      * apply (sort_desc_sorted gt).
        -- intros a b H. apply Qlt_le_weak. now apply Qlt_bool_true_lt.
        -- intros a b H. now apply Qlt_bool_false_iff in H.
        -- intros a b d Hab Hbd. now apply (Qle_trans _ (fst b)).
      * intros p Hp. apply In_sort_desc in Hp. apply in_map_iff in Hp.
        destruct Hp as (r & <- & _). reflexivity.
    + intros Hties. rewrite sort_desc_all_ties; [apply map_snd_scored |].
      intros a b Ha Hb. apply in_map_iff in Ha. apply in_map_iff in Hb.
      destruct Ha as (ra & <- & Ha). destruct Hb as (rb & <- & Hb).
      unfold gt. simpl. apply Qlt_bool_false_iff. now apply Hties.
  - split; [apply Permutation_refl | split; [| reflexivity]].
    destruct results as [| x [| y rest]]; [constructor | | discriminate].
    constructor; constructor.
Qed.

(** ** tmdb_client.py *)

(** X9. A record comes back from [fetch_poster_and_verify_movie] only when
    the catalog's record carries the requested id and both the expected
    title and the record's title are non-empty; the poster next to it is
    the validated poster path, and there is no poster without a record.
    One detail call is made and the cache is left alone. *)
Theorem fetch_poster_and_verify_movie_result :
  forall w movie_id movie_title t c,
    calls (fetch_poster_and_verify_movie w movie_id movie_title t c)
    = [MovieDetail movie_id]
    /\ cache (fetch_poster_and_verify_movie w movie_id movie_title t c) = c
    /\ (snd (value (fetch_poster_and_verify_movie w movie_id movie_title t c)) = None ->
        fst (value (fetch_poster_and_verify_movie w movie_id movie_title t c)) = "")
    /\ (forall d,
           snd (value (fetch_poster_and_verify_movie w movie_id movie_title t c))
           = Some d ->
           w_movie_detail w t movie_id = Some d
           /\ d_id d = movie_id
           /\ PyStr.truthy movie_title = true
           /\ PyStr.truthy (get_or (d_title d) "") = true
           /\ fst (value (fetch_poster_and_verify_movie w movie_id movie_title t c))
              = validate_and_build_poster_url (d_poster_path d)).
Proof.
  intros w movie_id movie_title t c.
  destruct (fetch_poster_calls w movie_id movie_title t c) as [Hcalls Hcache].
  split; [exact Hcalls |]. split; [exact Hcache |].
  unfold fetch_poster_and_verify_movie. gateway.
  destruct (w_movie_detail w t movie_id) as [d0 |]; gateway;
    [| split; [reflexivity | discriminate]].
  unfold verify_details.
  destruct (Z.eqb_spec (d_id d0) movie_id) as [Hid | Hid]; cbn [negb];
    [| split; [reflexivity | discriminate]].
  destruct (PyStr.truthy movie_title) eqn:Htitle; cbn [andb];
    [| split; [reflexivity | discriminate]].
  destruct (PyStr.truthy (get_or (d_title d0) "")) eqn:Hrecord;
    [| split; [reflexivity | discriminate]].
  match goal with
  | |- context [if ?b then _ else _] => destruct b
  end; cbn [fst snd]; (split; [try reflexivity; discriminate |]).
  - discriminate.
  - intros d H. injection H as <-. repeat split; auto.
Qed.

(** X10. [fetch_movie_details] never returns a record: it passes the empty
    title, for which [fetch_poster_and_verify_movie] answers [("", {})]
    whatever the catalog sends. *)
Theorem fetch_movie_details_always_none :
  forall w movie_id t c,
    value (fetch_movie_details w movie_id t c) = None
    /\ calls (fetch_movie_details w movie_id t c) = [MovieDetail movie_id].
Proof.
  intros w movie_id t c. unfold fetch_movie_details. gateway.
  destruct (fetch_poster_calls w movie_id "" t c) as [Hcalls _].
  rewrite Hcalls. split; [| reflexivity].
  unfold fetch_poster_and_verify_movie. gateway.
  destruct (w_movie_detail w t movie_id) as [d |]; gateway; [| reflexivity].
  unfold verify_details. cbn [PyStr.truthy andb].
  now destruct (negb (d_id d =? movie_id)%Z).
Qed.

(** ** movie_search.py: the search as a whole *)

Lemma rank_calls_exact :
  forall w query user_id ex r t c,
    calls (rank w query user_id ex r t c)
    = if nonempty (rt_results r) then [FetchMemories user_id] else [].
Proof.
  intros. unfold rank.
  destruct (nonempty (rt_results r)); cbn [negb]; [| reflexivity].
  gateway.
  repeat match goal with
         | |- context [if ?b then _ else _] => destruct b; gateway
         end; reflexivity.
Qed.

(** The calls of the detail stage: none, the record alone, or the record and
    its videos. *)
Lemma deliver_calls_exact :
  forall w from_actor results t c,
    calls (deliver w from_actor results t c) = []
    \/ exists movie_id,
        calls (deliver w from_actor results t c) = [MovieDetail movie_id]
        \/ calls (deliver w from_actor results t c)
           = [MovieDetail movie_id; MovieVideos movie_id].
Proof.
  intros. unfold deliver.
  destruct results as [| first_movie followers]; [now left |].
  destruct (m_id first_movie) as [movie_id |]; [| now left].
  destruct (movie_id =? 0)%Z; [now left |].
  gateway.
  destruct (get_cached_movie movie_id c); [now left |].
  gateway. right. exists movie_id.
  match goal with
  | |- context [fetch_poster_and_verify_movie w ?a ?b ?t' ?c'] =>
      destruct (fetch_poster_calls w a b t' c') as [Hcalls Hcache];
      rewrite Hcalls;
      destruct (value (fetch_poster_and_verify_movie w a b t' c'))
        as [poster [details |]]
  end; gateway; [| now left].
  unfold fetch_movie_videos. gateway.
  destruct (from_actor && _); gateway; now right.
Qed.

(** The search is the detail stage run on the ranked candidates: same
    value, same cache. *)
Lemma fast_movie_search_deliver :
  forall w query user_id ex t c,
    exists t',
      value (fast_movie_search w query user_id ex t c)
      = value (deliver w (rt_from_actor_search (value (retrieve w query ex t c)))
                 (value (ranked_candidates w query user_id ex t c)) t' c)
      /\ cache (fast_movie_search w query user_id ex t c)
         = cache (deliver w (rt_from_actor_search (value (retrieve w query ex t c)))
                    (value (ranked_candidates w query user_id ex t c)) t' c).
Proof.
  intros. unfold fast_movie_search, ranked_candidates. gateway.
  rewrite retrieve_cache.
  match goal with
  | |- context [rank w query user_id ex ?r ?t' c] =>
      destruct (rank_calls w query user_id ex r t' c) as [_ Hc]
  end.
  rewrite Hc. eexists. split; reflexivity.
Qed.

Lemma retrieve_without_actor :
  forall w query ex t c,
    is_actor_query query = false ->
    rt_from_actor_search (value (retrieve w query ex t c)) = false
    /\ forall call, In call (calls (retrieve w query ex t c)) ->
                    is_discover call \/ is_title_search call.
Proof.
  intros w query ex t c Hactor. unfold retrieve. gateway.
  assert (Ha : actor_stage w query (make_excluded_set ex) t c
               = mkOut (mkRetrieved [] false false) c []).
  { unfold actor_stage. now rewrite Hactor. }
  rewrite Ha. cbn [value cache calls app List.length].
  match goal with
  | |- context [genre_stage w query ex ?r ?t1 c] =>
      destruct (genre_stage_calls w query ex r t1 c) as (Hg & Hc2 & _ & Hfrom2 & _);
      set (g := genre_stage w query ex r t1 c) in *
  end.
  rewrite Hc2.
  match goal with
  | |- context [search_stage w query ?r ?t2 c] =>
      destruct (search_stage_calls w query r t2 c) as (Hs & _ & Hfrom3 & _)
  end.
  rewrite Hfrom3, Hfrom2, Hs, Hg. split; [reflexivity |].
  intros call Hin. apply in_app_or in Hin. destruct Hin as [Hin | Hin].
  - destruct (discovery_runs _ _); [| destruct Hin].
    destruct Hin as [<- | []]. left. exact I.
  - destruct (title_search_runs _); [| destruct Hin].
    destruct Hin as [<- | []]. right. exact I.
Qed.

(** X11. A query that is no actor query never reaches the person
    endpoints, and its result, when there is one, is a single movie. *)
Theorem non_actor_query_skips_person_lookup :
  forall w query user_id ex t c,
    is_actor_query query = false ->
    (forall call, In call (calls (fast_movie_search w query user_id ex t c)) ->
                  ~ is_person_call call)
    /\ (forall movies,
           value (fast_movie_search w query user_id ex t c) = Some movies ->
           List.length movies = 1).
Proof.
  intros w query user_id ex t c Hactor.
  destruct (retrieve_without_actor w query ex t c Hactor) as [Hfrom Hcalls].
  split.
  - intros call Hin. unfold fast_movie_search in Hin.
    rewrite calls_bind in Hin. apply in_app_or in Hin.
    destruct Hin as [Hin | Hin].
    + destruct (Hcalls call Hin) as [H | H]; destruct call; simpl in *; tauto.
    + rewrite calls_bind in Hin. apply in_app_or in Hin.
      destruct Hin as [Hin | Hin].
      * rewrite rank_calls_exact in Hin.
        destruct (nonempty _); [| destruct Hin].
        destruct Hin as [<- | []]. simpl. tauto.
      * match type of Hin with
        | In _ (calls (deliver ?w' ?fa ?rs ?t' ?c')) =>
            destruct (deliver_calls_exact w' fa rs t' c') as [E | [id [E | E]]];
            rewrite E in Hin
        end.
        -- destruct Hin.
        -- destruct Hin as [<- | []]. simpl. tauto.
        -- destruct Hin as [<- | [<- | []]]; simpl; tauto.
  - intros movies Hsome.
    destruct (fast_movie_search_deliver w query user_id ex t c) as (t' & Hval & _).
    rewrite Hval, Hfrom in Hsome. apply deliver_inv in Hsome.
    destruct Hsome as (f & fs & id & _ & _ & _ & [(d & _ & ->) | (_ & d & _ & ->)]);
      reflexivity.
Qed.

Lemma non_actor_query_skips_person_lookup_witness :
  (forall call,
      In call (calls (fast_movie_search quiet_world "christmas movie" "user" [] 0 [])) ->
      ~ is_person_call call)
  /\ (forall movies,
         value (fast_movie_search quiet_world "christmas movie" "user" [] 0 [])
         = Some movies ->
         List.length movies = 1).
Proof.
  apply (non_actor_query_skips_person_lookup
           quiet_world "christmas movie" "user" [] 0 []).
  vm_compute. reflexivity.
Defined.

(** After a successful detail stage the head it returned is in the cache,
    under the id of the head candidate. *)
Lemma deliver_caches_head :
  forall w from_actor results t c movies,
    List.length c <= MAX_CACHE_SIZE ->
    value (deliver w from_actor results t c) = Some movies ->
    exists first_movie followers movie_id head rest,
      results = first_movie :: followers
      /\ m_id first_movie = Some movie_id
      /\ movie_id <> 0%Z
      /\ movies = head :: rest
      /\ get_cached_movie movie_id (cache (deliver w from_actor results t c))
         = Some head.
Proof.
  intros w from_actor results t c movies Hlen. unfold deliver.
  destruct results as [| first_movie followers]; [discriminate |].
  destruct (m_id first_movie) as [movie_id |] eqn:Hid; [| discriminate].
  destruct (Z.eqb_spec movie_id 0) as [| Hnz]; [discriminate |].
  gateway.
  destruct (get_cached_movie movie_id c) as [cached |] eqn:Hget; gateway.
  - intros H. injection H as <-.
    exists first_movie, followers, movie_id, cached, []. repeat split; auto.
  - match goal with
    | |- context [fetch_poster_and_verify_movie w ?a ?b ?t' ?c'] =>
        destruct (fetch_poster_calls w a b t' c') as [_ Hcache];
        rewrite Hcache;
        destruct (value (fetch_poster_and_verify_movie w a b t' c'))
          as [poster [details |]]
    end; gateway; [| discriminate].
    unfold fetch_movie_videos. gateway.
    destruct (from_actor && Nat.ltb 1 (List.length (first_movie :: followers)));
      gateway; intros H; injection H as <-;
      eexists first_movie, followers, movie_id, _, _;
      (split; [reflexivity |]); (split; [exact Hid |]); (split; [exact Hnz |]);
      (split; [reflexivity |]);
      now apply set_cached_movie_get_same.
Qed.

(** X12. What a search returns first is cached: after a search that has a
    result, run on a cache within its capacity, the head of the result is
    the cache entry of a non-zero id. *)
Theorem search_result_head_is_cached :
  forall w query user_id ex t c movies,
    List.length c <= MAX_CACHE_SIZE ->
    value (fast_movie_search w query user_id ex t c) = Some movies ->
    exists head rest movie_id,
      movies = head :: rest
      /\ movie_id <> 0%Z
      /\ get_cached_movie movie_id (cache (fast_movie_search w query user_id ex t c))
         = Some head.
Proof.
  intros w query user_id ex t c movies Hlen Hsome.
  destruct (fast_movie_search_deliver w query user_id ex t c) as (t' & Hval & Hcache).
  rewrite Hval in Hsome. rewrite Hcache.
  destruct (deliver_caches_head _ _ _ _ _ _ Hlen Hsome)
    as (f & fs & id & head & rest & _ & _ & Hnz & -> & Hget).
  exists head, rest, id. auto.
Qed.

Lemma search_result_head_is_cached_witness :
  exists head rest movie_id,
    credits_answer [] = head :: rest
    /\ movie_id <> 0%Z
    /\ get_cached_movie movie_id
         (cache (fast_movie_search credits_world "movies with Tom Hanks" "user" [] 0 []))
       = Some head.
Proof.
  apply (search_result_head_is_cached
           credits_world "movies with Tom Hanks" "user" [] 0 [] (credits_answer [])).
  - apply Nat.leb_le. reflexivity.
  - vm_compute. reflexivity.
Defined.

(** X13. A head served once is served from the cache the next time: the
    detail stage run again on the same candidates, on the cache the first
    run left, makes no catalog call and returns the head alone, without the
    followers of an actor retrieval. *)
Theorem second_delivery_hits_cache :
  forall w from_actor results t c movies,
    List.length c <= MAX_CACHE_SIZE ->
    value (deliver w from_actor results t c) = Some movies ->
    exists head rest,
      movies = head :: rest
      /\ forall from_actor' t',
          value (deliver w from_actor' results t'
                   (cache (deliver w from_actor results t c))) = Some [head]
          /\ calls (deliver w from_actor' results t'
                      (cache (deliver w from_actor results t c))) = []
          /\ cache (deliver w from_actor' results t'
                      (cache (deliver w from_actor results t c)))
             = cache (deliver w from_actor results t c).
Proof.
  intros w from_actor results t c movies Hlen Hsome.
  destruct (deliver_caches_head _ _ _ _ _ _ Hlen Hsome)
    as (f & fs & id & head & rest & -> & Hid & Hnz & -> & Hget).
  exists head, rest. split; [reflexivity |].
  intros from_actor' t'.
  set (c' := cache (deliver w from_actor (f :: fs) t c)) in *.
  unfold deliver. rewrite Hid.
  destruct (Z.eqb_spec id 0); [contradiction |].
  gateway. rewrite Hget. gateway. repeat split.
Qed.

Lemma second_delivery_hits_cache_witness :
  exists head rest,
    get_or (value (deliver credits_world true [credit_alpha; credit_gamma] 3 [])) []
    = head :: rest
    /\ forall from_actor' t',
        value (deliver credits_world from_actor' [credit_alpha; credit_gamma] t'
                 (cache (deliver credits_world true [credit_alpha; credit_gamma] 3 [])))
        = Some [head]
        /\ calls (deliver credits_world from_actor' [credit_alpha; credit_gamma] t'
                    (cache (deliver credits_world true [credit_alpha; credit_gamma] 3 [])))
           = []
        /\ cache (deliver credits_world from_actor' [credit_alpha; credit_gamma] t'
                    (cache (deliver credits_world true [credit_alpha; credit_gamma] 3 [])))
           = cache (deliver credits_world true [credit_alpha; credit_gamma] 3 []).
Proof.
  apply (second_delivery_hits_cache
           credits_world true [credit_alpha; credit_gamma] 3 []).
  - apply Nat.leb_le. reflexivity.
  - vm_compute. reflexivity.
Defined.

Lemma filter_by_quality_relaxed :
  forall results is_christmas r,
    In r (filter_by_quality results is_christmas) ->
    In r results /\ passes_fallback r = true.
Proof.
  intros results is_christmas r Hin.
  unfold filter_by_quality, primary_tier in Hin.
  destruct (filter (passes_primary is_christmas) results) as [| y rated] eqn:E.
  - now apply filter_In in Hin.
  - rewrite <- E in Hin. apply filter_In in Hin. destruct Hin as [Hin Hpass].
    split; [exact Hin |]. unfold passes_primary in Hpass. unfold passes_fallback.
    destruct (Qle_bool MIN_RATING (m_vote_average r)) eqn:Er; [| discriminate].
    destruct (MIN_VOTE_COUNT <=? m_vote_count r)%Z eqn:Ev; [| discriminate].
    apply Qle_bool_iff in Er. apply Z.leb_le in Ev.
    destruct (relaxed_below_primary _ _ Er Ev) as [Hr Hv].
    apply andb_true_iff. split; [now apply Qle_bool_iff | now apply Z.leb_le].
Qed.

Lemma rank_keeps :
  forall w query user_id ex r t c x,
    In x (value (rank w query user_id ex r t c)) ->
    In x (rt_results r)
    /\ passes_fallback x = true
    /\ ((forall y, In y (rt_results r) -> m_title y <> PyNone) ->
        not_watched (fst (w_memories w t user_id) ++ make_excluded_set ex)
                    (map PyStr.lower (snd (w_memories w t user_id))) x = true).
Proof.
  intros w query user_id ex r t c x. unfold rank.
  destruct (negb (nonempty (rt_results r))); [intros [] |].
  gateway.
  destruct (negb (nonempty (history_filter _ _ (rt_results r)))); gateway;
    [intros [] |].
  destruct (negb (nonempty (filter_by_quality _ _))); gateway; [intros [] |].
  intros Hin.
  apply score_and_sort_incl, christmas_filter_incl in Hin.
  apply filter_by_quality_relaxed in Hin. destruct Hin as [Hin Hq].
  split; [now apply history_filter_incl in Hin |]. split; [exact Hq |].
  intros Htitles. rewrite (history_filter_applied _ _ _ Htitles) in Hin.
  now apply filter_In in Hin.
Qed.

(** X14. Every candidate that reaches the detail stage was retrieved and has
    a rating of at least 6.5 and at least 300 votes. When no retrieved
    candidate has a [null] title, so that the history filter runs to its
    end, it has neither a watched nor an excluded non-zero id, and its
    title neither contains nor is contained in a watched title, letter case
    aside. *)
Theorem ranked_candidates_are_fresh_and_rated :
  forall w query user_id ex t c x,
    In x (value (ranked_candidates w query user_id ex t c)) ->
    In x (rt_results (value (retrieve w query ex t c)))
    /\ (MIN_RATING_FALLBACK <= m_vote_average x)%Q
    /\ (MIN_VOTE_COUNT_FALLBACK <= m_vote_count x)%Z
    /\ ((forall r, In r (rt_results (value (retrieve w query ex t c))) ->
                   m_title r <> PyNone) ->
        id_in (m_id x)
              (fst (w_memories w (t + List.length (calls (retrieve w query ex t c)))
                               user_id)) = false
        /\ id_in (m_id x) (make_excluded_set ex) = false
        /\ (forall watched,
               In watched
                  (snd (w_memories w (t + List.length (calls (retrieve w query ex t c)))
                                   user_id)) ->
               PyStr.contains (PyStr.lower watched)
                              (PyStr.lower (or_empty (slot_get (m_title x) ""))) = false
               /\ PyStr.contains (PyStr.lower (or_empty (slot_get (m_title x) "")))
                                 (PyStr.lower watched) = false)).
Proof.
  intros w query user_id ex t c x Hin.
  unfold ranked_candidates in Hin. rewrite value_bind in Hin.
  apply rank_keeps in Hin. destruct Hin as (Hin & Hq & Hhistory).
  set (memories := w_memories w (t + List.length (calls (retrieve w query ex t c)))
                              user_id) in *.
  unfold passes_fallback in Hq. apply andb_true_iff in Hq. destruct Hq as [Hr Hv].
  split; [exact Hin |].
  split; [now apply Qle_bool_iff |].
  split; [now apply Z.leb_le |].
  intros Htitles. specialize (Hhistory Htitles). rename Hhistory into Hw.
  unfold not_watched in Hw. apply andb_true_iff in Hw. destruct Hw as [Hid Htitle].
  apply negb_true_iff in Hid. apply negb_true_iff in Htitle.
  assert (Hids : id_in (m_id x) (fst memories) = false
                 /\ id_in (m_id x) (make_excluded_set ex) = false).
  { destruct (m_id x) as [z |]; [| split; reflexivity].
    simpl in *. rewrite mem_Z_app in Hid. now apply orb_false_iff in Hid. }
  split; [apply Hids |]. split; [apply Hids |].
  intros watched Hwatched.
  apply orb_false_iff.
  set (title := PyStr.lower (or_empty (slot_get (m_title x) ""))) in *.
  destruct (PyStr.contains (PyStr.lower watched) title
            || PyStr.contains title (PyStr.lower watched))
    eqn:E; [| reflexivity].
  exfalso.
  assert (Hex : existsb
                  (fun wt => PyStr.contains wt title || PyStr.contains title wt)
                  (map PyStr.lower (snd memories)) = true).
  { apply existsb_exists. exists (PyStr.lower watched).
    split; [now apply in_map | exact E]. }
  congruence.
Qed.

Lemma ranked_candidates_are_fresh_and_rated_witness :
  In credit_alpha
     (rt_results (value (retrieve credits_world "movies with Tom Hanks" [] 0 [])))
  /\ (MIN_RATING_FALLBACK <= m_vote_average credit_alpha)%Q
  /\ (MIN_VOTE_COUNT_FALLBACK <= m_vote_count credit_alpha)%Z
  /\ id_in (m_id credit_alpha)
           (fst (w_memories credits_world
                   (0 + List.length
                          (calls (retrieve credits_world "movies with Tom Hanks"
                                           [] 0 [])))
                   "user")) = false
  /\ id_in (m_id credit_alpha) (make_excluded_set []) = false
  /\ (forall watched,
         In watched
            (snd (w_memories credits_world
                    (0 + List.length
                           (calls (retrieve credits_world "movies with Tom Hanks"
                                            [] 0 [])))
                    "user")) ->
         PyStr.contains (PyStr.lower watched)
                        (PyStr.lower (or_empty (slot_get (m_title credit_alpha) "")))
         = false
         /\ PyStr.contains
              (PyStr.lower (or_empty (slot_get (m_title credit_alpha) "")))
              (PyStr.lower watched) = false).
Proof.
  destruct (ranked_candidates_are_fresh_and_rated
              credits_world "movies with Tom Hanks" "user" [] 0 [] credit_alpha)
    as (Hin & Hrating & Hvotes & Hhistory).
  - vm_compute. left. reflexivity.
  - split; [exact Hin |]. split; [exact Hrating |]. split; [exact Hvotes |].
    apply Hhistory. intros r Hr. vm_compute in Hr.
    repeat (destruct Hr as [<- | Hr]; [discriminate |]). destruct Hr.
Defined.

(** ** handlers.py: what the handlers keep *)

Lemma offer_result_frame :
  forall movies s s' out,
    offer_result movies s = Some (s', out) ->
    exists first rest,
      movies = first :: rest
      /\ out = [Offer first]
      /\ movie_queue s' = movies
      /\ suggested_movies s' = suggested_movies s ++ [md_id first]
      /\ original_prompt s' = original_prompt s
      /\ prefetched_next_movie s' = prefetched_next_movie s
      /\ prefetched_query s' = prefetched_query s.
Proof.
  intros movies s s' out H. unfold offer_result in H.
  destruct movies as [| first rest]; [discriminate |].
  injection H as <- <-. exists first, rest. repeat split.
Qed.

Lemma discover_fallback_frame :
  forall w text ex reset default_overview s t c s' out,
    value (discover_fallback w text ex reset default_overview s t c) = Some (s', out) ->
    exists m,
      out = [Offer m]
      /\ movie_queue s' = [m]
      /\ suggested_movies s'
         = (if reset then [md_id m] else suggested_movies s ++ [md_id m])
      /\ original_prompt s' = original_prompt s
      /\ prefetched_next_movie s' = prefetched_next_movie s
      /\ prefetched_query s' = prefetched_query s.
Proof.
  intros w text ex reset default_overview s t c s' out. unfold discover_fallback.
  gateway.
  destruct (value (discover_trending_movies w _ ex t c)) as [| first_discover rest];
    gateway; [discriminate |].
  destruct (m_id first_discover) as [movie_id |]; gateway; [| discriminate].
  destruct (movie_id =? 0)%Z; gateway; [discriminate |].
  match goal with
  | |- context [fetch_poster_and_verify_movie w ?a ?b ?t1 ?c1] =>
      destruct (value (fetch_poster_and_verify_movie w a b t1 c1))
        as [poster [details |]]
  end; gateway; [| discriminate].
  destruct (PyStr.truthy poster); gateway; [| discriminate].
  intros H. injection H as <- <-. eexists. split; [reflexivity |].
  destruct reset; repeat split.
Qed.

Lemma check_prefetched_inv :
  forall s s' m,
    check_prefetched s = UsePrefetched s' m ->
    prefetched_next_movie s = Held m
    /\ (exists tag,
           prefetched_query s = Held tag
           /\ normalized tag = normalized (original_prompt s))
    /\ id_truthy (md_id m) = true
    /\ is_suggested (md_id m) (suggested_movies s) = false
    /\ s' = set_queue [m] (append_suggested (md_id m) (set_prefetched Absent Absent s)).
Proof.
  intros s s' m H. unfold check_prefetched in H.
  destruct (prefetched_next_movie s) as [| | held]; try discriminate.
  destruct (prefetched_query s) as [| | tag]; try discriminate;
    destruct (String.eqb _ _) eqn:Etag; try discriminate;
    destruct (id_truthy (md_id held)) eqn:Eid; try discriminate;
    destruct (is_suggested (md_id held) (suggested_movies s)) eqn:Es;
    try discriminate.
  injection H as <- <-. apply String.eqb_eq in Etag.
  repeat split; eauto.
Qed.

Lemma check_prefetched_raised :
  forall s s',
    check_prefetched s = PrefetchRaised s' ->
    suggested_movies s' = suggested_movies s
    /\ original_prompt s' = original_prompt s
    /\ movie_queue s' = movie_queue s.
Proof.
  intros s s' H. unfold check_prefetched in H.
  destruct (prefetched_next_movie s) as [| | held]; try discriminate.
  destruct (prefetched_query s) as [| | tag]; try discriminate.
  - destruct (String.eqb _ _); try discriminate.
    destruct (id_truthy _ && _); try discriminate.
    injection H as <-. repeat split.
  - injection H as <-. repeat split.
  - destruct (String.eqb _ _); try discriminate.
    destruct (id_truthy _ && _); discriminate.
Qed.

(** Looking for the next candidate keeps the prompt and only adds to the
    suggested ids. *)
Lemma next_candidate_grows :
  forall w user_id s t c,
    original_prompt (fst (value (next_candidate w user_id s t c))) = original_prompt s
    /\ exists added,
        suggested_movies (fst (value (next_candidate w user_id s t c)))
        = suggested_movies s ++ added.
Proof.
  intros w user_id s t c. unfold next_candidate.
  destruct (check_prefetched s) as [s' m | s' |] eqn:Hcheck; gateway.
  - apply check_prefetched_inv in Hcheck.
    destruct Hcheck as (_ & _ & _ & _ & ->). cbn. split; [reflexivity | eauto].
  - apply check_prefetched_raised in Hcheck. destruct Hcheck as (Hs & Hp & _).
    cbn [fst]. rewrite Hs, Hp. split; [reflexivity |].
    exists []. now rewrite app_nil_r.
  - destruct (filter _ (movie_queue s)) as [| first rest]; gateway.
    + match goal with
      | |- context [offer_result ?ms s] => destruct (offer_result ms s) as [[s1 out] |] eqn:Eo
      end; gateway.
      * apply offer_result_frame in Eo.
        destruct Eo as (f & r & _ & _ & _ & Hs & Hp & _).
        cbn. rewrite Hs, Hp. split; [reflexivity | eauto].
      * destruct (negb (is_actor_query (original_prompt s))); gateway.
        -- match goal with
           | |- context [discover_fallback ?w' ?tx ?ex ?rs ?dv s ?t' ?c'] =>
               destruct (value (discover_fallback w' tx ex rs dv s t' c'))
                 as [[s1 out] |] eqn:Ed
           end; gateway.
           ++ apply discover_fallback_frame in Ed.
              destruct Ed as (m & _ & _ & Hs & Hp & _).
              cbn. rewrite Hs, Hp. split; [reflexivity | eauto].
           ++ cbn. split; [reflexivity |]. exists []. now rewrite app_nil_r.
        -- cbn. split; [reflexivity |]. exists []. now rewrite app_nil_r.
    + cbn. split; [reflexivity |]. exists []. now rewrite app_nil_r.
Qed.

Lemma perform_action_frame :
  forall w action movie_id s t c,
    original_prompt (fst (value (perform_action w action movie_id s t c)))
    = original_prompt s
    /\ suggested_movies (fst (value (perform_action w action movie_id s t c)))
       = suggested_movies s
    /\ movie_queue (fst (value (perform_action w action movie_id s t c)))
       = movie_queue s.
Proof.
  intros w action movie_id s t c. unfold perform_action.
  repeat match goal with
         | |- context [if String.eqb action ?x then _ else _] =>
             destruct (String.eqb action x)
         end; gateway; repeat split.
Qed.

Lemma retire_current_grows :
  forall movie_id s,
    exists added,
      suggested_movies (retire_current movie_id s) = suggested_movies s ++ added.
Proof.
  intros movie_id s. unfold retire_current.
  destruct (PyStr.int_of_string movie_id) as [z |].
  - cbn [set_queue suggested_movies]. destruct (is_suggested _ _); cbn.
    + exists []. now rewrite app_nil_r.
    + eauto.
  - cbn. exists []. now rewrite app_nil_r.
Qed.

(** X15. A pressed button never changes the prompt of the session and
    never removes an id from [suggested_movies]: the list it leaves is the
    old list with ids appended. *)
Theorem button_only_adds_suggested :
  forall w data user_id s t c,
    original_prompt (fst (value (handle_button_callback w data user_id s t c)))
    = original_prompt s
    /\ exists added,
        suggested_movies (fst (value (handle_button_callback w data user_id s t c)))
        = suggested_movies s ++ added.
Proof.
  intros w data user_id s t c. unfold handle_button_callback.
  destruct (split_callback data) as [[action movie_id] |]; gateway;
    [| split; [reflexivity | exists []; now rewrite app_nil_r]].
  destruct (find_current movie_id (movie_queue s)); gateway;
    [| split; [reflexivity | exists []; now rewrite app_nil_r]].
  destruct (perform_action_frame w action movie_id s t c) as (Hp & Hs & _).
  destruct (value (perform_action w action movie_id s t c)) as [s1 said] eqn:Ea.
  cbn [fst] in Hp, Hs.
  destruct (retire_current_keeps movie_id s1) as (Hrp & _ & _).
  destruct (retire_current_grows movie_id s1) as [added1 Hr].
  destruct (is_reject action); gateway.
  - match goal with
    | |- context [next_candidate w user_id ?s2 ?t' ?c'] =>
        destruct (next_candidate_grows w user_id s2 t' c') as (Hnp & added2 & Hn);
        destruct (value (next_candidate w user_id s2 t' c')) as [s3 offered]
    end.
    cbn [fst] in *. gateway. cbn [fst].
    split; [congruence |].
    exists (added1 ++ added2). rewrite Hn, Hr, Hs. now rewrite app_assoc.
  - cbn [fst]. split; [congruence |]. exists added1. now rewrite Hr, Hs.
Qed.

Lemma first_verified_spec :
  forall w movies t c,
    cache (first_verified w movies t c) = c
    /\ forall m, value (first_verified w movies t c) = Some m ->
                 id_truthy (md_id m) = true
                 /\ exists movie, In movie movies /\ md_id m = Some (am_id movie).
Proof.
  intros w movies. induction movies as [| movie rest IH]; intros t c.
  - split; [reflexivity | discriminate].
  - cbn [first_verified].
    destruct (Z.eqb_spec (am_id movie) 0) as [Hz | Hnz]; cbn [negb andb].
    + destruct (IH t c) as [Hc Hv]. split; [exact Hc |].
      intros m Hm. destruct (Hv m Hm) as (Hid & mv & Hin & Heq).
      split; [exact Hid |]. exists mv. split; [now right | exact Heq].
    + destruct (PyStr.truthy (am_title movie)).
      * gateway.
        destruct (fetch_poster_calls w (am_id movie) (am_title movie) t c)
          as [Hcalls Hcache].
        rewrite Hcache, Hcalls.
        destruct (value (fetch_poster_and_verify_movie w (am_id movie)
                           (am_title movie) t c)) as [poster [details |]]; gateway.
        -- split; [reflexivity |]. intros m Hm. injection Hm as <-. cbn [md_id].
           split; [simpl; now apply negb_true_iff, Z.eqb_neq |].
           exists movie. split; [now left | reflexivity].
        -- destruct (IH (t + List.length [MovieDetail (am_id movie)]) c) as [Hc Hv].
           split; [exact Hc |].
           intros m Hm. destruct (Hv m Hm) as (Hid & mv & Hin & Heq).
           split; [exact Hid |]. exists mv. split; [now right | exact Heq].
      * destruct (IH t c) as [Hc Hv]. split; [exact Hc |].
        intros m Hm. destruct (Hv m Hm) as (Hid & mv & Hin & Heq).
        split; [exact Hid |]. exists mv. split; [now right | exact Heq].
Qed.

(** The tool's write is the one of [set_cached_movie]. *)
Lemma tool_store_set :
  forall c lookup,
    tool_store c lookup
    = if PyDict.mem (fst lookup) c then c
      else set_cached_movie (fst lookup) (with_id (fst lookup) (snd lookup)) c.
Proof. intros c lookup. reflexivity. Qed.

Lemma tool_store_reachable :
  forall lookups c,
    cache_reachable c -> cache_reachable (fold_left tool_store lookups c).
Proof.
  induction lookups as [| lookup rest IH]; intros c Hc; [exact Hc |].
  cbn [fold_left]. apply IH. rewrite tool_store_set.
  destruct (PyDict.mem (fst lookup) c); [exact Hc | now constructor].
Qed.

Lemma get_agent_response_out :
  forall w user_id user_message t c,
    value (get_agent_response w user_id user_message t c)
    = w_agent w t user_id user_message
    /\ cache (get_agent_response w user_id user_message t c)
       = fold_left tool_store (w_agent_lookups w t user_id user_message) c
    /\ calls (get_agent_response w user_id user_message t c)
       = [AskAgent user_id user_message].
Proof. intros. unfold get_agent_response. gateway. repeat split. Qed.

Lemma prefetch_next_movie_outcome :
  forall w user_id started s t c,
    cache (prefetch_next_movie w user_id started s t c)
    = (if PyStr.truthy (original_prompt started)
       then fold_left tool_store
              (w_agent_lookups w t user_id
                 (prefetch_prompt (original_prompt started) (suggested_movies started)))
              c
       else c)
    /\ (value (prefetch_next_movie w user_id started s t c) = s
        \/ exists m,
            value (prefetch_next_movie w user_id started s t c)
            = set_prefetched (Held m) (Held (original_prompt started)) s
            /\ id_truthy (md_id m) = true).
Proof.
  intros w user_id started s t c. unfold prefetch_next_movie.
  destruct (PyStr.truthy (original_prompt started)); cbn [negb];
    [| split; [reflexivity | now left]].
  gateway.
  match goal with
  | |- context [get_agent_response w user_id ?prompt t c] =>
      destruct (get_agent_response_out w user_id prompt t c) as (Hv0 & Hc0 & Hl0);
      rewrite Hv0, Hc0, Hl0
  end.
  destruct (w_agent w t user_id _) as [| | movies]; gateway;
    try (split; [reflexivity | now left]).
  match goal with
  | |- context [first_verified w movies ?t1 ?c1] =>
      destruct (first_verified_spec w movies t1 c1) as [Hc Hv];
      destruct (value (first_verified w movies t1 c1)) as [m |] eqn:E
  end; gateway; rewrite Hc.
  - split; [reflexivity |]. right. exists m. split; [reflexivity |].
    now destruct (Hv m eq_refl).
  - split; [reflexivity | now left].
Qed.

(** X16. A prefetch task that finishes after the prompt has changed leaves a
    candidate that is never offered: started under one prompt and finishing
    in a session with another prompt and no standing candidate, it may fill
    the slot, but the check made on the next reject does not use it. *)
Theorem stale_prefetch_is_never_offered :
  forall w user_id started s t c movie_id,
    normalized (original_prompt started) <> normalized (original_prompt s) ->
    (forall m, prefetched_next_movie s <> Held m) ->
    forall s' m,
      check_prefetched
        (retire_current movie_id (value (prefetch_next_movie w user_id started s t c)))
      <> UsePrefetched s' m.
Proof.
  intros w user_id started s t c movie_id Hprompt Hempty s' m Hcheck.
  apply check_prefetched_inv in Hcheck.
  destruct Hcheck as (Hslot & (tag & Htag & Hmatch) & _).
  destruct (retire_current_keeps movie_id
              (value (prefetch_next_movie w user_id started s t c)))
    as (Hp & Hk1 & Hk2).
  rewrite Hk1 in Hslot. rewrite Hk2 in Htag. rewrite Hp in Hmatch.
  destruct (prefetch_next_movie_outcome w user_id started s t c)
    as [_ [Hsame | (m' & Hset & _)]].
  - rewrite Hsame in Hslot. now apply (Hempty m).
  - rewrite Hset in Htag, Hmatch. cbn in Htag, Hmatch.
    injection Htag as <-. contradiction.
Qed.

Lemma stale_prefetch_is_never_offered_witness :
  prefetched_next_movie
    (value (prefetch_next_movie agent_world "user" session_after_message
              session_after_reset 9 []))
  = Held {| md_id := Some 5%Z; md_title := Some "Alpha"; md_rating := (8 # 1)%Q;
            md_poster_url := "https://image.tmdb.org/t/p/w500/alpha.jpg";
            md_trailer_url := ""; md_overview := "A story.";
            md_genres := None; md_runtime := None |}
  /\ forall s' m,
      check_prefetched
        (retire_current "5"
           (value (prefetch_next_movie agent_world "user" session_after_message
                     session_after_reset 9 [])))
      <> UsePrefetched s' m.
Proof.
  split; [vm_compute; reflexivity |].
  apply (stale_prefetch_is_never_offered agent_world "user" session_after_message
           session_after_reset 9 [] "5").
  - vm_compute. discriminate.
  - intros m. vm_compute. discriminate.
Defined.

(** X17. The prefetch task writes nothing of the session but the prefetch
    slot: prompt, queue, suggested ids and markers are as it found them;
    the candidate it stores has a non-zero id and is tagged with the prompt
    of the session the task was started in. The detail cache is changed
    only by what the agent's tool [get_movie_details] stores during the
    run, which leaves a cache the program can build; started without a
    prompt the task asks nobody and changes nothing. *)
Theorem prefetch_writes_only_the_slot :
  forall w user_id started s t c,
    original_prompt (value (prefetch_next_movie w user_id started s t c))
    = original_prompt s
    /\ movie_queue (value (prefetch_next_movie w user_id started s t c))
       = movie_queue s
    /\ suggested_movies (value (prefetch_next_movie w user_id started s t c))
       = suggested_movies s
    /\ watching (value (prefetch_next_movie w user_id started s t c)) = watching s
    /\ cache (prefetch_next_movie w user_id started s t c)
       = (if PyStr.truthy (original_prompt started)
          then fold_left tool_store
                 (w_agent_lookups w t user_id
                    (prefetch_prompt (original_prompt started)
                                     (suggested_movies started)))
                 c
          else c)
    /\ (cache_reachable c ->
        cache_reachable (cache (prefetch_next_movie w user_id started s t c)))
    /\ (forall m,
           prefetched_next_movie (value (prefetch_next_movie w user_id started s t c))
           = Held m ->
           prefetched_next_movie s = Held m
           \/ (prefetched_query (value (prefetch_next_movie w user_id started s t c))
               = Held (original_prompt started)
               /\ id_truthy (md_id m) = true))
    /\ (original_prompt started = "" ->
        value (prefetch_next_movie w user_id started s t c) = s
        /\ cache (prefetch_next_movie w user_id started s t c) = c
        /\ calls (prefetch_next_movie w user_id started s t c) = []).
Proof.
  intros w user_id started s t c.
  assert (Hquiet : original_prompt started = "" ->
                   value (prefetch_next_movie w user_id started s t c) = s
                   /\ cache (prefetch_next_movie w user_id started s t c) = c
                   /\ calls (prefetch_next_movie w user_id started s t c) = []).
  { intros Hempty. unfold prefetch_next_movie. rewrite Hempty. repeat split. }
  assert (Hreach : cache_reachable c ->
                   cache_reachable (cache (prefetch_next_movie w user_id started s t c))).
  { intros Hc. rewrite (proj1 (prefetch_next_movie_outcome w user_id started s t c)).
    destruct (PyStr.truthy (original_prompt started)); [| exact Hc].
    now apply tool_store_reachable. }
  destruct (prefetch_next_movie_outcome w user_id started s t c)
    as [Hcache [Hsame | (m' & Hset & Hid)]].
  - rewrite Hsame in *.
    split; [reflexivity |]. split; [reflexivity |]. split; [reflexivity |].
    split; [reflexivity |]. split; [exact Hcache |]. split; [exact Hreach |].
    split; [intros m Hm; now left | exact Hquiet].
  - rewrite Hset in *. cbn [set_prefetched original_prompt movie_queue
                            suggested_movies watching prefetched_next_movie
                            prefetched_query].
    split; [reflexivity |]. split; [reflexivity |]. split; [reflexivity |].
    split; [reflexivity |]. split; [exact Hcache |]. split; [exact Hreach |].
    split; [| exact Hquiet].
    intros m Hm. injection Hm as <-. right. now split.
Qed.

(** The ways [agent_path] ends: with an apology and the session as it was,
    or with an offer stored at the head of the queue. *)
Lemma agent_path_outcome :
  forall w user_id user_message s t c,
    (fst (value (agent_path w user_id user_message s t c)) = s
     /\ (snd (value (agent_path w user_id user_message s t c)) = [Say NothingForRequest]
         \/ snd (value (agent_path w user_id user_message s t c)) = [Say NothingFound]))
    \/ exists m rest,
        movie_queue (fst (value (agent_path w user_id user_message s t c))) = m :: rest
        /\ snd (value (agent_path w user_id user_message s t c)) = [Offer m]
        /\ (suggested_movies (fst (value (agent_path w user_id user_message s t c)))
            = suggested_movies s ++ [md_id m]
            \/ suggested_movies (fst (value (agent_path w user_id user_message s t c)))
               = [md_id m])
        /\ original_prompt (fst (value (agent_path w user_id user_message s t c)))
           = original_prompt s
        /\ prefetched_next_movie (fst (value (agent_path w user_id user_message s t c)))
           = prefetched_next_movie s
        /\ prefetched_query (fst (value (agent_path w user_id user_message s t c)))
           = prefetched_query s.
Proof.
  intros w user_id user_message s t c. unfold agent_path. gateway.
  assert (Hoffer : forall movies s1 out,
             offer_result movies s = Some (s1, out) ->
             exists m rest,
               movie_queue s1 = m :: rest /\ out = [Offer m]
               /\ (suggested_movies s1 = suggested_movies s ++ [md_id m]
                   \/ suggested_movies s1 = [md_id m])
               /\ original_prompt s1 = original_prompt s
               /\ prefetched_next_movie s1 = prefetched_next_movie s
               /\ prefetched_query s1 = prefetched_query s).
  { intros movies s1 out H. apply offer_result_frame in H.
    destruct H as (f & r & -> & -> & Hq & Hs & Hp & H1 & H2).
    exists f, r. repeat split; auto. }
  destruct (get_agent_response_out w user_id user_message t c) as (Hv0 & Hc0 & Hl0).
  rewrite Hv0, ?Hc0, ?Hl0.
  destruct (w_agent w t user_id user_message) as [| | movies]; gateway.
  - match goal with
    | |- context [offer_result ?ms s] =>
        destruct (offer_result ms s) as [[s1 out] |] eqn:Eo
    end; gateway; [right; now apply (Hoffer _ _ _ Eo) |].
    destruct (negb (is_christmas_query user_message)); gateway;
      [| left; cbn; auto].
    match goal with
    | |- context [discover_fallback ?w' ?tx ?ex ?rs ?dv s ?t' ?c'] =>
        destruct (value (discover_fallback w' tx ex rs dv s t' c'))
          as [[s1 out] |] eqn:Ed
    end; gateway; [| left; cbn; auto].
    apply discover_fallback_frame in Ed.
    destruct Ed as (m & -> & Hq & Hs & Hp & H1 & H2).
    right. exists m, []. cbn [fst snd]. repeat split; auto.
  - match goal with
    | |- context [offer_result ?ms s] =>
        destruct (offer_result ms s) as [[s1 out] |] eqn:Eo
    end; gateway; [right; now apply (Hoffer _ _ _ Eo) |].
    match goal with
    | |- context [offer_result ?ms s] =>
        destruct (offer_result ms s) as [[s1 out] |] eqn:Eo2
    end; gateway; [right; now apply (Hoffer _ _ _ Eo2) | left; cbn; auto].
  - match goal with
    | |- context [offer_result ?ms s] =>
        destruct (offer_result ms s) as [[s1 out] |] eqn:Eo
    end; gateway; [right; now apply (Hoffer _ _ _ Eo) |].
    match goal with
    | |- context [offer_result ?ms s] =>
        destruct (offer_result ms s) as [[s1 out] |] eqn:Eo2
    end; gateway; [right; now apply (Hoffer _ _ _ Eo2) | left; cbn; auto].
Qed.

(** X18. A message with a new prompt starts the session afresh: the prompt
    is stored, the prefetch slot is set to [None], and either nothing is
    offered and queue and suggested ids are empty, or one candidate is
    offered, which heads the queue and whose id is the only suggested id. *)
Theorem new_prompt_resets_session :
  forall w u user_id s t c,
    not_for_bot u = false ->
    normalized (original_prompt s) <> normalized (u_text u) ->
    original_prompt (fst (value (handle_message w u user_id s t c))) = u_text u
    /\ prefetched_next_movie (fst (value (handle_message w u user_id s t c))) = PyNone
    /\ prefetched_query (fst (value (handle_message w u user_id s t c))) = PyNone
    /\ ((movie_queue (fst (value (handle_message w u user_id s t c))) = []
         /\ suggested_movies (fst (value (handle_message w u user_id s t c))) = []
         /\ (snd (value (handle_message w u user_id s t c)) = [Say NothingForRequest]
             \/ snd (value (handle_message w u user_id s t c)) = [Say NothingFound]))
        \/ exists m rest,
            movie_queue (fst (value (handle_message w u user_id s t c))) = m :: rest
            /\ suggested_movies (fst (value (handle_message w u user_id s t c)))
               = [md_id m]
            /\ snd (value (handle_message w u user_id s t c)) = [Offer m]).
Proof.
  intros w u user_id s t c Hfor Hnew. unfold handle_message. rewrite Hfor.
  assert (Hneq : String.eqb (normalized (original_prompt s)) (normalized (u_text u))
                 = false) by now apply String.eqb_neq.
  rewrite Hneq. cbn [negb].
  set (s0 := set_prompt (u_text u)
               (set_suggested [] (set_prefetched PyNone PyNone (set_queue [] s)))).
  assert (Hagent : forall t1 c1,
             let out := value (agent_path w user_id (u_text u) s0 t1 c1) in
             original_prompt (fst out) = u_text u
             /\ prefetched_next_movie (fst out) = PyNone
             /\ prefetched_query (fst out) = PyNone
             /\ ((movie_queue (fst out) = [] /\ suggested_movies (fst out) = []
                  /\ (snd out = [Say NothingForRequest] \/ snd out = [Say NothingFound]))
                 \/ exists m rest,
                     movie_queue (fst out) = m :: rest
                     /\ suggested_movies (fst out) = [md_id m]
                     /\ snd out = [Offer m])).
  { intros t1 c1 out. subst out.
    destruct (agent_path_outcome w user_id (u_text u) s0 t1 c1)
      as [[Hs Hsay] | (m & rest & Hq & Hout & Hsug & Hp & H1 & H2)].
    - rewrite Hs. repeat split; auto.
    - rewrite Hp, H1, H2. repeat split; auto.
      right. exists m, rest. repeat split; auto.
      destruct Hsug as [Hsug | Hsug]; exact Hsug. }
  destruct (is_actor_query (u_text u)); [| apply Hagent].
  gateway.
  match goal with
  | |- context [offer_result ?ms s0] =>
      destruct (offer_result ms s0) as [[s1 out] |] eqn:Eo
  end; gateway; [| apply Hagent].
  apply offer_result_frame in Eo.
  destruct Eo as (f & r & Hm & -> & Hq & Hs & Hp & H1 & H2).
  cbn [fst snd]. rewrite Hp, H1, H2, Hq, Hs, Hm.
  repeat split; auto. right. exists f, r. repeat split; auto.
Qed.

Lemma new_prompt_resets_session_witness :
  original_prompt
    (fst (value (handle_message credits_world hanks_update "user"
                   session_after_reset 9 []))) = u_text hanks_update
  /\ prefetched_next_movie
       (fst (value (handle_message credits_world hanks_update "user"
                      session_after_reset 9 []))) = PyNone
  /\ prefetched_query
       (fst (value (handle_message credits_world hanks_update "user"
                      session_after_reset 9 []))) = PyNone
  /\ ((movie_queue
         (fst (value (handle_message credits_world hanks_update "user"
                        session_after_reset 9 []))) = []
       /\ suggested_movies
            (fst (value (handle_message credits_world hanks_update "user"
                           session_after_reset 9 []))) = []
       /\ (snd (value (handle_message credits_world hanks_update "user"
                         session_after_reset 9 [])) = [Say NothingForRequest]
           \/ snd (value (handle_message credits_world hanks_update "user"
                            session_after_reset 9 [])) = [Say NothingFound]))
      \/ exists m rest,
          movie_queue
            (fst (value (handle_message credits_world hanks_update "user"
                           session_after_reset 9 []))) = m :: rest
          /\ suggested_movies
               (fst (value (handle_message credits_world hanks_update "user"
                              session_after_reset 9 []))) = [md_id m]
          /\ snd (value (handle_message credits_world hanks_update "user"
                           session_after_reset 9 [])) = [Offer m]).
Proof.
  apply (new_prompt_resets_session credits_world hanks_update "user"
           session_after_reset 9 []).
  - reflexivity.
  - vm_compute. discriminate.
Defined.

Lemma find_after_filter_out :
  forall (A : Type) (p : A -> bool) (l : list A),
    find p (filter (fun x => negb (p x)) l) = None.
Proof.
  intros A p l. induction l as [| x l IH]; simpl; [reflexivity |].
  destruct (p x) eqn:E; simpl; [exact IH | now rewrite E].
Qed.

Lemma retire_current_spec :
  forall movie_id s,
    find_current movie_id (movie_queue (retire_current movie_id s)) = None
    /\ watching (retire_current movie_id s) = watching s
    /\ (forall z, PyStr.int_of_string movie_id = Some z ->
                  is_suggested (Some z) (suggested_movies (retire_current movie_id s))
                  = true).
Proof.
  intros movie_id s. unfold retire_current, find_current.
  destruct (PyStr.int_of_string movie_id) as [z |].
  - cbn [set_queue suggested_movies movie_queue].
    destruct (is_suggested (Some z) (suggested_movies s)) eqn:E;
      cbn [append_suggested set_suggested movie_queue watching suggested_movies set_queue];
      (split; [apply find_after_filter_out |]); (split; [reflexivity |]);
      intros z' Hz; injection Hz as <-; [exact E | apply is_suggested_last].
  - cbn [set_queue movie_queue watching].
    split; [apply find_after_filter_out |]. split; [reflexivity | discriminate].
Qed.




(** *** Decimal texts: [int(str(z))] *)

Lemma lstrip_int_unchanged :
  forall s, PyStr.all_chars (fun ch => negb (PyStr.isblank_int ch)) s = true ->
            PyStr.lstrip_int s = s.
Proof.
  intros [| ch s] H; [reflexivity |]. simpl in *.
  apply andb_true_iff in H. destruct H as [H _].
  apply negb_true_iff in H. now rewrite H.
Qed.

Lemma rstrip_int_unchanged :
  forall s, PyStr.all_chars (fun ch => negb (PyStr.isblank_int ch)) s = true ->
            PyStr.rstrip_int s = s.
Proof.
  induction s as [| ch s IH]; intros H; [reflexivity |].
  simpl in H. apply andb_true_iff in H. destruct H as [Hch Hs].
  apply negb_true_iff in Hch.
  cbn [PyStr.rstrip_int]. rewrite (IH Hs). destruct s; [now rewrite Hch | reflexivity].
Qed.

Lemma strip_int_unchanged :
  forall s, PyStr.all_chars (fun ch => negb (PyStr.isblank_int ch)) s = true ->
            PyStr.rstrip_int (PyStr.lstrip_int s) = s.
Proof.
  intros s H. rewrite (lstrip_int_unchanged s H).
  now apply rstrip_int_unchanged.
Qed.

Lemma uint_text_no_blank :
  forall d, PyStr.all_chars (fun ch => negb (PyStr.isblank_int ch))
              (NilEmpty.string_of_uint d) = true.
Proof. induction d; simpl; auto. Qed.

Lemma uint_text_no_underscore :
  forall d, PyStr.contains "_" (NilEmpty.string_of_uint d) = false.
Proof. induction d; simpl; auto. Qed.

Lemma digits_value_uint_acc :
  forall d acc prev,
    prev = true \/ d <> Decimal.Nil ->
    PyStr.digits_value (Z.pos acc) prev (NilEmpty.string_of_uint d)
    = Some (Z.pos (Pos.of_uint_acc d acc)).
Proof.
  induction d; intros acc prev Hprev;
    try (cbn [NilEmpty.string_of_uint PyStr.digits_value Pos.of_uint_acc];
         change (PyStr.isdigit _) with true; cbv iota;
         match goal with
         | |- PyStr.digits_value ?v true _ = Some (Z.pos (Pos.of_uint_acc _ ?a)) =>
             replace v with (Z.pos a) by (vm_compute (PyStr.code _ - 48); lia)
         end;
         apply IHd; left; reflexivity).
  destruct Hprev as [-> | H]; [reflexivity | now contradiction H].
Qed.

Lemma digits_value_uint :
  forall d prev,
    prev = true \/ d <> Decimal.Nil ->
    PyStr.digits_value 0%Z prev (NilEmpty.string_of_uint d) = Some (Z.of_uint d).
Proof.
  induction d; intros prev Hprev.
  - destruct Hprev as [-> | H]; [reflexivity | now contradiction H].
  - cbn [NilEmpty.string_of_uint PyStr.digits_value].
    change (PyStr.isdigit _) with true; cbv iota.
    change (10 * 0 + Z.of_nat (PyStr.code "0" - 48))%Z with 0%Z.
    change (Z.of_uint (Decimal.D0 d)) with (Z.of_uint d).
    apply IHd. left; reflexivity.
  - apply (digits_value_uint_acc d 1 true). left; reflexivity.
  - apply (digits_value_uint_acc d 2 true). left; reflexivity.
  - apply (digits_value_uint_acc d 3 true). left; reflexivity.
  - apply (digits_value_uint_acc d 4 true). left; reflexivity.
  - apply (digits_value_uint_acc d 5 true). left; reflexivity.
  - apply (digits_value_uint_acc d 6 true). left; reflexivity.
  - apply (digits_value_uint_acc d 7 true). left; reflexivity.
  - apply (digits_value_uint_acc d 8 true). left; reflexivity.
  - apply (digits_value_uint_acc d 9 true). left; reflexivity.
Qed.

Lemma int_of_uint_text :
  forall d, d <> Decimal.Nil ->
    PyStr.int_of_string (NilEmpty.string_of_uint d) = Some (Z.of_uint d).
Proof.
  intros d Hd. unfold PyStr.int_of_string.
  rewrite (strip_int_unchanged _ (uint_text_no_blank d)).
  rewrite <- (digits_value_uint d false (or_intror Hd)).
  destruct d; [now contradiction Hd | reflexivity ..].
Qed.

Lemma int_of_id_text :
  forall z, PyStr.int_of_string (id_text (Some z)) = Some z.
Proof.
  intros z. rewrite <- (DecimalZ.of_to z) at 2.
  destruct z as [| p | p]; [reflexivity | |];
    pose proof (DecimalPos.Unsigned.to_uint_nonnil p) as Hnil;
    cbn [id_text Z.to_int NilZero.string_of_int Z.of_int];
    unfold NilZero.string_of_uint;
    destruct (Pos.to_uint p) as [| d | d | d | d | d | d | d | d | d | d] eqn:E;
    try (now contradiction Hnil); rewrite <- E.
  all: try (apply int_of_uint_text; rewrite E; discriminate).
  all: unfold PyStr.int_of_string;
    rewrite (strip_int_unchanged (String "-" (NilEmpty.string_of_uint (Pos.to_uint p))));
    [| simpl; apply uint_text_no_blank];
    cbv beta iota;
    rewrite (digits_value_uint (Pos.to_uint p) false);
    [reflexivity | right; rewrite E; discriminate].
Qed.

Lemma id_text_inj :
  forall a b, id_text a = id_text b -> a = b.
Proof.
  assert (Hnone : PyStr.int_of_string (id_text None) = None) by reflexivity.
  intros [za |] [zb |] H; [| | | reflexivity].
  - pose proof (int_of_id_text za) as Ha. rewrite H, int_of_id_text in Ha.
    now injection Ha as ->.
  - pose proof (int_of_id_text za) as Ha. rewrite H, Hnone in Ha. discriminate.
  - pose proof (int_of_id_text zb) as Hb. rewrite <- H, Hnone in Hb. discriminate.
Qed.

Lemma id_text_no_underscore :
  forall id, PyStr.contains "_" (id_text id) = false.
Proof.
  intros [z |]; [| reflexivity].
  destruct z as [| p | p]; [reflexivity | |];
    cbn [id_text Z.to_int NilZero.string_of_int]; unfold NilZero.string_of_uint;
    pose proof (uint_text_no_underscore (Pos.to_uint p)) as H;
    destruct (Pos.to_uint p); try reflexivity; try exact H.
  all: change (PyStr.contains "_" (String "-" ?s)) with (PyStr.contains "_" s) in |- *;
    try exact H.
Qed.

(** *** The rating keyboard and its callback *)

Lemma contains_underscore_cons :
  forall ch s,
    PyStr.contains "_" (String ch s) = false ->
    Ascii.eqb ch "_" = false /\ PyStr.contains "_" s = false.
Proof.
  intros ch s H. cbn [PyStr.contains String.prefix] in H.
  apply orb_false_iff in H. destruct H as [Hhead Htail].
  split; [| exact Htail].
  destruct (Ascii.eqb_spec ch "_") as [-> | Hne]; [| reflexivity].
  destruct (ascii_dec "_" "_") as [_ | Hne]; [| now contradiction Hne].
  destruct s; discriminate.
Qed.

Lemma rev_string_twice :
  forall s acc1 acc2,
    PyStr.rev_string acc2 (PyStr.rev_string acc1 s)
    = PyStr.rev_string (s ++ acc2)%string acc1.
Proof.
  induction s as [| ch s IH]; intros acc1 acc2; [reflexivity |].
  cbn [PyStr.rev_string]. rewrite IH. reflexivity.
Qed.

Lemma string_app_empty : forall s : string, (s ++ "")%string = s.
Proof. induction s as [| ch s IH]; [reflexivity | simpl; now rewrite IH]. Qed.

Lemma split_on_aux_field :
  forall field cur rest,
    PyStr.contains "_" field = false ->
    PyStr.split_on_aux "_" cur (field ++ String "_" rest)%string
    = PyStr.rev_string "" (PyStr.rev_string cur field)
        :: PyStr.split_on_aux "_" "" rest.
Proof.
  induction field as [| ch field IH]; intros cur rest H; [reflexivity |].
  apply contains_underscore_cons in H. destruct H as [Hch Hfield].
  cbn [append PyStr.split_on_aux PyStr.rev_string]. rewrite Hch.
  now apply IH.
Qed.

Lemma split_on_aux_last :
  forall field cur,
    PyStr.contains "_" field = false ->
    PyStr.split_on_aux "_" cur field
    = [PyStr.rev_string "" (PyStr.rev_string cur field)].
Proof.
  induction field as [| ch field IH]; intros cur H; [reflexivity |].
  apply contains_underscore_cons in H. destruct H as [Hch Hfield].
  cbn [PyStr.split_on_aux PyStr.rev_string]. rewrite Hch.
  now apply IH.
Qed.

Lemma split_rating_data :
  forall movie_id rating_text,
    PyStr.contains "_" movie_id = false ->
    PyStr.contains "_" rating_text = false ->
    PyStr.split_on "_" ("rate_" ++ movie_id ++ "_" ++ rating_text)%string
    = ["rate"; movie_id; rating_text].
Proof.
  intros movie_id rating_text Hm Hr. unfold PyStr.split_on.
  cbn [append PyStr.split_on_aux Ascii.eqb Bool.eqb andb PyStr.rev_string].
  rewrite (split_on_aux_field movie_id "" rating_text Hm).
  rewrite (split_on_aux_last rating_text "" Hr).
  rewrite !rev_string_twice. cbn [PyStr.rev_string].
  now rewrite !string_app_empty.
Qed.

Lemma clear_watching_forgets :
  forall movie_id s, mem_string movie_id (watching (clear_watching movie_id s)) = false.
Proof.
  intros movie_id s. unfold clear_watching, mem_string. cbn [watching].
  induction (watching s) as [| x l IH]; [reflexivity |].
  cbn [filter]. destruct (String.eqb x movie_id) eqn:E; cbn [negb]; [exact IH |].
  cbn [existsb]. rewrite IH, orb_false_r.
  first [ exact E | now rewrite String.eqb_sym ].
Qed.

Lemma rating_keyboard_rows :
  forall movie_id,
    rating_keyboard movie_id
    = [ map (rating_button movie_id) [1; 2; 3; 4; 5];
        map (rating_button movie_id) [6; 7; 8; 9; 10] ].
Proof. intros movie_id. reflexivity. Qed.

(** X20. The rating keyboard has two rows of five buttons, and every one of
    them is understood by the rating handler when the movie id has no
    underscore: button [i] records the rating [i] between 1 and 10 under the
    same movie id, and takes the watching marker away, so that a rating job
    that runs afterwards asks nothing. *)
Theorem rating_buttons_round_trip :
  forall w user_id s t c movie_id,
    PyStr.contains "_" movie_id = false ->
    map (@List.length (string * string)) (rating_keyboard movie_id) = [5; 5]
    /\ forall label data,
         In (label, data) (List.concat (rating_keyboard movie_id)) ->
         exists rating,
           (1 <= rating <= 10)%Z
           /\ label = (id_text (Some rating) ++ "/10")%string
           /\ value (handle_rating_callback w data user_id s t c)
              = (clear_watching movie_id s, Some (rating, rating_tier rating))
           /\ ask_for_rating movie_id
                (fst (value (handle_rating_callback w data user_id s t c)))
              = None.
Proof.
  intros w user_id s t c movie_id Hid.
  split; [reflexivity |].
  intros label data Hin. rewrite rating_keyboard_rows in Hin.
  cbn [List.concat] in Hin. rewrite app_nil_r, <- map_app in Hin.
  apply in_map_iff in Hin. destruct Hin as (i & Hbutton & Hi).
  assert (Hrange : (1 <= Z.of_nat i <= 10)%Z).
  { cbn [app In] in Hi.
    repeat (destruct Hi as [<- | Hi]; [cbn; lia |]). contradiction. }
  unfold rating_button in Hbutton. injection Hbutton as <- <-.
  exists (Z.of_nat i).
  assert (Hvalue : value (handle_rating_callback w
                            ("rate_" ++ movie_id ++ "_" ++ nat_text i)%string
                            user_id s t c)
                   = (clear_watching movie_id s,
                      Some (Z.of_nat i, rating_tier (Z.of_nat i)))).
  { unfold handle_rating_callback.
    rewrite (split_rating_data movie_id (nat_text i) Hid
               (id_text_no_underscore (Some (Z.of_nat i)))).
    cbn [String.eqb Ascii.eqb Bool.eqb andb].
    unfold nat_text. rewrite int_of_id_text. gateway. reflexivity. }
  assert (Hasks : forall (out : Session * option (Z * RatingTier)) recorded,
             out = (clear_watching movie_id s, recorded) ->
             ask_for_rating movie_id (fst out) = None).
  { intros out recorded ->. cbn [fst]. unfold ask_for_rating.
    now rewrite clear_watching_forgets. }
  split; [exact Hrange |]. split; [reflexivity |]. split; [exact Hvalue |].
  eapply Hasks. exact Hvalue.
Qed.

Lemma rating_buttons_round_trip_witness :
  map (@List.length (string * string)) (rating_keyboard "5") = [5; 5]
  /\ forall label data,
       In (label, data) (List.concat (rating_keyboard "5")) ->
       exists rating,
         (1 <= rating <= 10)%Z
         /\ label = (id_text (Some rating) ++ "/10")%string
         /\ value (handle_rating_callback credits_world data "user"
                     (add_watching "5" session_after_message) 5 [])
            = (clear_watching "5" (add_watching "5" session_after_message),
               Some (rating, rating_tier rating))
         /\ ask_for_rating "5"
              (fst (value (handle_rating_callback credits_world data "user"
                             (add_watching "5" session_after_message) 5 [])))
            = None.
Proof.
  apply (rating_buttons_round_trip credits_world "user"
           (add_watching "5" session_after_message) 5 [] "5").
  reflexivity.
Defined.

(** *** The buttons under a candidate *)

Lemma find_current_of_member :
  forall movie queue,
    In movie queue ->
    exists current,
      find_current (id_text (md_id movie)) queue = Some current
      /\ md_id current = md_id movie.
Proof.
  intros movie queue Hin. unfold find_current.
  destruct (find (fun m => String.eqb (id_text (md_id m)) (id_text (md_id movie))) queue)
    as [current |] eqn:Hfind.
  - exists current. split; [reflexivity |].
    apply find_some in Hfind. destruct Hfind as [_ Heq].
    apply String.eqb_eq in Heq. now apply id_text_inj.
  - apply (find_none _ _ Hfind) in Hin. now rewrite String.eqb_refl in Hin.
Qed.

Lemma is_suggested_app_l :
  forall id l added, is_suggested id l = true -> is_suggested id (l ++ added) = true.
Proof.
  intros id l added H. unfold is_suggested in *. rewrite existsb_app, H. reflexivity.
Qed.

Lemma split_callback_of_button :
  forall movie data,
    In data (suggestion_buttons movie) ->
    exists action,
      split_callback data = Some (action, id_text (md_id movie))
      /\ (action = "watch" \/ is_reject action = true).
Proof.
  intros movie data Hin. unfold suggestion_buttons in Hin.
  destruct Hin as [<- | [<- | [<- | []]]].
  - exists "watch". split; [reflexivity | left; reflexivity].
  - exists "dislike". split; [reflexivity | right; reflexivity].
  - exists "watched". split; [reflexivity | right; reflexivity].
Qed.

(** X21. A button under a candidate that is still in the queue always finds
    it: the callback data splits into the action and the text of the id,
    the handler finds a queue entry with that id, acknowledges the press
    instead of reporting a missing movie, and, when the id is an integer,
    leaves that integer in [suggested_movies]. *)
Theorem offered_button_finds_its_movie :
  forall w user_id s t c movie data,
    In movie (movie_queue s) ->
    In data (suggestion_buttons movie) ->
    exists action current,
      split_callback data = Some (action, id_text (md_id movie))
      /\ find_current (id_text (md_id movie)) (movie_queue s) = Some current
      /\ md_id current = md_id movie
      /\ In (Say Acknowledged)
            (snd (value (handle_button_callback w data user_id s t c)))
      /\ ~ In (Say NotInQueue)
              (snd (value (handle_button_callback w data user_id s t c)))
      /\ forall z,
           md_id movie = Some z ->
           is_suggested (Some z)
             (suggested_movies
                (fst (value (handle_button_callback w data user_id s t c))))
           = true.
Proof.
  intros w user_id s t c movie data Hqueue Hbutton.
  destruct (split_callback_of_button movie data Hbutton) as (action & Hsplit & Haction).
  destruct (find_current_of_member movie (movie_queue s) Hqueue)
    as (current & Hfind & Hid).
  exists action, current.
  split; [exact Hsplit |]. split; [exact Hfind |]. split; [exact Hid |].
  destruct Haction as [-> | Hreject].
  - unfold handle_button_callback. rewrite Hsplit, Hfind. gateway.
    unfold perform_action. cbn [String.eqb Ascii.eqb Bool.eqb andb]. gateway.
    cbn [is_reject String.eqb Ascii.eqb Bool.eqb orb andb]. gateway.
    cbn [fst snd].
    split; [right; left; reflexivity |].
    split; [intros [H | [H | []]]; discriminate |].
    intros z Hz.
    destruct (retire_current_spec (id_text (md_id movie))
                (add_watching (id_text (md_id movie)) s)) as (_ & _ & Hsuggested).
    apply Hsuggested. rewrite Hz. apply int_of_id_text.
  - destruct (handle_button_callback_reject w data user_id s t c action
                (id_text (md_id movie)) current Hsplit Hreject Hfind) as (t' & Hvalue).
    rewrite Hvalue. cbn [fst snd app].
    destruct (next_candidate_grows w user_id
                (retire_current (id_text (md_id movie)) s) t' c) as (_ & added & Hadded).
    split; [left; reflexivity |].
    split.
    + intros [H | H]; [discriminate |].
      revert H. unfold next_candidate.
      destruct (check_prefetched _); gateway;
        [intros [H | []]; discriminate | intros [H | []]; discriminate |].
      destruct (filter _ _); gateway; [| intros [H | []]; discriminate].
      match goal with
      | |- context [offer_result ?ms ?s0] =>
          destruct (offer_result ms s0) as [[s1 out] |] eqn:Eo
      end; gateway.
      * apply offer_result_frame in Eo. destruct Eo as (f & r & _ & -> & _).
        intros [H | []]; discriminate.
      * destruct (negb (is_actor_query _)); gateway;
          [| intros [H | []]; discriminate].
        match goal with
        | |- context [value (discover_fallback ?w0 ?p ?ex ?b ?d ?s0 ?t0 ?c0)] =>
            destruct (value (discover_fallback w0 p ex b d s0 t0 c0))
              as [[s2 out2] |] eqn:Ed
        end; gateway; [| intros [H | []]; discriminate].
        apply discover_fallback_frame in Ed. destruct Ed as (m & -> & _).
        intros [H | []]; discriminate.
    + intros z Hz. rewrite Hadded. apply is_suggested_app_l.
      destruct (retire_current_spec (id_text (md_id movie)) s) as (_ & _ & Hsuggested).
      apply Hsuggested. rewrite Hz. apply int_of_id_text.
Qed.

Lemma offered_button_finds_its_movie_witness :
  exists action current,
    split_callback "dislike_77" = Some (action, id_text (md_id prefetched_delta))
    /\ find_current (id_text (md_id prefetched_delta))
         (movie_queue (set_queue [prefetched_delta] session_after_message))
       = Some current
    /\ md_id current = md_id prefetched_delta
    /\ In (Say Acknowledged)
          (snd (value (handle_button_callback credits_world "dislike_77" "user"
                         (set_queue [prefetched_delta] session_after_message) 5 [])))
    /\ ~ In (Say NotInQueue)
            (snd (value (handle_button_callback credits_world "dislike_77" "user"
                           (set_queue [prefetched_delta] session_after_message) 5 [])))
    /\ forall z,
         md_id prefetched_delta = Some z ->
         is_suggested (Some z)
           (suggested_movies
              (fst (value (handle_button_callback credits_world "dislike_77" "user"
                             (set_queue [prefetched_delta] session_after_message)
                             5 []))))
         = true.
Proof.
  apply (offered_button_finds_its_movie credits_world "user"
           (set_queue [prefetched_delta] session_after_message) 5 []
           prefetched_delta "dislike_77").
  - left. reflexivity.
  - right. left. reflexivity.
Defined.

(** ** movie_search.py: get_tmdb_genre_id *)

Lemma genre_of_key_found :
  forall key items genre_id,
    genre_of_key key items = Some genre_id -> In (key, genre_id) items.
Proof.
  intros key items genre_id. induction items as [| [k g] rest IH]; [discriminate |].
  cbn [genre_of_key]. destruct (String.eqb_spec k key) as [-> | _].
  - intros H. injection H as ->. left; reflexivity.
  - intros H. right. now apply IH.
Qed.

Lemma prefix_self : forall s, String.prefix s s = true.
Proof.
  induction s as [| ch s IH]; [reflexivity |].
  cbn [String.prefix]. destruct (ascii_dec ch ch) as [_ | Hne]; [exact IH |].
  now contradiction Hne.
Qed.

Lemma contains_self : forall s, PyStr.contains s s = true.
Proof. intros s. destruct s; cbn [PyStr.contains]; now rewrite prefix_self. Qed.

(** X22. The genre lookup lowers and strips the name first, so a key of the
    table in any case and with blanks around gives the id of the key; it
    answers [None] exactly when no key occurs in the name and the name
    occurs in no key; a blank name occurs in every key, and gets the id of
    the first one, 80. *)
Theorem get_tmdb_genre_id_lookup :
  forall name,
    (forall key genre_id,
        In (key, genre_id) GENRE_MAP ->
        PyStr.strip (PyStr.lower name) = key ->
        get_tmdb_genre_id name = Some genre_id)
    /\ (get_tmdb_genre_id name = None
        <-> forall key genre_id,
              In (key, genre_id) GENRE_MAP ->
              PyStr.contains key (PyStr.strip (PyStr.lower name)) = false
              /\ PyStr.contains (PyStr.strip (PyStr.lower name)) key = false)
    /\ (PyStr.strip (PyStr.lower name) = "" ->
        get_tmdb_genre_id name = Some 80%Z).
Proof.
  intros name. unfold get_tmdb_genre_id.
  set (lowered := PyStr.strip (PyStr.lower name)).
  split; [| split].
  - intros key genre_id Hin Hkey. rewrite Hkey.
    unfold GENRE_MAP in Hin. cbn [In] in Hin.
    repeat (destruct Hin as [Hin | Hin]; [injection Hin as <- <-; reflexivity |]).
    contradiction.
  - split.
    + intros Hnone key genre_id Hin.
      destruct (genre_of_key lowered GENRE_MAP); [discriminate |].
      destruct (find _ GENRE_MAP) as [item |] eqn:Hfind; [discriminate |].
      apply (find_none _ _ Hfind) in Hin. cbn [fst] in Hin.
      now apply orb_false_iff in Hin.
    + intros Hall.
      destruct (genre_of_key lowered GENRE_MAP) as [genre_id |] eqn:Hkey.
      * apply genre_of_key_found in Hkey. apply Hall in Hkey.
        destruct Hkey as [Hkey _]. now rewrite contains_self in Hkey.
      * destruct (find _ GENRE_MAP) as [[key genre_id] |] eqn:Hfind; [| reflexivity].
        apply find_some in Hfind. destruct Hfind as [Hin Hmatch].
        apply Hall in Hin. cbn [fst] in Hmatch.
        destruct Hin as [H1 H2]. rewrite H1, H2 in Hmatch. discriminate.
  - intros ->. reflexivity.
Qed.

(** ** movie_search.py: the cache across a search *)

Lemma deliver_cache_cases :
  forall w from_actor results t c,
    cache (deliver w from_actor results t c) = c
    \/ exists movie_id movie_data,
        get_cached_movie movie_id c = None
        /\ md_id movie_data = Some movie_id
        /\ cache (deliver w from_actor results t c)
           = set_cached_movie movie_id movie_data c.
Proof.
  intros w from_actor results t c. unfold deliver.
  destruct results as [| first_movie followers]; [now left |].
  destruct (m_id first_movie) as [movie_id |]; [| now left].
  destruct (movie_id =? 0)%Z; [now left |].
  gateway.
  destruct (get_cached_movie movie_id c) eqn:Hget; [now left |].
  gateway.
  match goal with
  | |- context [fetch_poster_and_verify_movie w ?a ?b ?t1 ?c1] =>
      destruct (fetch_poster_calls w a b t1 c1) as [_ Hfetch];
      rewrite Hfetch;
      destruct (value (fetch_poster_and_verify_movie w a b t1 c1))
        as [poster [details |]]
  end; gateway; [| now left].
  unfold fetch_movie_videos. gateway.
  right.
  destruct (from_actor && _); gateway; eexists _, _;
    (split; [exact Hget |]); (split; [| reflexivity]); reflexivity.
Qed.

(** X23. A search writes the detail cache at most once, and only through
    [set_cached_movie], for a movie that was not cached, stored under its
    own id: so a cache the program built stays one, and never holds more
    than [MAX_CACHE_SIZE] entries after a search. *)
Theorem fast_movie_search_writes_cache_once :
  forall w query user_id excluded_ids t c,
    cache_reachable c ->
    (cache (fast_movie_search w query user_id excluded_ids t c) = c
     \/ exists movie_id movie_data,
         get_cached_movie movie_id c = None
         /\ md_id movie_data = Some movie_id
         /\ cache (fast_movie_search w query user_id excluded_ids t c)
            = set_cached_movie movie_id movie_data c)
    /\ cache_reachable (cache (fast_movie_search w query user_id excluded_ids t c))
    /\ List.length (cache (fast_movie_search w query user_id excluded_ids t c))
       <= MAX_CACHE_SIZE.
Proof.
  intros w query user_id ex t c Hreach.
  destruct (fast_movie_search_deliver w query user_id ex t c) as (t' & _ & Hcache).
  rewrite Hcache.
  match goal with
  | |- context [deliver w ?fa ?rs t' c] =>
      destruct (deliver_cache_cases w fa rs t' c) as [Hsame | (k & v & Hget & Hid & Hset)]
  end.
  - rewrite Hsame. split; [now left |]. split; [exact Hreach |].
    now apply cache_reachable_sound.
  - rewrite Hset. split; [right; now exists k, v |].
    assert (Hnext : cache_reachable (set_cached_movie k v c)) by now constructor.
    split; [exact Hnext |]. now apply cache_reachable_sound.
Qed.

Lemma fast_movie_search_writes_cache_once_witness :
  (cache (fast_movie_search credits_world "movies with Tom Hanks" "user" [] 0 []) = []
   \/ exists movie_id movie_data,
       get_cached_movie movie_id [] = None
       /\ md_id movie_data = Some movie_id
       /\ cache (fast_movie_search credits_world "movies with Tom Hanks" "user" [] 0 [])
          = set_cached_movie movie_id movie_data [])
  /\ cache_reachable
       (cache (fast_movie_search credits_world "movies with Tom Hanks" "user" [] 0 []))
  /\ List.length
       (cache (fast_movie_search credits_world "movies with Tom Hanks" "user" [] 0 []))
     <= MAX_CACHE_SIZE.
Proof.
  exact (fast_movie_search_writes_cache_once credits_world "movies with Tom Hanks"
           "user" [] 0 [] reach_empty).
Defined.

(** ** movie_search.py: is_actor_query and letter case *)

Ltac each_ascii ch :=
  destruct ch as [b0 b1 b2 b3 b4 b5 b6 b7];
  destruct b0, b1, b2, b3, b4, b5, b6, b7; reflexivity.

Lemma lower_char_idem :
  forall ch, PyStr.lower_char (PyStr.lower_char ch) = PyStr.lower_char ch.
Proof. intros ch. each_ascii ch. Qed.

Lemma isletter_lower_char :
  forall ch, PyStr.isletter (PyStr.lower_char ch) = PyStr.isletter ch.
Proof. intros ch. each_ascii ch. Qed.

Lemma isspace_lower_char :
  forall ch, PyStr.isspace (PyStr.lower_char ch) = PyStr.isspace ch.
Proof. intros ch. each_ascii ch. Qed.

Lemma newline_lower_char :
  forall ch, Ascii.eqb (PyStr.lower_char ch) "010" = Ascii.eqb ch "010".
Proof. intros ch. each_ascii ch. Qed.

Lemma lower_idem : forall s, PyStr.lower (PyStr.lower s) = PyStr.lower s.
Proof.
  induction s as [| ch s IH]; [reflexivity |].
  unfold PyStr.lower in *. cbn [PyStr.map_chars]. now rewrite lower_char_idem, IH.
Qed.

Lemma lower_length : forall s, String.length (PyStr.lower s) = String.length s.
Proof.
  induction s as [| ch s IH]; [reflexivity |].
  unfold PyStr.lower in *. cbn [PyStr.map_chars String.length]. now rewrite IH.
Qed.

Lemma at_end_lower : forall s, Re.at_end (PyStr.lower s) = Re.at_end s.
Proof.
  intros [| ch [| ch' s]]; try reflexivity.
  unfold PyStr.lower. cbn [PyStr.map_chars Re.at_end]. apply newline_lower_char.
Qed.

Lemma found_or_else :
  forall (A : Type) (x y : option A),
    Re.found (match x with Some v => Some v | None => y end)
    = Re.found x || Re.found y.
Proof. intros A [v |] y; reflexivity. Qed.

Lemma run_case_blind :
  forall (R R' : Type) r,
    case_blind r ->
    forall s g g' (k : string -> option string -> option R)
           (k' : string -> option string -> option R'),
      (forall rest g1 g2, Re.found (k rest g1) = Re.found (k' (PyStr.lower rest) g2)) ->
      Re.found (Re.run r s g k) = Re.found (Re.run r (PyStr.lower s) g' k').
Proof.
  intros R R' r. induction r as [| p | a IHa b IHb | a IHa b IHb | greedy a IHa | a IHa |];
    intros Hblind s g g' k k' Hk.
  - apply Hk.
  - destruct s as [| ch s]; [reflexivity |].
    unfold PyStr.lower. cbn [PyStr.map_chars Re.run].
    cbn [case_blind] in Hblind. rewrite Hblind.
    destruct (p ch); [apply Hk | reflexivity].
  - destruct Hblind as [Ha Hb]. cbn [Re.run].
    apply (IHa Ha). intros rest g1 g2. now apply (IHb Hb).
  - destruct Hblind as [Ha Hb]. cbn [Re.run].
    rewrite !found_or_else.
    rewrite (IHa Ha s g g' k k' Hk), (IHb Hb s g g' k k' Hk). reflexivity.
  - cbn [case_blind] in Hblind.
    pose (rounds :=
            fix rounds (n : nat) (s : string) (g : option string) {struct n}
              : option R :=
              match n with
              | O => k s g
              | S n' =>
                  let again (_ : unit) :=
                    Re.run a s g (fun s' g' =>
                      if Nat.ltb (String.length s') (String.length s)
                      then rounds n' s' g' else None) in
                  if greedy then
                    match again tt with
                    | Some x => Some x
                    | None => k s g
                    end
                  else
                    match k s g with
                    | Some x => Some x
                    | None => again tt
                    end
              end).
    pose (rounds' :=
            fix rounds (n : nat) (s : string) (g : option string) {struct n}
              : option R' :=
              match n with
              | O => k' s g
              | S n' =>
                  let again (_ : unit) :=
                    Re.run a s g (fun s' g' =>
                      if Nat.ltb (String.length s') (String.length s)
                      then rounds n' s' g' else None) in
                  if greedy then
                    match again tt with
                    | Some x => Some x
                    | None => k' s g
                    end
                  else
                    match k' s g with
                    | Some x => Some x
                    | None => again tt
                    end
              end).
    change (Re.found (rounds (S (String.length s)) s g)
            = Re.found (rounds' (S (String.length (PyStr.lower s)))
                          (PyStr.lower s) g')).
    rewrite lower_length. generalize (S (String.length s)). intros n.
    revert s g g'.
    induction n as [| n IHn]; intros s g g'; [apply Hk |].
    assert (Hagain :
      Re.found
        (Re.run a s g
           (fun rest g1 =>
              if Nat.ltb (String.length rest) (String.length s)
              then rounds n rest g1 else None))
      = Re.found
          (Re.run a (PyStr.lower s) g'
             (fun rest g1 =>
                if Nat.ltb (String.length rest) (String.length (PyStr.lower s))
                then rounds' n rest g1 else None))).
    { apply (IHa Hblind). intros rest g1 g2. rewrite !lower_length.
      destruct (Nat.ltb (String.length rest) (String.length s));
        [apply IHn | reflexivity]. }
    change (rounds (S n) s g)
      with (if greedy then
              match Re.run a s g
                      (fun rest g1 =>
                         if Nat.ltb (String.length rest) (String.length s)
                         then rounds n rest g1 else None) with
              | Some x => Some x
              | None => k s g
              end
            else
              match k s g with
              | Some x => Some x
              | None =>
                  Re.run a s g
                    (fun rest g1 =>
                       if Nat.ltb (String.length rest) (String.length s)
                       then rounds n rest g1 else None)
              end).
    change (rounds' (S n) (PyStr.lower s) g')
      with (if greedy then
              match Re.run a (PyStr.lower s) g'
                      (fun rest g1 =>
                         if Nat.ltb (String.length rest)
                                    (String.length (PyStr.lower s))
                         then rounds' n rest g1 else None) with
              | Some x => Some x
              | None => k' (PyStr.lower s) g'
              end
            else
              match k' (PyStr.lower s) g' with
              | Some x => Some x
              | None =>
                  Re.run a (PyStr.lower s) g'
                    (fun rest g1 =>
                       if Nat.ltb (String.length rest)
                                  (String.length (PyStr.lower s))
                       then rounds' n rest g1 else None)
              end).
    destruct greedy; rewrite !found_or_else, Hagain, (Hk s g g'); reflexivity.
  - cbn [case_blind] in Hblind. cbn [Re.run].
    apply (IHa Hblind). intros rest g1 g2. apply Hk.
  - cbn [Re.run]. rewrite at_end_lower. destruct (Re.at_end s); [apply Hk | reflexivity].
Qed.

Lemma search_case_blind :
  forall r, case_blind r ->
    forall s, Re.found (Re.search r s) = Re.found (Re.search r (PyStr.lower s)).
Proof.
  intros r Hblind s.
  assert (Hmatch : forall x, Re.found (Re.match_ r x)
                             = Re.found (Re.match_ r (PyStr.lower x))).
  { intros x. unfold Re.match_. apply (run_case_blind _ _ r Hblind). reflexivity. }
  induction s as [| ch s IH].
  - cbn [Re.search]. change (PyStr.lower "") with "". reflexivity.
  - unfold PyStr.lower in *. cbn [PyStr.map_chars Re.search].
    rewrite !found_or_else.
    change (String (PyStr.lower_char ch) (PyStr.map_chars PyStr.lower_char s))
      with (PyStr.map_chars PyStr.lower_char (String ch s)).
    rewrite <- (Hmatch (String ch s)), IH. reflexivity.
Qed.

Lemma actor_name_patterns_case_blind : Forall case_blind actor_name_patterns.
Proof.
  unfold actor_name_patterns, films_re, movies_re, name_pair, name_word.
  repeat constructor;
    cbn [case_blind Re.cats Re.alts Re.lit_ci Re.plus Re.opt Re.chr_ci
         Re.letter Re.space];
    repeat split; intros ch; cbv beta;
    first [ apply isletter_lower_char
          | apply isspace_lower_char
          | now rewrite lower_char_idem ].
Qed.

(** The capitalised-word test of [is_actor_query] never decides: its answer
    is the one of the last line. *)
Lemma is_actor_query_formula :
  forall query,
    is_actor_query query
    = existsb (fun kw => PyStr.contains kw (PyStr.lower query)) actor_keywords
      || ((PyStr.contains "films" (PyStr.lower query)
           || PyStr.contains "movies" (PyStr.lower query))
          && (existsb (fun pattern => Re.found (Re.search pattern query))
                      actor_name_patterns
              || existsb (fun name => PyStr.contains name (PyStr.lower query))
                         known_actor_names)).
Proof.
  intros query. unfold is_actor_query.
  destruct (existsb (fun kw => PyStr.contains kw (PyStr.lower query)) actor_keywords);
    [| now rewrite !andb_false_r].
  rewrite andb_true_r. cbn [orb].
  now destruct (_ && _).
Qed.

Lemma existsb_search_lower :
  forall patterns query,
    Forall case_blind patterns ->
    existsb (fun pattern => Re.found (Re.search pattern query)) patterns
    = existsb (fun pattern => Re.found (Re.search pattern (PyStr.lower query))) patterns.
Proof.
  intros patterns query H. induction H as [| r rest Hr _ IH]; [reflexivity |].
  cbn [existsb]. now rewrite IH, (search_case_blind r Hr query).
Qed.

(** X24. For queries of ASCII characters, letter case never decides whether
    a query is an actor query: two such queries that differ only in the
    case of their letters get the same answer, although the code looks for
    capitalised words. *)
Theorem is_actor_query_ignores_case :
  forall query query',
    PyStr.isascii query = true ->
    PyStr.isascii query' = true ->
    PyStr.lower query = PyStr.lower query' ->
    is_actor_query query = is_actor_query query'.
Proof.
  intros query query' _ _ Hlower.
  rewrite !is_actor_query_formula.
  rewrite (existsb_search_lower _ query actor_name_patterns_case_blind).
  rewrite (existsb_search_lower _ query' actor_name_patterns_case_blind).
  now rewrite Hlower.
Qed.

Lemma is_actor_query_ignores_case_witness :
  is_actor_query "Tom Cruise Films" = is_actor_query "tom cruise films"
  /\ is_actor_query "tom cruise films" = true.
Proof.
  split; [| vm_compute; reflexivity].
  apply (is_actor_query_ignores_case "Tom Cruise Films" "tom cruise films");
    reflexivity.
Defined.

(** ** movie_search.py: extract_actor_name *)

Lemma first_known_actor_some :
  forall query_lower table full_name,
    first_known_actor query_lower table = Some full_name ->
    exists key, In (key, full_name) table /\ PyStr.contains key query_lower = true.
Proof.
  intros query_lower table full_name.
  induction table as [| [key full] rest IH]; [discriminate |].
  cbn [first_known_actor]. destruct (PyStr.contains key query_lower) eqn:E.
  - intros H. injection H as <-. exists key. split; [left; reflexivity | exact E].
  - intros H. destruct (IH H) as (key' & Hin & Hc). exists key'. split; [now right | exact Hc].
Qed.

Lemma first_known_actor_none :
  forall query_lower table,
    first_known_actor query_lower table = None ->
    forall key full_name, In (key, full_name) table ->
                          PyStr.contains key query_lower = false.
Proof.
  intros query_lower table. induction table as [| [key full] rest IH]; [intros _ ? ? [] |].
  cbn [first_known_actor]. destruct (PyStr.contains key query_lower) eqn:E; [discriminate |].
  intros H key' full' [Heq | Hin]; [injection Heq as <- <-; exact E | now apply (IH H key' full')].
Qed.

Lemma title_truthy :
  forall s, PyStr.truthy s = true -> PyStr.truthy (PyStr.title s) = true.
Proof. intros [| ch s] H; [discriminate | reflexivity]. Qed.

Lemma first_pattern_name_truthy :
  forall query patterns name,
    first_pattern_name query patterns = Some name -> PyStr.truthy name = true.
Proof.
  intros query patterns name. induction patterns as [| pattern rest IH]; [discriminate |].
  cbn [first_pattern_name].
  destruct (Re.search pattern query) as [[text |] |]; try exact IH.
  destruct (Nat.ltb 2 (String.length (PyStr.strip text))) eqn:Hlen; [| exact IH].
  intros H. injection H as <-. apply title_truthy.
  destruct (PyStr.strip text); [discriminate Hlen | reflexivity].
Qed.

Lemma lastn_two :
  forall (A : Type) (l : list A),
    2 <= List.length l -> exists x y, lastn 2 l = [x; y].
Proof.
  intros A l Hlen. unfold lastn.
  assert (Hrest : List.length (skipn (List.length l - 2) l) = 2)
    by (rewrite length_skipn; lia).
  destruct (skipn (List.length l - 2) l) as [| x [| y [| z rest]]];
    try discriminate Hrest.
  now exists x, y.
Qed.

Lemma join_two_truthy :
  forall x y, PyStr.truthy (PyStr.join " " [x; y]) = true.
Proof. intros [| ch x] y; reflexivity. Qed.

(** X25. A name extracted from a query is never the empty string; a query
    that contains the key of a known actor, in any letter case, gets the
    full name of a known actor whose key it contains; and no name is found
    only when the query contains no known actor's key and has at most one
    word that is no stop word. *)
Theorem extract_actor_name_result :
  forall query,
    (forall name, extract_actor_name query = Some name -> PyStr.truthy name = true)
    /\ (forall key full_name,
           In (key, full_name) known_actors ->
           PyStr.contains key (PyStr.lower query) = true ->
           exists key' full_name',
             In (key', full_name') known_actors
             /\ PyStr.contains key' (PyStr.lower query) = true
             /\ extract_actor_name query = Some full_name')
    /\ (extract_actor_name query = None ->
        (forall key full_name,
            In (key, full_name) known_actors ->
            PyStr.contains key (PyStr.lower query) = false)
        /\ List.length
             (filter (fun x => negb (mem_string (PyStr.lower x) stop_words))
                     (PyStr.split query)) <= 1).
Proof.
  intros query. unfold extract_actor_name.
  destruct (first_known_actor (PyStr.lower query) known_actors) as [full |] eqn:Hknown.
  - apply first_known_actor_some in Hknown. destruct Hknown as (key0 & Hin & Hc).
    split; [| split].
    + intros name H. injection H as <-.
      unfold known_actors in Hin. cbn [In] in Hin.
      repeat (destruct Hin as [Hin | Hin]; [injection Hin as <- <-; reflexivity |]).
      contradiction.
    + intros _ _ _ _. now exists key0, full.
    + discriminate.
  - pose proof (first_known_actor_none _ _ Hknown) as Hnone.
    split; [| split].
    + destruct (first_pattern_name query extract_patterns) as [found |] eqn:Hpattern.
      * intros name H. injection H as <-.
        now apply (first_pattern_name_truthy query extract_patterns).
      * set (clean_words :=
               filter (fun x => negb (mem_string (PyStr.lower x) stop_words))
                      (PyStr.split query)).
        set (keep := fun x => PyStr.truthy x
                              && (first_char_upper x
                                  || (Nat.ltb 4 (String.length x) && PyStr.isalpha x))).
        destruct (filter keep clean_words) as [| first [| second rest]] eqn:Hcap.
        -- destruct (Nat.leb 2 (List.length clean_words)) eqn:Hlen; [| discriminate].
           intros name H. injection H as <-. apply title_truthy.
           apply Nat.leb_le in Hlen.
           destruct (lastn_two _ clean_words Hlen) as (x & y & ->).
           apply join_two_truthy.
        -- intros name H. injection H as <-.
           assert (Hin : In first (filter keep clean_words)) by (rewrite Hcap; now left).
           apply filter_In in Hin. destruct Hin as [_ Hkeep].
           unfold keep in Hkeep. now apply andb_true_iff in Hkeep.
        -- intros name H. injection H as <-.
           destruct (lastn_two _ (first :: second :: rest)) as (x & y & ->);
             [cbn [List.length]; lia | apply join_two_truthy].
    + intros key full_name Hin Hc. rewrite (Hnone key full_name Hin) in Hc. discriminate.
    + destruct (first_pattern_name query extract_patterns); [discriminate |].
      destruct (filter _ (filter _ (PyStr.split query))) as [| first [| second rest]];
        [| discriminate | discriminate].
      destruct (Nat.leb 2 (List.length _)) eqn:Hlen; [discriminate |].
      intros _. split; [exact Hnone |].
      apply Nat.leb_gt in Hlen. lia.
Qed.
